(** * Review Gate V2: the file-based signalling protocol

    A shallow embedding of the polling handshake of
    [V2/review_gate_v2_mcp.py]: the request emitter, the acknowledgement
    waiter, the response waiter, the speech-request processor and the tool
    dispatcher, together with the properties the protocol relies on.

    Conventions of the embedding.
    - Python values that come out of [json.loads] are the type [pyval].
    - Text is [string]; one character is one code point below 256.
    - Wall-clock time is an integer number of milliseconds; the
      [timeout] arguments are in seconds, as in the source.
    - The shared temporary directory is a finite map from path to file
      body.  The host (the editor extension) is another process: it may
      rewrite the directory before every single operation of the server.
    - Files are read in text mode: of a body the server sees a line feed
      for every carriage return, with or without a line feed after it.
    - A write, a sync and the deletion of a file that is there can each
      be refused by the system, operation by operation.
    - [async def] bodies are run to completion; an [await asyncio.sleep]
      is an operation that lets time and the host advance.
    - [while] loops take a bound on the number of iterations. *)

From Stdlib Require Import ZArith String List Ascii Bool Lia.
From Stdlib Require Import Floats.SpecFloat.
From stdpp Require Import base option gmap strings list pretty.

Open Scope string_scope.
Open Scope Z_scope.

(** ** Python values *)

Set Warnings "-register-all".

Module Py.

(** What [json.loads] can return. *)
Inductive pyval : Type :=
| PNone
| PBool (b : bool)
| PInt (z : Z)
| PFloat (f : spec_float)
| PStr (s : string)
| PList (l : list pyval)
| PDict (d : list (string * pyval)).

Inductive exn_kind : Set :=
| FileNotFoundError | OSError | JSONDecodeError | AttributeError
| TypeError | ValueError | OtherError.

(** An exception object: its class and what [str(e)] gives. *)
Record exn : Set := Exn { kind : exn_kind; msg : string }.

Inductive res (A : Type) : Type :=
| Ok (a : A)
| Raise (e : exn).
Arguments Ok {A} a.
Arguments Raise {A} e.

Definition is_raise {A} (r : res A) : bool :=
  match r with Ok _ => false | Raise _ => true end.

(** [bool(v)] *)
Definition truthy (v : pyval) : bool :=
  match v with
  | PNone => false
  | PBool b => b
  | PInt z => negb (z =? 0)
  | PFloat (S754_zero _) => false
  | PFloat _ => true
  | PStr s => negb (String.eqb s "")
  | PList l => match l with [] => false | _ => true end
  | PDict d => match d with [] => false | _ => true end
  end.

(** [v != t] for a [str] [t]. *)
Definition ne_str (v : pyval) (t : string) : bool :=
  match v with
  | PStr s => negb (String.eqb s t)
  | _ => true
  end.

Definition type_name (v : pyval) : string :=
  match v with
  | PNone => "NoneType"
  | PBool _ => "bool"
  | PInt _ => "int"
  | PFloat _ => "float"
  | PStr _ => "str"
  | PList _ => "list"
  | PDict _ => "dict"
  end.

Definition no_attribute (v : pyval) (attr : string) : exn :=
  Exn AttributeError
      ("'" +:+ type_name v +:+ "' object has no attribute '" +:+ attr +:+ "'").

(** A [dict] is kept as its items; a key is looked up from the front. *)
Fixpoint dict_get (d : list (string * pyval)) (k : string) : option pyval :=
  match d with
  | [] => None
  | (k', v) :: d' => if String.eqb k' k then Some v else dict_get d' k
  end.

(** [v.get(k, dflt)] *)
Definition get (v : pyval) (k : string) (dflt : pyval) : res pyval :=
  match v with
  | PDict d => Ok (default dflt (dict_get d k))
  | _ => Raise (no_attribute v "get")
  end.

(** [str.isspace] on one character. *)
Definition isspace (c : ascii) : bool :=
  let n := nat_of_ascii c in
  (((9 <=? n) && (n <=? 13)) || ((28 <=? n) && (n <=? 32))
   || (n =? 133) || (n =? 160))%nat.

Fixpoint lstrip (s : string) : string :=
  match s with
  | EmptyString => EmptyString
  | String c s' => if isspace c then lstrip s' else s
  end.

Fixpoint rstrip (s : string) : string :=
  match s with
  | EmptyString => EmptyString
  | String c s' =>
      match rstrip s' with
      | EmptyString => if isspace c then EmptyString else String c EmptyString
      | r => String c r
      end
  end.

(** [s.strip()] *)
Definition strip (s : string) : string := rstrip (lstrip s).

(** [s.startswith(p)] *)
Fixpoint startswith (s p : string) {struct p} : bool :=
  match p with
  | EmptyString => true
  | String c p' =>
      match s with
      | String c' s' => Ascii.eqb c c' && startswith s' p'
      | EmptyString => false
      end
  end.

(** [v.strip()] on a value that may not be a [str]. *)
Definition strip_val (v : pyval) : res string :=
  match v with
  | PStr s => Ok (strip s)
  | _ => Raise (no_attribute v "strip")
  end.

(** [v.startswith(p)] on a value that may not be a [str]. *)
Definition startswith_val (v : pyval) (p : string) : res bool :=
  match v with
  | PStr s => Ok (startswith s p)
  | _ => Raise (no_attribute v "startswith")
  end.

(** [len(v)] *)
Definition len (v : pyval) : res nat :=
  match v with
  | PStr s => Ok (String.length s)
  | PList l => Ok (List.length l)
  | PDict d => Ok (List.length d)
  | _ => Raise (Exn TypeError
                  ("object of type '" +:+ type_name v +:+ "' has no len()"))
  end.

Fixpoint chars (s : string) : list pyval :=
  match s with
  | EmptyString => []
  | String c s' => PStr (String c EmptyString) :: chars s'
  end.

(** The items a [for x in v] visits. *)
Definition iter (v : pyval) : res (list pyval) :=
  match v with
  | PList l => Ok l
  | PDict d => Ok (map (fun kv => PStr (fst kv)) d)
  | PStr s => Ok (chars s)
  | _ => Raise (Exn TypeError
                  ("'" +:+ type_name v +:+ "' object is not iterable"))
  end.

(** [sep.join(l)] *)
Definition join (sep : string) (l : list string) : string :=
  String.concat sep l.

Definition newline : string := String (ascii_of_nat 10) EmptyString.

(** What reading in text mode makes of the ends of lines: a carriage
    return followed by a line feed, and a carriage return alone, are read
    as one line feed. *)
Fixpoint universal_newlines (s : string) : string :=
  match s with
  | EmptyString => EmptyString
  | String c s' =>
      if (nat_of_ascii c =? 13)%nat then
        match s' with
        | String c' s'' =>
            if (nat_of_ascii c' =? 10)%nat
            then String c' (universal_newlines s'')
            else String (ascii_of_nat 10) (universal_newlines s')
        | EmptyString => String (ascii_of_nat 10) EmptyString
        end
      else String c (universal_newlines s')
  end.

End Py.
Export Py.

(** ** The process and its surroundings *)

(** Library and operating-system functions the server calls. *)
Class Runtime : Type := {
  (** [json.loads]: the value, or the text of the [JSONDecodeError]. *)
  json_loads : string -> pyval + string;
  (** [json.dumps(v, indent=2)] *)
  json_dumps : pyval -> string;
  (** [str(v)] for a value that is not a [str]. *)
  repr : pyval -> string;
  (** [datetime.now().isoformat()] when the clock shows the given time. *)
  isoformat : Z -> string;
  (** [tempfile.gettempdir()] *)
  temp_dir : string;
  (** [os.getpid()] *)
  getpid : Z;
  (** [str(e)] of the [OSError] an operation on a path raises. *)
  os_error_text : exn_kind -> string -> string;
  (** Whether a file descriptor is open ([os.path.exists] of an [int]). *)
  fd_open : Z -> bool;
  (** [WhisperModel.transcribe] followed by the join over the segments'
      text: the joined text, or the exception raised on the way. *)
  transcribe : pyval -> gmap string string -> res string
}.

(** What the server does not control: the host process, the passing of
    time and failing system calls.  Operations are numbered from the start
    of the run. *)
Class Host : Type := {
  (** The host's edit of the shared directory just before operation [n]. *)
  host_step : nat -> gmap string string -> gmap string string;
  (** Milliseconds operation [n] takes (on top of a requested sleep). *)
  elapse : nat -> Z;
  (** Operation [n], if it is a write, fails. *)
  write_fails : nat -> bool;
  (** Operation [n], if it is an [os.sync], fails. *)
  sync_fails : nat -> bool;
  (** Operation [n], if it is an [unlink] of a file that is there, fails
      and leaves the file (a directory that cannot be written, a file
      held open). *)
  unlink_fails : nat -> bool
}.

(** The log, with the file body in scope where the source logs about a
    response file. *)
Inductive event : Type :=
| FoundResponse (p file_content : string)
| TriggerMismatch (p file_content : string)
| CleanedUp (p file_content : string)
| CleanupError (p file_content : string) (e : exn)
| ReceivedInput (p file_content user_input : string)
| EmptyInput (p file_content : string)
| DecodeError (p : string) (e : exn)
| ProcessingError (p : string) (e : exn)
| WaitLoopError (e : exn)
| InputTimeout
| AckCleaned (body : string)
| Acknowledged (body : string)
| AckError (e : exn)
| AckTimeout
| TriggerNotCreated
| TriggerEmpty
| TriggerConsumedImmediately
| SyncFailed (attempt : nat) (e : exn)
| TriggerCreated (file_size : nat)
| BackupsCreated
| BackupFailed (e : exn)
| TriggerStillExists
| TriggerConsumed
| TriggerStatusUnknown (e : exn)
| LogFileSeen (present : bool)
| TriggerFailed (e : exn)
| SpeechInvalid
| SpeechNoModel
| SpeechNoAudio (audio_file : pyval)
| SpeechTranscribed (transcription : string)
| SpeechWritten (response_file : string)
| SpeechWriteFailed (e : exn)
| SpeechFailed (e : exn)
| AudioCleaned (audio_file : pyval)
| AudioCleanupFailed (e : exn)
| ToolCalled (name : string)
| UnknownTool (name : string)
| ToolError (name : string) (e : exn).

(** A loaded speech model; [None] when it could not be loaded. *)
Inductive WhisperModel : Set := BaseModel.

(** The shared directory, the clock, and the fields of [ReviewGateServer]. *)
Record state : Type := State {
  files : gmap string string;
  clock : Z;
  ops : nat;
  _last_attachments : pyval;
  _whisper_model : option WhisperModel;
  journal : list event
}.

Definition with_files (f : gmap string string) (s : state) : state :=
  State f (clock s) (ops s) (_last_attachments s) (_whisper_model s) (journal s).

Definition with_attachments (a : pyval) (s : state) : state :=
  State (files s) (clock s) (ops s) a (_whisper_model s) (journal s).

Definition with_journal (j : list event) (s : state) : state :=
  State (files s) (clock s) (ops s) (_last_attachments s) (_whisper_model s) j.

Definition advance (ms : Z) (s : state) : state :=
  State (files s) (clock s + ms) (ops s) (_last_attachments s)
        (_whisper_model s) (journal s).

(** One operation goes by: the host has had its turn and time has passed. *)
Definition tick `{Host} (s : state) : state :=
  State (host_step (ops s) (files s)) (clock s + elapse (ops s)) (S (ops s))
        (_last_attachments s) (_whisper_model s) (journal s).

#[global] Arguments tick : simpl never.

(** ** Computations that change the state and may raise *)

Definition M (A : Type) : Type := state -> res A * state.

Definition ret {A} (a : A) : M A := fun s => (Ok a, s).

Definition bind {A B} (m : M A) (k : A -> M B) : M B :=
  fun s => match m s with
           | (Ok a, s') => k a s'
           | (Raise e, s') => (Raise e, s')
           end.

Definition lift {A} (r : res A) : M A := fun s => (r, s).

Definition raise {A} (e : exn) : M A := lift (Raise e).

(** [try: m  except Exception as e: h e] *)
Definition try_except {A} (m : M A) (h : exn -> M A) : M A :=
  fun s => match m s with
           | (Ok a, s') => (Ok a, s')
           | (Raise e, s') => h e s'
           end.

Definition and_then {A B} (r : res A) (k : A -> res B) : res B :=
  match r with
  | Ok a => k a
  | Raise e => Raise e
  end.

Declare Scope py_scope.
Delimit Scope py_scope with py.
Notation "x <- c ;; k" := (bind c (fun x => k))
  (at level 100, c at next level, right associativity) : py_scope.
Notation "c ;; k" := (bind c (fun _ => k))
  (at level 100, right associativity) : py_scope.
Notation "x <~ c ;; k" := (and_then c (fun x => k))
  (at level 100, c at next level, right associativity) : py_scope.
Open Scope py_scope.

#[global] Instance exn_kind_eq_dec : EqDecision exn_kind.
Proof. solve_decision. Defined.

(** [try: m  except K as e: h e], for one exception class [K]. *)
Definition try_except_kind {A} (K : exn_kind) (m : M A) (h : exn -> M A) : M A :=
  fun s => match m s with
           | (Ok a, s') => (Ok a, s')
           | (Raise e, s') =>
               if bool_decide (kind e = K) then h e s' else (Raise e, s')
           end.

Definition say (ev : event) : M unit :=
  fun s => (Ok tt, with_journal (ev :: journal s) s).

Definition set_last_attachments (a : pyval) : M unit :=
  fun s => (Ok tt, with_attachments a s).

(** *** File and clock operations *)

Section Operations.
Context `{Runtime} `{Host}.

(** [Path(p).exists()] *)
Definition path_exists (p : string) : M bool :=
  fun s => let s1 := tick s in
           (Ok (match files s1 !! p with Some _ => true | None => false end), s1).

Definition not_found (p : string) : exn :=
  Exn FileNotFoundError (os_error_text FileNotFoundError p).

(** [Path(p).read_text()]: the body as text mode hands it over. *)
Definition read_text (p : string) : M string :=
  fun s => let s1 := tick s in
           match files s1 !! p with
           | Some body => (Ok (universal_newlines body), s1)
           | None => (Raise (not_found p), s1)
           end.

(** The [PermissionError] of an operation on [p] that is refused. *)
Definition refused (p : string) : exn :=
  Exn OSError (os_error_text OSError p).

(** [Path(p).unlink()] *)
Definition unlink (p : string) : M unit :=
  fun s => let s1 := tick s in
           match files s1 !! p with
           | Some _ =>
               if unlink_fails (ops s) then (Raise (refused p), s1)
               else (Ok tt, with_files (delete p (files s1)) s1)
           | None => (Raise (not_found p), s1)
           end.

(** [Path(p).write_text(body)] *)
Definition write_text (p body : string) : M unit :=
  fun s => let s1 := tick s in
           if write_fails (ops s)
           then (Raise (Exn OSError (os_error_text OSError p)), s1)
           else (Ok tt, with_files (<[p := body]> (files s1)) s1).

(** [Path(p).stat().st_size] *)
Definition stat_size (p : string) : M nat :=
  fun s => let s1 := tick s in
           match files s1 !! p with
           | Some body => (Ok (String.length body), s1)
           | None => (Raise (not_found p), s1)
           end.

(** [os.sync()] *)
Definition os_sync : M unit :=
  fun s => let s1 := tick s in
           if sync_fails (ops s)
           then (Raise (Exn OSError (os_error_text OSError "")), s1)
           else (Ok tt, s1).

(** [await asyncio.sleep(ms / 1000)] *)
Definition sleep (ms : Z) : M unit :=
  fun s => (Ok tt, advance ms (tick s)).

(** [time.time()], in milliseconds. *)
Definition time_now : M Z := fun s => (Ok (clock s), s).

(** [datetime.now().isoformat()] *)
Definition now_iso : M string := fun s => (Ok (isoformat (clock s)), s).

Fixpoint ends_with_sep (s : string) : bool :=
  match s with
  | EmptyString => false
  | String c EmptyString => Ascii.eqb c "/"
  | String _ s' => ends_with_sep s'
  end.

(** [os.path.join(a, b)] *)
Definition os_path_join (a b : string) : string :=
  if startswith b "/" then b
  else if String.eqb a "" || ends_with_sep a then a +:+ b
  else a +:+ "/" +:+ b.

Definition get_temp_dir : string := temp_dir.

Definition get_log_file : string := os_path_join get_temp_dir "review_gate_v2.log".

(** [f"{v}"] *)
Definition format (v : pyval) : string :=
  match v with
  | PStr s => s
  | _ => repr v
  end.

(** [json.loads(text)] *)
Definition loads (text : string) : res pyval :=
  match json_loads text with
  | inl v => Ok v
  | inr m => Raise (Exn JSONDecodeError m)
  end.

End Operations.

(** ** The response waiter: [_wait_for_user_input] *)

Section ResponseWaiter.
Context `{Runtime} `{Host}.

(** The four file names polled for trigger id [trigger_id]. *)
Definition response_patterns (trigger_id : string) : list string :=
  [ os_path_join get_temp_dir ("review_gate_response_" +:+ trigger_id +:+ ".json");
    os_path_join get_temp_dir "review_gate_response.json";
    os_path_join get_temp_dir ("mcp_response_" +:+ trigger_id +:+ ".json");
    os_path_join get_temp_dir "mcp_response.json" ].

(** [data.get("user_input", data.get("response", data.get("message", ""))).strip()] *)
Definition extract_text (data : pyval) : res string :=
  m <~ get data "message" (PStr "") ;;
  r <~ get data "response" m ;;
  u <~ get data "user_input" r ;;
  strip_val u.

(** The loop over the attachments: one description per image. *)
Fixpoint attachment_descriptions (atts : list pyval) : res (list string) :=
  match atts with
  | [] => Ok []
  | att :: rest =>
      mime <~ get att "mimeType" (PStr "") ;;
      is_image <~ startswith_val mime "image/" ;;
      if (is_image : bool) then
        name <~ get att "fileName" (PStr "unknown") ;;
        ds <~ attachment_descriptions rest ;;
        Ok (("Image: " +:+ format name) :: ds)
      else attachment_descriptions rest
  end.

(** What reading one response file leads to: [continue] without touching
    the file, or going on to the clean-up with the text to hand back. *)
Inductive verdict : Type :=
| Skip
| Accept (user_input : string).

(** [if attachments: ... else: ...]: the attachments become the stored
    ones, and the images among them are named after the text. *)
Definition record_attachments (attachments : pyval) (user_input : string)
  : M string :=
  if truthy attachments then
    _ <- lift (len attachments) ;;
    set_last_attachments attachments ;;
    items <- lift (iter attachments) ;;
    descriptions <- lift (attachment_descriptions items) ;;
    match descriptions with
    | [] => ret user_input
    | _ => ret (user_input +:+ newline +:+ newline +:+ "Attached: "
                +:+ join ", " descriptions)
    end
  else
    set_last_attachments (PList []) ;;
    ret user_input.

(** The JSON branch after the text is extracted: the attachments, the
    check of the trigger id and the recording of the attachments. *)
Definition judge_response (trigger_id p file_content : string) (data : pyval)
  (user_input : string) : M verdict :=
  attachments <- lift (get data "attachments" (PList [])) ;;
  response_trigger_id <- lift (get data "trigger_id" (PStr "")) ;;
  if truthy response_trigger_id && ne_str response_trigger_id trigger_id then
    say (TriggerMismatch p file_content) ;;
    ret Skip
  else
    text <- record_attachments attachments user_input ;;
    ret (Accept text).

(** The JSON branch, once the body is parsed. *)
Definition interpret_json (trigger_id p file_content : string) (data : pyval)
  : M verdict :=
  user_input <- lift (extract_text data) ;;
  judge_response trigger_id p file_content data user_input.

(** From the test on the first character to the end of the two branches. *)
Definition interpret (trigger_id p file_content : string) : M verdict :=
  if startswith file_content "{" then
    data <- lift (loads file_content) ;;
    interpret_json trigger_id p file_content data
  else
    set_last_attachments (PList []) ;;
    ret (Accept file_content).

(** The clean-up and the test on the text. *)
Definition consume (p file_content user_input : string) : M (option string) :=
  try_except (unlink p ;; say (CleanedUp p file_content))
             (fun e => say (CleanupError p file_content e)) ;;
  if negb (String.eqb user_input "") then
    say (ReceivedInput p file_content user_input) ;;
    ret (Some user_input)
  else
    say (EmptyInput p file_content) ;;
    ret None.

(** The body of the [for] loop for one file name: [Some text] is
    [return text], [None] goes on with the next file name. *)
Definition handle_candidate (trigger_id p : string) : M (option string) :=
  found <- path_exists p ;;
  if (found : bool) then
    try_except
      (raw <- read_text p ;;
       let file_content := strip raw in
       say (FoundResponse p file_content) ;;
       v <- interpret trigger_id p file_content ;;
       match v with
       | Skip => ret None
       | Accept user_input => consume p file_content user_input
       end)
      (fun e =>
         (if bool_decide (kind e = JSONDecodeError)
          then say (DecodeError p e)
          else say (ProcessingError p e)) ;;
         ret None)
  else ret None.

Fixpoint scan_candidates (trigger_id : string) (ps : list string)
  : M (option string) :=
  match ps with
  | [] => ret None
  | p :: rest =>
      r <- handle_candidate trigger_id p ;;
      match r with
      | Some text => ret (Some text)
      | None => scan_candidates trigger_id rest
      end
  end.

(** One turn of the [while] loop. *)
Definition poll_responses (trigger_id : string) : M (option string) :=
  try_except
    (r <- scan_candidates trigger_id (response_patterns trigger_id) ;;
     match r with
     | Some text => ret (Some text)
     | None => sleep 100 ;; ret None
     end)
    (fun e => say (WaitLoopError e) ;; sleep 500 ;; ret None).

(** The [while] loop, for at most [fuel] turns.  The outer [None] means
    the turns ran out with the loop still going; [Some r] is the value the
    function returns. *)
Fixpoint wait_input_loop (fuel : nat) (trigger_id : string) (start_time timeout : Z)
  : M (option (option string)) :=
  match fuel with
  | O => ret None
  | S fuel' =>
      now <- time_now ;;
      if now - start_time <? 1000 * timeout then
        r <- poll_responses trigger_id ;;
        match r with
        | Some text => ret (Some (Some text))
        | None => wait_input_loop fuel' trigger_id start_time timeout
        end
      else
        say InputTimeout ;;
        ret (Some None)
  end.

Definition _wait_for_user_input (fuel : nat) (trigger_id : string) (timeout : Z)
  : M (option (option string)) :=
  start_time <- time_now ;;
  wait_input_loop fuel trigger_id start_time timeout.

End ResponseWaiter.

(** ** The acknowledgement waiter: [_wait_for_extension_acknowledgement] *)

Section AcknowledgementWaiter.
Context `{Runtime} `{Host}.

Definition ack_file (trigger_id : string) : string :=
  os_path_join get_temp_dir ("review_gate_ack_" +:+ trigger_id +:+ ".json").

(** The [if ack_file.exists():] block: [true] is [return True]. *)
Definition check_acknowledgement (trigger_id : string) : M bool :=
  found <- path_exists (ack_file trigger_id) ;;
  if (found : bool) then
    body <- read_text (ack_file trigger_id) ;;
    data <- lift (loads body) ;;
    ack_status <- lift (get data "acknowledged" (PBool false)) ;;
    try_except (unlink (ack_file trigger_id) ;; say (AckCleaned body))
               (fun _ => ret tt) ;;
    if truthy ack_status then
      say (Acknowledged body) ;;
      ret true
    else ret false
  else ret false.

(** One turn of the [while] loop: [true] is [return True]. *)
Definition poll_acknowledgement (trigger_id : string) : M bool :=
  try_except
    (acked <- check_acknowledgement trigger_id ;;
     if (acked : bool) then ret true else sleep 100 ;; ret false)
    (fun e => say (AckError e) ;; sleep 500 ;; ret false).

(** The [while] loop for at most [fuel] turns; [None] when they ran out. *)
Fixpoint wait_ack_loop (fuel : nat) (trigger_id : string) (start_time timeout : Z)
  : M (option bool) :=
  match fuel with
  | O => ret None
  | S fuel' =>
      now <- time_now ;;
      if now - start_time <? 1000 * timeout then
        acked <- poll_acknowledgement trigger_id ;;
        if (acked : bool) then ret (Some true)
        else wait_ack_loop fuel' trigger_id start_time timeout
      else
        say AckTimeout ;;
        ret (Some false)
  end.

Definition _wait_for_extension_acknowledgement
  (fuel : nat) (trigger_id : string) (timeout : Z) : M (option bool) :=
  start_time <- time_now ;;
  wait_ack_loop fuel trigger_id start_time timeout.

End AcknowledgementWaiter.

(** ** The request emitter: [_trigger_cursor_popup_immediately] *)

Section Emitter.
Context `{Runtime} `{Host}.

Definition trigger_file : string :=
  os_path_join get_temp_dir "review_gate_trigger.json".

Definition backup_trigger (i : Z) : string :=
  os_path_join get_temp_dir ("review_gate_trigger_" +:+ pretty i +:+ ".json").

Definition trigger_data (data : pyval) (timestamp : string) : pyval :=
  PDict [ ("timestamp", PStr timestamp);
          ("system", PStr "review-gate-v2");
          ("editor", PStr "cursor");
          ("data", data);
          ("pid", PInt getpid);
          ("active_window", PBool true);
          ("mcp_integration", PBool true);
          ("immediate_activation", PBool true) ].

Definition backup_data (i : Z) (data : pyval) (timestamp : string) : pyval :=
  PDict [ ("backup_id", PInt i);
          ("timestamp", PStr timestamp);
          ("system", PStr "review-gate-v2");
          ("data", data);
          ("mcp_integration", PBool true);
          ("immediate_activation", PBool true) ].

(** [for i in range(3): backup_trigger.write_text(...)] *)
Fixpoint write_backups (data : pyval) (ids : list Z) : M unit :=
  match ids with
  | [] => ret tt
  | i :: rest =>
      timestamp <- now_iso ;;
      write_text (backup_trigger i) (json_dumps (backup_data i data timestamp)) ;;
      write_backups data rest
  end.

Definition _create_backup_triggers (data : pyval) : M unit :=
  try_except (write_backups data [0; 1; 2] ;; say BackupsCreated)
             (fun e => say (BackupFailed e)).

(** [for attempt in range(3): try: os.sync(); break  except ...] *)
Fixpoint sync_with_retry (attempts : list nat) : M unit :=
  match attempts with
  | [] => ret tt
  | attempt :: rest =>
      synced <- try_except (os_sync ;; ret true)
                  (fun e => say (SyncFailed (attempt + 1) e) ;; sleep 100 ;; ret false) ;;
      if (synced : bool) then ret tt else sync_with_retry rest
  end.

(** What follows the size check, up to [return True]. *)
Definition after_verification (data : pyval) (file_size : nat) : M bool :=
  sync_with_retry [0; 1; 2]%nat ;;
  say (TriggerCreated file_size) ;;
  _create_backup_triggers data ;;
  sleep 200 ;;
  try_except
    (still <- path_exists trigger_file ;;
     if (still : bool) then say TriggerStillExists else say TriggerConsumed)
    (fun e => say (TriggerStatusUnknown e)) ;;
  present <- path_exists get_log_file ;;
  say (LogFileSeen present) ;;
  ret true.

Definition _trigger_cursor_popup_immediately (data : pyval) : M bool :=
  try_except
    (sleep 100 ;;
     timestamp <- now_iso ;;
     let text := json_dumps (trigger_data data timestamp) in
     write_text trigger_file text ;;
     present <- path_exists trigger_file ;;
     if negb present then
       say TriggerNotCreated ;;
       ret false
     else
       (** [None] is the [return False] of an empty file. *)
       size <- try_except_kind FileNotFoundError
                 (file_size <- stat_size trigger_file ;;
                  if (file_size =? 0)%nat then say TriggerEmpty ;; ret None
                  else ret (Some file_size))
                 (fun _ => say TriggerConsumedImmediately ;;
                           ret (Some (String.length text))) ;;
       match size with
       | None => ret false
       | Some file_size => after_verification data file_size
       end)
    (fun e => say (TriggerFailed e) ;; sleep 1000 ;; ret false).

End Emitter.

(** ** The speech requests: [_process_speech_request] *)

Section Speech.
Context `{Runtime} `{Host}.

Definition speech_response_file (trigger_id : pyval) : string :=
  os_path_join get_temp_dir
    ("review_gate_speech_response_" +:+ format trigger_id +:+ ".json").

(** The [error] argument: [None] is Python's [None]. *)
Definition error_value (error : option string) : pyval :=
  match error with
  | None => PNone
  | Some text => PStr text
  end.

Definition response_data (timestamp : string) (trigger_id : pyval)
  (transcription : string) (error : option string) : pyval :=
  PDict [ ("timestamp", PStr timestamp);
          ("trigger_id", trigger_id);
          ("transcription", PStr transcription);
          ("success", PBool (match error with None => true | Some _ => false end));
          ("error", error_value error);
          ("source", PStr "review_gate_whisper") ].

Definition _write_speech_response (trigger_id : pyval) (transcription : string)
  (error : option string) : M unit :=
  try_except
    (let response_file := speech_response_file trigger_id in
     timestamp <- now_iso ;;
     write_text response_file
       (json_dumps (response_data timestamp trigger_id transcription error)) ;;
     say (SpeechWritten response_file))
    (fun e => say (SpeechWriteFailed e)).

Definition bad_path (what : string) (v : pyval) : exn :=
  Exn TypeError (what +:+ type_name v).

(** [os.path.exists(v)] *)
Definition os_path_exists (v : pyval) : M bool :=
  match v with
  | PStr p => path_exists p
  | PInt z => fun s => (Ok (fd_open z), tick s)
  | PBool b => fun s => (Ok (fd_open (if b then 1 else 0)), tick s)
  | _ => raise (bad_path
           "stat: path should be string, bytes, os.PathLike or integer, not " v)
  end.

(** [Path(v).unlink()] *)
Definition unlink_path (v : pyval) : M unit :=
  match v with
  | PStr p => unlink p
  | _ => raise (bad_path
           "expected str, bytes or os.PathLike object, not " v)
  end.

Definition whisper_model : M (option WhisperModel) :=
  fun s => (Ok (_whisper_model s), s).

(** [self._whisper_model.transcribe(audio_file, beam_size=5)] and the join. *)
Definition run_transcribe (audio_file : pyval) : M string :=
  fun s => let s1 := tick s in (transcribe audio_file (files s1), s1).

Definition _process_speech_request (trigger_data : pyval) : M unit :=
  try_except
    (d1 <- lift (get trigger_data "data" (PDict [])) ;;
     audio_file <- lift (get d1 "audio_file" PNone) ;;
     d2 <- lift (get trigger_data "data" (PDict [])) ;;
     trigger_id <- lift (get d2 "trigger_id" PNone) ;;
     if negb (truthy audio_file) || negb (truthy trigger_id) then
       say SpeechInvalid
     else
       model <- whisper_model ;;
       match model with
       | None =>
           say SpeechNoModel ;;
           _write_speech_response trigger_id "" (Some "Whisper model not available")
       | Some _ =>
           present <- os_path_exists audio_file ;;
           if negb present then
             say (SpeechNoAudio audio_file) ;;
             _write_speech_response trigger_id "" (Some "Audio file not found")
           else
             joined <- run_transcribe audio_file ;;
             let transcription := strip joined in
             say (SpeechTranscribed transcription) ;;
             _write_speech_response trigger_id transcription None ;;
             try_except (unlink_path audio_file ;; say (AudioCleaned audio_file))
                        (fun e => say (AudioCleanupFailed e))
       end)
    (fun e =>
       say (SpeechFailed e) ;;
       d <- lift (get trigger_data "data" (PDict [])) ;;
       trigger_id <- lift (get d "trigger_id" (PStr "unknown")) ;;
       _write_speech_response trigger_id "" (Some (msg e))).

End Speech.

(** ** The tool dispatcher: [call_tool] *)

Inductive content : Type :=
| TextContent (text : string)
| ImageContent (data mimeType : string).

Section Dispatcher.
Context `{Runtime} `{Host}.

(** The handler of the one registered tool; what it does plays no part
    in the dispatch on the name. *)
Variable _handle_review_gate_chat : pyval -> M (list content).

Definition call_tool (name : string) (arguments : pyval) : M (list content) :=
  say (ToolCalled name) ;;
  sleep 500 ;;
  try_except
    (if String.eqb name "review_gate_chat" then
       _handle_review_gate_chat arguments
     else
       say (UnknownTool name) ;;
       sleep 1000 ;;
       raise (Exn ValueError ("Unknown tool: " +:+ name)))
    (fun e =>
       say (ToolError name e) ;;
       sleep 1000 ;;
       ret [TextContent ("ERROR: Tool " +:+ name +:+ " failed: " +:+ msg e)]).

End Dispatcher.

(** ** The review tool: [_handle_review_gate_chat]

    The log lines of the functions from here on are left out: they have no
    part in what is returned or written. *)

Section ReviewGateChat.
Context `{Runtime} `{Host}.

(** The default of [title], as the bytes of its UTF-8 encoding. *)
Definition default_title : string := "Review Gate V2 - ゲート".

(** The request handed to the emitter. *)
Definition chat_request (message title context urgent : pyval)
  (trigger_id timestamp : string) : pyval :=
  PDict [ ("tool", PStr "review_gate_chat");
          ("message", message);
          ("title", title);
          ("context", context);
          ("urgent", urgent);
          ("trigger_id", PStr trigger_id);
          ("timestamp", PStr timestamp);
          ("immediate_activation", PBool true) ].

(** The [try] block that builds one [ImageContent] from
    [attachment["base64Data"]] and [attachment["mimeType"]]; [None] when it
    raises (a missing key, or a value that the content model does not
    accept as a [str]), which the [except] branch only logs. *)
Definition image_of (attachment : pyval) : option content :=
  match attachment with
  | PDict d =>
      match dict_get d "base64Data", dict_get d "mimeType" with
      | Some (PStr data), Some (PStr mimeType) => Some (ImageContent data mimeType)
      | _, _ => None
      end
  | _ => None
  end.

(** [for attachment in self._last_attachments: ...] *)
Fixpoint add_images (attachments : list pyval) (response_content : list content)
  : res (list content) :=
  match attachments with
  | [] => Ok response_content
  | attachment :: rest =>
      mime <~ get attachment "mimeType" (PStr "") ;;
      is_image <~ startswith_val mime "image/" ;;
      if (is_image : bool) then
        match image_of attachment with
        | Some image_content =>
            add_images rest (response_content ++ [image_content])%list
        | None => add_images rest response_content
        end
      else add_images rest response_content
  end.

Definition last_attachments : M pyval :=
  fun s => (Ok (_last_attachments s), s).

(** The [if user_input:] branch: the text, then the stored images. *)
Definition review_response (user_input : string) : M (list content) :=
  let response_content := [TextContent ("User Response: " +:+ user_input)] in
  attachments <- last_attachments ;;
  if truthy attachments then
    items <- lift (iter attachments) ;;
    lift (add_images items response_content)
  else ret response_content.

Definition review_timeout : list content :=
  [TextContent "TIMEOUT: No user input received for review gate within 5 minutes"].

Definition review_not_triggered : list content :=
  [TextContent "ERROR: Failed to trigger Review Gate popup"].

(** Both wait loops take at most [fuel] turns; [None] when one of them
    ran out of turns. *)
Definition _handle_review_gate_chat (fuel : nat) (args : pyval)
  : M (option (list content)) :=
  message <- lift (get args "message" (PStr "Please provide your review:")) ;;
  title <- lift (get args "title" (PStr default_title)) ;;
  context <- lift (get args "context" (PStr "")) ;;
  urgent <- lift (get args "urgent" (PBool false)) ;;
  now <- time_now ;;
  let trigger_id := "review_" +:+ pretty now in
  timestamp <- now_iso ;;
  success <- _trigger_cursor_popup_immediately
               (chat_request message title context urgent trigger_id timestamp) ;;
  if (success : bool) then
    ack_received <- _wait_for_extension_acknowledgement fuel trigger_id 30 ;;
    match ack_received with
    | None => ret None
    | Some _ =>
        user_input <- _wait_for_user_input fuel trigger_id 300 ;;
        match user_input with
        | None => ret None
        | Some (Some text) =>
            if negb (String.eqb text "") then
              response_content <- review_response text ;;
              ret (Some response_content)
            else ret (Some review_timeout)
        | Some None => ret (Some review_timeout)
        end
    end
  else ret (Some review_not_triggered).

End ReviewGateChat.

(** ** The shutdown monitor: [_monitor_shutdown] *)

Section ShutdownMonitor.
Context `{Runtime} `{Host}.

(** [self.shutdown_requested] is set by another task: [shutdown_requested n]
    is what the test of the loop finds the [n]-th time. *)
Variable shutdown_requested : nat -> bool.

Definition temp_files : list string :=
  [ os_path_join get_temp_dir "review_gate_trigger.json";
    os_path_join get_temp_dir "review_gate_trigger_0.json";
    os_path_join get_temp_dir "review_gate_trigger_1.json";
    os_path_join get_temp_dir "review_gate_trigger_2.json" ].

(** [for temp_file in temp_files: if Path(temp_file).exists(): ...unlink()] *)
Fixpoint remove_files (fs : list string) : M unit :=
  match fs with
  | [] => ret tt
  | temp_file :: rest =>
      found <- path_exists temp_file ;;
      (if (found : bool) then unlink temp_file else ret tt) ;;
      remove_files rest
  end.

(** The clean-up before shutdown, up to [return True]. *)
Definition cleanup_before_shutdown : M bool :=
  try_except (remove_files temp_files) (fun _ => ret tt) ;;
  ret true.

(** [while not self.shutdown_requested: await asyncio.sleep(1)], from the
    [n]-th test on and for at most [fuel] turns; [false] when they ran
    out. *)
Fixpoint await_shutdown (fuel n : nat) : M bool :=
  match fuel with
  | O => ret false
  | S fuel' =>
      if shutdown_requested n then ret true
      else sleep 1000 ;; await_shutdown fuel' (S n)
  end.

Definition _monitor_shutdown (fuel : nat) : M (option bool) :=
  requested <- await_shutdown fuel 0 ;;
  if (requested : bool) then
    result <- cleanup_before_shutdown ;;
    ret (Some result)
  else ret None.

End ShutdownMonitor.

(** ** The speech triggers: the body of the loop of [monitor_speech_triggers] *)

Section SpeechTriggers.
Context `{Runtime} `{Host}.

(** [v == t] for a [str] [t]. *)
Definition eq_str (v : pyval) (t : string) : bool := negb (ne_str v t).

(** What is done with one file the pattern
    [review_gate_speech_trigger_*.json] matched. *)
Definition handle_speech_trigger (trigger_file : string) : M unit :=
  try_except
    (body <- read_text trigger_file ;;
     trigger_data <- lift (loads body) ;;
     data <- lift (get trigger_data "data" (PDict [])) ;;
     tool <- lift (get data "tool" PNone) ;;
     if eq_str tool "speech_to_text" then
       _process_speech_request trigger_data ;;
       unlink trigger_file
     else ret tt)
    (fun _ => try_except (unlink trigger_file) (fun _ => ret tt)).

End SpeechTriggers.

(** * The installer's helper: [V2/configure_mcp.py]

    What the script prints is left out. *)

Module ConfigureMcp.
Section Main.
Context `{Runtime} `{Host}.

(** The items left by [d.pop(k, None)]. *)
Fixpoint dict_pop (d : list (string * pyval)) (k : string)
  : list (string * pyval) :=
  match d with
  | [] => []
  | (k', v) :: d' =>
      if String.eqb k' k then dict_pop d' k else (k', v) :: dict_pop d' k
  end.

(** The items after [d[k] = v]: a key that is there keeps its place, a
    new one goes to the end. *)
Fixpoint dict_set (d : list (string * pyval)) (k : string) (v : pyval)
  : list (string * pyval) :=
  match d with
  | [] => [(k, v)]
  | (k', v') :: d' =>
      if String.eqb k' k then (k, v) :: d' else (k', v') :: dict_set d' k v
  end.

(** [v.pop(k, None)] on a value that may not be a [dict]: the items of
    [v] afterwards. *)
Definition pop (v : pyval) (k : string) : res (list (string * pyval)) :=
  match v with
  | PDict d => Ok (dict_pop d k)
  | PList _ => Raise (Exn TypeError "pop expected at most 1 argument, got 2")
  | _ => Raise (no_attribute v "pop")
  end.

(** The entry written for this server. *)
Definition server_entry (review_gate_dir : string) : pyval :=
  PDict [ ("command",
           PStr (os_path_join
                   (os_path_join (os_path_join review_gate_dir "venv") "Scripts")
                   "python.exe"));
          ("args", PList [PStr (os_path_join review_gate_dir "review_gate_v2_mcp.py")]);
          ("env", PDict [ ("PYTHONPATH", PStr review_gate_dir);
                          ("PYTHONUNBUFFERED", PStr "1");
                          ("REVIEW_GATE_MODE", PStr "cursor_integration") ]) ].

(** [existing_servers] when the new entry is about to be put in. *)
Definition read_existing_servers (mcp_file : string)
  : M (list (string * pyval)) :=
  present <- path_exists mcp_file ;;
  if (present : bool) then
    try_except
      (body <- read_text mcp_file ;;
       config <- lift (loads body) ;;
       existing_servers <- lift (get config "mcpServers" (PDict [])) ;;
       lift (pop existing_servers "review-gate-v2"))
      (fun _ => ret [])
  else ret [].

(** [config] as it is written. *)
Definition new_config (existing_servers : list (string * pyval))
  (review_gate_dir : string) : pyval :=
  PDict [ ("mcpServers",
           PDict (dict_set existing_servers "review-gate-v2"
                    (server_entry review_gate_dir))) ].

(** [main()] with [sys.argv] as its argument; the result is the exit
    status of the script. *)
Definition main (argv : list string) : M Z :=
  match argv with
  | [_; mcp_file; review_gate_dir] =>
      existing_servers <- read_existing_servers mcp_file ;;
      try_except
        (write_text mcp_file (json_dumps (new_config existing_servers review_gate_dir)) ;;
         ret 0)
        (fun _ => ret 1)
  | _ => ret 1
  end.

End Main.
End ConfigureMcp.

(** * The vocabulary of the properties *)

Section Vocabulary.
Context `{Runtime} `{Host}.

(** The value under the first of [names] that is a key of [d]. *)
Fixpoint first_present (d : list (string * pyval)) (names : list string)
  : option pyval :=
  match names with
  | [] => None
  | k :: rest =>
      match dict_get d k with
      | Some v => Some v
      | None => first_present d rest
      end
  end.

(** The text the field names stand for, in their order of priority:
    the stripped value of the first name present, the empty text when none
    is; a value that is not text has no [strip]. *)
Definition priority_text (d : list (string * pyval)) : res string :=
  match first_present d ["user_input"; "response"; "message"] with
  | Some v => strip_val v
  | None => Ok ""
  end.

(** A stripped body that is a JSON object with a [trigger_id] that counts
    as given (non-empty) and is not the awaited one. *)
Definition declares_other_id (trigger_id file_content : string) : Prop :=
  startswith file_content "{" = true /\
  exists d v, json_loads file_content = inl (PDict d) /\
              dict_get d "trigger_id" = Some v /\
              truthy v = true /\ v <> PStr trigger_id.

(** The stored attachments are those of the body, when it is a JSON
    object with a non-empty [attachments] array. *)
Definition records_attachments (file_content : string) (stored : pyval) : Prop :=
  forall d l, startswith file_content "{" = true ->
              json_loads file_content = inl (PDict d) ->
              dict_get d "attachments" = Some (PList l) ->
              l <> [] -> stored = PList l.

(** Nothing but the log and the stored attachments differs. *)
Definition same_world (s s1 : state) : Prop :=
  files s1 = files s /\ clock s1 = clock s /\ ops s1 = ops s /\
  _whisper_model s1 = _whisper_model s.

(** What the log may say about a file the waiter deleted, tried to delete
    or handed back: its body did not name another trigger id. *)
Definition event_ok (trigger_id : string) (ev : event) : Prop :=
  match ev with
  | CleanedUp _ file_content
  | CleanupError _ file_content _
  | ReceivedInput _ file_content _
  | EmptyInput _ file_content => ~ declares_other_id trigger_id file_content
  | _ => True
  end.

(** A returned text is the last thing logged, with the file it came from,
    and the stored attachments are those of that file. *)
Definition answered (r : option string) (s1 : state) (new : list event) : Prop :=
  match r with
  | None => True
  | Some text =>
      exists p file_content rest,
        new = ReceivedInput p file_content text :: rest /\
        records_attachments file_content (_last_attachments s1)
  end.

(** The invariant of the waiter's steps, from state [s] on: no exception,
    a log that only grows, by entries that are [event_ok]. *)
Definition waiter_ok {A} (trigger_id : string) (sel : A -> option string)
  (s : state) (x : res A * state) : Prop :=
  exists new, journal x.2 = (new ++ journal s)%list /\
              Forall (event_ok trigger_id) new /\
              match x.1 with
              | Raise _ => False
              | Ok a => answered (sel a) x.2 new
              end.

(** The text a finished call returns, if any. *)
Definition returned_text (r : option (option string)) : option string :=
  match r with
  | Some (Some text) => Some text
  | _ => None
  end.

(** The turns of a wait loop that [timeout] seconds leave room for. *)
Definition turns (timeout : Z) : nat := S (Z.to_nat (10 * timeout)).

(** A body that starts with the brace and does not parse. *)
Definition malformed (raw : string) : Prop :=
  startswith raw "{" = true /\ exists m, json_loads (strip raw) = inr m.

(** Every response file for [trigger_id] that is there is malformed, as
    it is read. *)
Definition nothing_usable (trigger_id : string) (fs : gmap string string) : Prop :=
  forall p raw, p ∈ response_patterns trigger_id -> fs !! p = Some raw ->
                malformed (universal_newlines raw).

(** No response file for [trigger_id] is there. *)
Definition nothing_there (trigger_id : string) (fs : gmap string string) : Prop :=
  forall p, p ∈ response_patterns trigger_id -> fs !! p = None.

(** A step that gives nothing back, deletes nothing, stores nothing and
    does not turn the clock back. *)
Definition idle_step {A} (quiet : gmap string string -> Prop)
  (x : res (option A) * state) (s : state) (ms : Z) : Prop :=
  x.1 = Ok None /\ quiet (files x.2) /\ clock s + ms <= clock x.2 /\
  _last_attachments x.2 = _last_attachments s.

(** A step of the waiter, begun in [s], that raises nothing, hands back
    no empty text and, when it hands back nothing, has let [ms]
    milliseconds pass where no operation takes a negative time. *)
Definition polls_on {A} (sel : A -> option string) (ms : Z) (s : state)
  (x : res A * state) : Prop :=
  match x.1 with
  | Raise _ => False
  | Ok a =>
      match sel a with
      | Some text => text <> ""
      | None => (forall n, 0 <= elapse n) -> clock s + ms <= clock x.2
      end
  end.

(** The result of the emitter, read off the three operations on the
    primary trigger file. *)
Definition verified (written : res unit) (present : res bool) (size : res nat)
  : bool :=
  match written, present, size with
  | Raise _, _, _ => false
  | Ok _, Ok true, Ok (S _) => true
  | Ok _, Ok true, Raise e => bool_decide (kind e = FileNotFoundError)
  | Ok _, _, _ => false
  end.

(** The flag of an acknowledgement body that parses to a dictionary. *)
Definition flag_of (d : list (string * pyval)) : bool :=
  truthy (default (PBool false) (dict_get d "acknowledged")).

(** The last thing logged is an acknowledgement whose flag counts as true. *)
Definition acknowledged (s1 : state) : Prop :=
  exists body d rest,
    journal s1 = Acknowledged body :: rest /\
    json_loads body = inl (PDict d) /\ flag_of d = true.

(** The result document for [trigger_id] is there, says [success: false]
    and carries [reason] in its [error] field. *)
Definition failure_reported (trigger_id : pyval) (reason : string) (s1 : state)
  : Prop :=
  exists d,
    files s1 !! speech_response_file trigger_id = Some (json_dumps (PDict d)) /\
    dict_get d "trigger_id" = Some trigger_id /\
    dict_get d "success" = Some (PBool false) /\
    dict_get d "error" = Some (PStr reason).

(** A speech request with a trigger id and the path of an audio file. *)
Definition speech_request (trigger_data trigger_id : pyval) (audio_file : string)
  : Prop :=
  exists td dd,
    trigger_data = PDict td /\
    dict_get td "data" = Some (PDict dd) /\
    dict_get dd "trigger_id" = Some trigger_id /\ truthy trigger_id = true /\
    dict_get dd "audio_file" = Some (PStr audio_file) /\ audio_file <> "".

End Vocabulary.

(** * Concrete surroundings for the examples *)

Module Demo.

Definition dq : string := String (ascii_of_nat 34) EmptyString.

(** A carriage return. *)
Definition cr : string := String (ascii_of_nat 13) EmptyString.

(** JSON text of a value without floats and without characters that need
    escaping. *)
Fixpoint render (v : pyval) : string :=
  match v with
  | PNone => "null"
  | PBool true => "true"
  | PBool false => "false"
  | PInt z => pretty z
  | PFloat _ => "NaN"
  | PStr s => dq +:+ s +:+ dq
  | PList l => "[" +:+ join ", " (map render l) +:+ "]"
  | PDict d =>
      "{" +:+ join ", " (map (fun kv => dq +:+ fst kv +:+ dq +:+ ": " +:+ render (snd kv)) d)
      +:+ "}"
  end.

(** [json.loads] on the texts of the given documents; any other text is
    taken to be malformed. *)
Fixpoint loads_among (docs : list pyval) (text : string) : pyval + string :=
  match docs with
  | [] => inr "Expecting property name enclosed in double quotes"
  | v :: rest => if String.eqb (render v) text then inl v else loads_among rest text
  end.

Definition str_of (v : pyval) : string :=
  match v with
  | PNone => "None"
  | PBool true => "True"
  | PBool false => "False"
  | PInt z => pretty z
  | _ => render v
  end.

Definition runtime (docs : list pyval)
  (transcriber : pyval -> gmap string string -> res string) : Runtime :=
  {| json_loads := loads_among docs;
     json_dumps := render;
     repr := str_of;
     isoformat := fun t => "t+" +:+ pretty t;
     temp_dir := "/tmp";
     getpid := 4242;
     os_error_text := fun k p =>
       match k with
       | FileNotFoundError => "[Errno 2] No such file or directory: '" +:+ p +:+ "'"
       | _ => "[Errno 13] Permission denied: '" +:+ p +:+ "'"
       end;
     fd_open := fun z => (0 <=? z) && (z <? 3);
     transcribe := transcriber |}.

Definition no_transcriber : pyval -> gmap string string -> res string :=
  fun _ _ => Ok "".

(** A host that does nothing; every operation takes a millisecond. *)
Definition idle : Host :=
  {| host_step := fun _ fs => fs;
     elapse := fun _ => 1;
     write_fails := fun _ => false;
     sync_fails := fun _ => false;
     unlink_fails := fun _ => false |}.

(** A host that removes [p] just before operation [n]. *)
Definition consuming (p : string) (n : nat) : Host :=
  {| host_step := fun k fs => if (k =? n)%nat then delete p fs else fs;
     elapse := fun _ => 1;
     write_fails := fun _ => false;
     sync_fails := fun _ => false;
     unlink_fails := fun _ => false |}.

(** A host that does nothing, on a system where the writes numbered in
    [bad] fail. *)
Definition failing_writes (bad : list nat) : Host :=
  {| host_step := fun _ fs => fs;
     elapse := fun _ => 1;
     write_fails := fun n => existsb (Nat.eqb n) bad;
     sync_fails := fun _ => false;
     unlink_fails := fun _ => false |}.

(** A host that does nothing, on a system where the deletions numbered
    in [bad] are refused. *)
Definition failing_unlinks (bad : list nat) : Host :=
  {| host_step := fun _ fs => fs;
     elapse := fun _ => 1;
     write_fails := fun _ => false;
     sync_fails := fun _ => false;
     unlink_fails := fun n => existsb (Nat.eqb n) bad |}.

Definition start (fs : gmap string string) (model : option WhisperModel) : state :=
  State fs 0 0 (PList []) model [].

End Demo.

Module ResponseRuns.
Import Demo.

Definition shared : string := "/tmp/review_gate_response.json".
Definition scoped : string := "/tmp/review_gate_response_t1.json".

(** [{"user_input": "looks good", "trigger_id": "review_1000"}] *)
Definition other_id : pyval :=
  PDict [("user_input", PStr "looks good"); ("trigger_id", PStr "review_1000")].

(** [{"user_input": "", "trigger_id": "review_1000"}] *)
Definition other_id_empty : pyval :=
  PDict [("user_input", PStr ""); ("trigger_id", PStr "review_1000")].

(** [{"user_input": "  "}] *)
Definition blank : pyval := PDict [("user_input", PStr "  ")].

Definition image (name : string) : pyval :=
  PDict [("mimeType", PStr "image/png"); ("fileName", PStr name);
         ("base64Data", PStr "iVBORw0KGgo=")].

Definition note (name : string) : pyval :=
  PDict [("mimeType", PStr "text/plain"); ("fileName", PStr name);
         ("base64Data", PStr "aGk=")].

(** An empty text with one image attached:
    [{"user_input": "", "attachments": [{"mimeType": "image/png",
    "fileName": "a.png", "base64Data": "iVBORw0KGgo="}]}] *)
Definition image_only : pyval :=
  PDict [("user_input", PStr ""); ("attachments", PList [image "a.png"])].

(** An empty text with three attachments, none an image:
    [{"user_input": "", "attachments": [{"mimeType": "text/plain",
    "fileName": "a.txt", "base64Data": "aGk="}, ...]}] *)
Definition three_notes : pyval :=
  PDict [("user_input", PStr "");
         ("attachments", PList [note "a.txt"; note "b.txt"; note "c.txt"])].

(** An empty text with an attachment that is not an object:
    [{"user_input": "", "attachments": [7]}] *)
Definition odd_attachment : pyval :=
  PDict [("user_input", PStr ""); ("attachments", PList [PInt 7])].

(** A text with three images attached. *)
Definition three_images : pyval :=
  PDict [("user_input", PStr "see these");
         ("attachments", PList [image "a.png"; image "b.png"; image "c.png"])].

(** A body cut off in the middle of the value of [user_input]. *)
Definition truncated : string := "{" +:+ dq +:+ "user_input" +:+ dq +:+ ": " +:+ dq +:+ "loo".

Definition rt : Runtime :=
  runtime [other_id; other_id_empty; blank; image_only; three_notes;
           odd_attachment; three_images]
          no_transcriber.

Definition holding (p body : string) : state := start {[ p := body ]} None.

End ResponseRuns.

Module AckRuns.
Import Demo.

Definition ack_path : string := "/tmp/review_gate_ack_review_1000.json".

(** [{"acknowledged": true}] and [{"acknowledged": false}] *)
Definition ack (flag : bool) : pyval := PDict [("acknowledged", PBool flag)].


Definition rt : Runtime := runtime [ack true; ack false] no_transcriber.

End AckRuns.

Module SpeechRuns.
Import Demo.

Definition audio : string := "/tmp/review_gate_audio_speech_1.wav".
Definition result : string := "/tmp/review_gate_speech_response_speech_1.json".

Definition request : pyval :=
  PDict [("data", PDict [("tool", PStr "speech_to_text");
                         ("trigger_id", PStr "speech_1");
                         ("audio_file", PStr audio)])].

(** A transcription that stops on an exception without a message, as an
    [assert] without text or a bare [raise RuntimeError()] gives. *)
Definition silent_failure : pyval -> gmap string string -> res string :=
  fun _ _ => Raise (Exn OtherError "").

Definition rt (transcriber : pyval -> gmap string string -> res string) : Runtime :=
  runtime [] transcriber.

(** The result document of the run with [silent_failure]. *)
Definition silent_result : list (string * pyval) :=
  [ ("timestamp", PStr "t+2");
    ("trigger_id", PStr "speech_1");
    ("transcription", PStr "");
    ("success", PBool false);
    ("error", PStr "");
    ("source", PStr "review_gate_whisper") ].

End SpeechRuns.

Module OtherRuns.

Definition review_request : pyval :=
  PDict [("tool", PStr "review_gate_chat"); ("trigger_id", PStr "review_1000")].

(** [{"response": "  fine ", "message": "not this"}] *)
Definition legacy_fields : list (string * pyval) :=
  [("response", PStr "  fine "); ("message", PStr "not this")].

End OtherRuns.

(** * More vocabulary: the tools, the monitors and the installer *)

Section ToolVocabulary.
Context `{Runtime} `{Host}.

(** The attachments can be gone through as the review tool does it:
    iterating over them and asking each for its [mimeType] raises nothing. *)
Definition walkable (attachments : pyval) : Prop :=
  truthy attachments = true ->
  exists items ds,
    iter attachments = Ok items /\ attachment_descriptions items = Ok ds.

(** A step of the waiter that raises nothing and hands back, if anything,
    a text that is not empty, with stored attachments that are
    [walkable]. *)
Definition hands_back {A} (sel : A -> option string) (x : res A * state) : Prop :=
  match x.1 with
  | Raise _ => False
  | Ok a =>
      match sel a with
      | None => True
      | Some text => text <> "" /\ walkable (_last_attachments x.2)
      end
  end.

(** The result document for [trigger_id] is there, says [success: true],
    has no [error] and carries [transcription]. *)
Definition success_reported (trigger_id : pyval) (transcription : string)
  (s1 : state) : Prop :=
  exists d,
    files s1 !! speech_response_file trigger_id = Some (json_dumps (PDict d)) /\
    dict_get d "trigger_id" = Some trigger_id /\
    dict_get d "transcription" = Some (PStr transcription) /\
    dict_get d "success" = Some (PBool true) /\
    dict_get d "error" = Some PNone.

(** The tool a speech trigger asks for, as the monitor reads it off the
    body of the file. *)
Definition requested_tool (body : string) : res pyval :=
  trigger_data <~ loads body ;;
  data <~ get trigger_data "data" (PDict []) ;;
  get data "tool" PNone.

(** One turn of the shutdown monitor's loop: a second of sleep. *)
Definition nap (s : state) : state := advance 1000 (tick s).

(** An image handed back by the review tool: its type starts with
    [image/]. *)
Definition is_image (c : content) : Prop :=
  match c with
  | ImageContent _ mimeType => startswith mimeType "image/" = true
  | TextContent _ => False
  end.

(** What the review tool answers with, in state [s1]: one of the two
    fixed texts, or the text last logged as received followed by images. *)
Definition review_answer (response_content : list content) (s1 : state) : Prop :=
  response_content = review_not_triggered \/
  response_content = review_timeout \/
  exists text images p file_content rest,
    response_content = TextContent ("User Response: " +:+ text) :: images /\
    text <> "" /\ Forall is_image images /\
    journal s1 = ReceivedInput p file_content text :: rest.

(** The request the review tool hands to the emitter when called with
    the arguments [d] in state [s]. *)
Definition chat_request_of (d : list (string * pyval)) (s : state) : pyval :=
  chat_request
    (default (PStr "Please provide your review:") (dict_get d "message"))
    (default (PStr default_title) (dict_get d "title"))
    (default (PStr "") (dict_get d "context"))
    (default (PBool false) (dict_get d "urgent"))
    ("review_" +:+ pretty (clock s)) (isoformat (clock s)).

(** The response file that carries the trigger id in its name. *)
Definition scoped_response (trigger_id : string) : string :=
  os_path_join get_temp_dir ("review_gate_response_" +:+ trigger_id +:+ ".json").

(** The servers an existing configuration hands on, as
    [ConfigureMcp.main] reads them. *)
Definition servers_of (body : string) : res (list (string * pyval)) :=
  config <~ loads body ;;
  existing_servers <~ get config "mcpServers" (PDict []) ;;
  ConfigureMcp.pop existing_servers "review-gate-v2".

(** From [s] to [s1] the property [P] of the directory is kept and the
    clock has not gone back. *)
Definition fine (P : gmap string string -> Prop) (s s1 : state) : Prop :=
  (P (files s) -> P (files s1)) /\ clock s <= clock s1.

(** A computation all of whose runs are [fine]. *)
Definition keeps (P : gmap string string -> Prop) {A} (m : M A) : Prop :=
  forall s, fine P s (m s).2.

End ToolVocabulary.

(** * More concrete surroundings *)

Module ToolRuns.
Import Demo.

(** An acknowledgement that is not an object: [[]] *)
Definition odd_ack : pyval := PList [].

(** A speech request without [audio_file]. *)
Definition no_audio_request : pyval :=
  PDict [("data", PDict [("tool", PStr "speech_to_text");
                         ("trigger_id", PStr "speech_1")])].

(** A transcription that goes well. *)
Definition hello : pyval -> gmap string string -> res string :=
  fun _ _ => Ok " hello world ".

Definition trigger : string := "/tmp/review_gate_trigger.json".
Definition backup (i : string) : string :=
  "/tmp/review_gate_trigger_" +:+ i +:+ ".json".

(** The four trigger files and a response file in the directory. *)
Definition after_emission : gmap string string :=
  <[trigger := "{}"]>
    (<[backup "0" := "{}"]>
       (<[backup "1" := "{}"]>
          (<[backup "2" := "{}"]> {[ ResponseRuns.shared := "ok" ]}))).

(** The response file for a call made when the clock shows 0. *)
Definition answer_file : string := "/tmp/review_gate_response_review_0.json".

Definition mcp_file : string := "/home/u/.cursor/mcp.json".
Definition review_gate_dir : string := "/opt/review-gate".

Definition other_server : pyval :=
  PDict [("command", PStr "npx"); ("args", PList [PStr "some-server"])].

(** A configuration with another server and an old entry for this one:
    [{"theme": "dark", "mcpServers": {"review-gate-v2": {}, "other": ...}}] *)
Definition old_config : list (string * pyval) :=
  [ ("theme", PStr "dark");
    ("mcpServers", PDict [("review-gate-v2", PDict []); ("other", other_server)]) ].

(** An answer under [response], with an empty trigger id and no
    attachments: [{"response": " yes ", "trigger_id": "", "attachments": []}] *)
Definition plain_object : list (string * pyval) :=
  [("response", PStr " yes "); ("trigger_id", PStr ""); ("attachments", PList [])].

Definition speech_trigger : string := "/tmp/review_gate_speech_trigger_1.json".

(** Two lines as a Windows editor saves them: each ends with a carriage
    return and a line feed. *)
Definition two_lines : string :=
  "fine" +:+ cr +:+ newline +:+ "thanks" +:+ cr +:+ newline.

(** A trigger for a tool the monitor does not serve. *)
Definition other_tool_request : pyval :=
  PDict [("data", PDict [("tool", PStr "text_to_speech")])].

Definition rt : Runtime :=
  runtime [ odd_ack; PDict old_config; PDict plain_object; SpeechRuns.request;
            other_tool_request; ResponseRuns.three_images;
            ConfigureMcp.new_config [] review_gate_dir;
            ConfigureMcp.new_config [("other", other_server)] review_gate_dir ]
          no_transcriber.

End ToolRuns.


(** * Properties *)

(** ** Text *)

Lemma append_cons (c : ascii) (a b : string) :
  String c a +:+ b = String c (a +:+ b).
Proof. reflexivity. Qed.

Lemma startswith_cons (c c' : ascii) (s p : string) :
  startswith (String c' s) (String c p) = Ascii.eqb c c' && startswith s p.
Proof. reflexivity. Qed.

Lemma startswith_append (a b : string) : startswith (a +:+ b) a = true.
Proof.
  induction a as [|c a IH]; [done |].
  by rewrite append_cons, startswith_cons, Ascii.eqb_refl.
Qed.

Lemma append_assoc (a b c : string) : (a +:+ b) +:+ c = a +:+ (b +:+ c).
Proof.
  induction a as [|x a IH]; [done |].
  by rewrite !append_cons, IH.
Qed.

Lemma lstrip_brace (s : string) : lstrip (String "{" s) = String "{" s.
Proof. reflexivity. Qed.

Lemma rstrip_brace (s : string) : exists r, rstrip (String "{" s) = String "{" r.
Proof. simpl. destruct (rstrip s); eauto. Qed.

Lemma startswith_brace (s : string) :
  startswith s "{" = true <-> exists r, s = String "{" r.
Proof.
  destruct s as [|c s].
  - split; [done | by intros [r ?]].
  - rewrite startswith_cons, andb_true_r.
    destruct (Ascii.eqb_spec "{" c) as [<-|Hc].
    + split; eauto.
    + split; [done | intros [r [=]]; congruence].
Qed.

(** Stripping keeps an opening brace in front. *)
Lemma strip_keeps_brace (raw : string) :
  startswith raw "{" = true -> startswith (strip raw) "{" = true.
Proof.
  rewrite !startswith_brace. intros [r ->].
  unfold strip. rewrite lstrip_brace. apply rstrip_brace.
Qed.

Lemma eqb_empty_false (s : string) : negb (String.eqb s "") = true <-> s <> "".
Proof.
  destruct (String.eqb_spec s ""); simpl; split; intros; congruence.
Qed.

Lemma ne_str_spec (v : pyval) (t : string) : ne_str v t = true <-> v <> PStr t.
Proof.
  destruct v; simpl; try (split; [discriminate | done]).
  destruct (String.eqb_spec s t); simpl; split; intros; congruence.
Qed.

(** ** The order of the accepted field names *)

Section FieldPriority.
Context `{Runtime} `{Host}.

Lemma extract_text_priority (d : list (string * pyval)) :
  extract_text (PDict d) = priority_text d.
Proof.
  unfold extract_text, priority_text, and_then; simpl.
  destruct (dict_get d "user_input"); [done |].
  destruct (dict_get d "response"); [done |].
  by destruct (dict_get d "message").
Qed.

(** C4.  A body that starts with the brace and parses to a dictionary is
    handled with the text of the first present name among [user_input],
    [response], [message], in this order, and with the empty text when
    none of them is a key; the rest of the handling goes on from that
    text. *)
Theorem response_text_field_priority
  (trigger_id p file_content : string) (d : list (string * pyval)) (s : state) :
  startswith file_content "{" = true ->
  json_loads file_content = inl (PDict d) ->
  interpret trigger_id p file_content s
  = (user_input <- lift (priority_text d) ;;
     judge_response trigger_id p file_content (PDict d) user_input) s.
Proof.
  intros Hbrace Hjson. unfold interpret, interpret_json, loads.
  rewrite Hbrace. unfold bind at 1, lift at 1. rewrite Hjson.
  by rewrite extract_text_priority.
Qed.

End FieldPriority.

(** ** The response waiter *)

Section ResponseWaiterFacts.
Context `{Runtime} `{Host}.

Lemma record_attachments_spec (attachments : pyval) (user_input : string)
  (s : state) :
  let '(r, s1) := record_attachments attachments user_input s in
  same_world s s1 /\ journal s1 = journal s /\
  match r with
  | Ok _ => _last_attachments s1
            = if truthy attachments then attachments else PList []
  | Raise _ => True
  end.
Proof.
  unfold record_attachments, same_world.
  destruct (truthy attachments) eqn:Htruthy; [| done].
  unfold bind at 1, lift at 1. destruct (len attachments); [| done].
  unfold bind at 1, set_last_attachments at 1.
  unfold bind at 1, lift at 1. destruct (iter attachments) as [items|]; [| done].
  unfold bind at 1, lift at 1.
  destruct (attachment_descriptions items) as [[|? ?]|]; done.
Qed.

Lemma interpret_spec (trigger_id p file_content : string) (s : state) :
  let '(r, s1) := interpret trigger_id p file_content s in
  same_world s s1 /\
  match r with
  | Ok Skip =>
      journal s1 = TriggerMismatch p file_content :: journal s /\
      _last_attachments s1 = _last_attachments s /\
      declares_other_id trigger_id file_content
  | Ok (Accept _) =>
      journal s1 = journal s /\
      ~ declares_other_id trigger_id file_content /\
      records_attachments file_content (_last_attachments s1)
  | Raise _ => journal s1 = journal s
  end.
Proof.
  unfold interpret, same_world.
  destruct (startswith file_content "{") eqn:Hbrace.
  2:{ simpl. repeat split; try done.
      - intros [Hb _]. congruence.
      - intros d l Hb. congruence. }
  unfold bind at 1, lift at 1, loads.
  destruct (json_loads file_content) as [data|m] eqn:Hjson; [| done].
  unfold interpret_json, bind at 1, lift at 1.
  destruct data as [| | | | |l|d]; try done.
  destruct (extract_text (PDict d)) as [user_input|e] eqn:Htext; [| done].
  unfold judge_response, bind at 1, lift at 1, get at 1.
  unfold bind at 1, lift at 1, get at 1.
  set (tid := default (PStr "") (dict_get d "trigger_id")).
  set (atts := default (PList []) (dict_get d "attachments")).
  destruct (truthy tid && ne_str tid trigger_id) eqn:Hcheck.
  - apply andb_true_iff in Hcheck as [Ht Hne]. apply ne_str_spec in Hne.
    simpl. repeat split; try done. exists d, tid. repeat split; try done.
    subst tid. destruct (dict_get d "trigger_id"); [done | discriminate].
  - pose proof (record_attachments_spec atts user_input s) as Hrec.
    unfold same_world in Hrec. unfold bind.
    destruct (record_attachments atts user_input s) as [[text|e] s1].
    + destruct Hrec as (Hw & Hj & Ha).
      repeat split; try tauto.
      * intros (_ & d' & v & Hd & Hv & Ht & Hne).
        rewrite Hjson in Hd. injection Hd as <-.
        subst tid. rewrite Hv in Hcheck. simpl in Hcheck.
        apply ne_str_spec in Hne. by rewrite Ht, Hne in Hcheck.
      * intros d' l _ Hd Hl Hnil. rewrite Hjson in Hd. injection Hd as <-.
        subst atts. rewrite Hl in Ha. simpl in Ha. by destruct l.
    + tauto.
Qed.

Lemma consume_spec (p file_content user_input : string) (s : state) :
  let '(r, s1) := consume p file_content user_input s in
  exists ev,
    (ev = CleanedUp p file_content /\
       unlink_fails (ops s) = false /\ files s1 = delete p (files (tick s)) \/
     ev = CleanupError p file_content (not_found p) /\
       files (tick s) !! p = None /\ files s1 = files (tick s) \/
     ev = CleanupError p file_content (refused p) /\
       unlink_fails (ops s) = true /\ files s1 = files (tick s)) /\
    (ev = CleanedUp p file_content \/ unlink_fails (ops s) = false ->
     files s1 !! p = None) /\
    (forall q, q <> p -> files s1 !! q = files (tick s) !! q) /\
    _last_attachments s1 = _last_attachments s /\
    clock s1 = clock (tick s) /\ ops s1 = ops (tick s) /\
    if String.eqb user_input "" then
      r = Ok None /\
      journal s1 = EmptyInput p file_content :: ev :: journal s
    else
      r = Ok (Some user_input) /\
      journal s1 = ReceivedInput p file_content user_input :: ev :: journal s.
Proof.
  unfold consume, bind, try_except, unlink, say, ret.
  destruct (files (tick s) !! p) as [body|] eqn:Hfile;
    [destruct (unlink_fails (ops s)) eqn:Hfails |];
    destruct (String.eqb user_input ""); simpl.
  3,4: exists (CleanedUp p file_content);
    (split; [by left |]); repeat split;
    [intros _; apply lookup_delete_eq | intros q Hq; by rewrite lookup_delete_ne].
  1,2: exists (CleanupError p file_content (refused p));
    (split; [by right; right |]); repeat split; by intros [[=]|[=]].
  all: exists (CleanupError p file_content (not_found p));
    (split; [by right; left |]); by repeat split.
Qed.

Lemma waiter_ok_step {A B} (trigger_id : string) (sel : A -> option string)
  (sel' : B -> option string) (s s1 : state) (a : A) (x : res B * state) :
  waiter_ok trigger_id sel s (Ok a, s1) -> sel a = None ->
  waiter_ok trigger_id sel' s1 x -> waiter_ok trigger_id sel' s x.
Proof.
  intros (new1 & Hj1 & Hok1 & _) _ (new2 & Hj2 & Hok2 & Hres).
  exists (new2 ++ new1)%list. simpl in *. repeat split.
  - by rewrite Hj2, Hj1, app_assoc.
  - by apply Forall_app.
  - destruct x.1 as [b|]; [| done]. unfold answered in *.
    destruct (sel' b); [| done].
    destruct Hres as (p & fc & rest & -> & Hrec).
    by exists p, fc, (rest ++ new1)%list.
Qed.

Lemma handle_candidate_spec (trigger_id p : string) (s : state) :
  waiter_ok trigger_id id s (handle_candidate trigger_id p s).
Proof.
  unfold handle_candidate, bind at 1, path_exists.
  destruct (files (tick s) !! p) as [?|].
  2:{ by exists []. }
  unfold try_except, bind at 1, read_text.
  destruct (files (tick (tick s)) !! p) as [body|].
  2:{ simpl. eexists [_]. simpl. repeat split. by repeat constructor. }
  set (s2 := tick (tick s)). set (fc := strip (universal_newlines body)).
  unfold bind at 1, say at 1.
  set (s3 := with_journal _ s2).
  pose proof (interpret_spec trigger_id p fc s3) as Hint.
  unfold bind at 1.
  destruct (interpret trigger_id p fc s3) as [[[|user_input]|e] s4].
  - destruct Hint as (_ & Hj & _). simpl.
    exists [TriggerMismatch p fc; FoundResponse p fc]. simpl.
    repeat split; [by rewrite Hj | by repeat constructor].
  - destruct Hint as ((_ & _ & _ & _) & Hj & Hno & Hrec).
    pose proof (consume_spec p fc user_input s4) as Hc.
    destruct (consume p fc user_input s4) as [r s5].
    destruct Hc as (ev & Hev & _ & _ & Hatt & _ & _ & Hres).
    assert (event_ok trigger_id ev)
      by (by destruct Hev as [[-> _]|[(-> & _)|(-> & _)]]).
    destruct (String.eqb user_input ""); destruct Hres as [-> Hj5].
    + exists [EmptyInput p fc; ev; FoundResponse p fc]. simpl.
      repeat split; [by rewrite Hj5, Hj | by repeat constructor].
    + exists [ReceivedInput p fc user_input; ev; FoundResponse p fc]. simpl.
      repeat split; [by rewrite Hj5, Hj | by repeat constructor |].
      exists p, fc, [ev; FoundResponse p fc]. by rewrite Hatt.
  - destruct Hint as [_ Hj]. simpl. case_bool_decide; simpl;
      eexists [_; FoundResponse p fc]; simpl;
      (repeat split; [by rewrite Hj | by repeat constructor]).
Qed.

Lemma scan_candidates_spec (trigger_id : string) (ps : list string) (s : state) :
  waiter_ok trigger_id id s (scan_candidates trigger_id ps s).
Proof.
  revert s. induction ps as [|p ps IH]; intros s; simpl.
  - by exists [].
  - pose proof (handle_candidate_spec trigger_id p s) as Hh.
    unfold bind. destruct (handle_candidate trigger_id p s) as [[[text|]|e] s1].
    + done.
    + by eapply (waiter_ok_step _ id id _ _ None).
    + by destruct Hh as (? & _ & _ & []).
Qed.

Lemma sleep_spec {A} (trigger_id : string) (sel : A -> option string)
  (ms : Z) (s : state) (a : A) :
  sel a = None -> waiter_ok trigger_id sel s ((sleep ms ;; ret a) s).
Proof. intros Ha. exists []. simpl. by rewrite Ha. Qed.

Lemma poll_responses_spec (trigger_id : string) (s : state) :
  waiter_ok trigger_id id s (poll_responses trigger_id s).
Proof.
  unfold poll_responses, try_except.
  pose proof (scan_candidates_spec trigger_id (response_patterns trigger_id) s) as Hs.
  unfold bind at 1.
  destruct (scan_candidates _ _ s) as [[[text|]|e] s1].
  - done.
  - eapply (waiter_ok_step _ id id _ _ None); [done.. |].
    by apply (sleep_spec _ id).
  - by destruct Hs as (? & _ & _ & []).
Qed.

Lemma wait_input_loop_spec (fuel : nat) (trigger_id : string)
  (start_time timeout : Z) (s : state) :
  waiter_ok trigger_id returned_text s
    (wait_input_loop fuel trigger_id start_time timeout s).
Proof.
  revert s. induction fuel as [|fuel IH]; intros s; simpl.
  - by exists [].
  - unfold bind at 1, time_now.
    destruct (clock s - start_time <? 1000 * timeout).
    + pose proof (poll_responses_spec trigger_id s) as Hp.
      unfold bind. destruct (poll_responses trigger_id s) as [[[text|]|e] s1].
      * done.
      * by eapply (waiter_ok_step _ id returned_text _ _ None).
      * by destruct Hp as (? & _ & _ & []).
    + exists [InputTimeout]. simpl. repeat split. by repeat constructor.
Qed.

Lemma wait_for_user_input_spec (fuel : nat) (trigger_id : string)
  (timeout : Z) (s : state) :
  waiter_ok trigger_id returned_text s
    (_wait_for_user_input fuel trigger_id timeout s).
Proof. apply wait_input_loop_spec. Qed.

End ResponseWaiterFacts.

(** *** A finished call *)

Section ResponseWaiterEnds.
Context `{Runtime} `{Host}.


(** The no-response outcome is never early: when it is returned, the
    clock shows at least [timeout] seconds more than at the start. *)
Lemma wait_input_loop_not_early (fuel : nat) (trigger_id : string)
  (start_time timeout : Z) (s s1 : state) :
  wait_input_loop fuel trigger_id start_time timeout s = (Ok (Some None), s1) ->
  1000 * timeout <= clock s1 - start_time.
Proof.
  revert s. induction fuel as [|fuel IH]; intros s; simpl; [done |].
  unfold bind at 1, time_now.
  destruct (Z.ltb_spec (clock s - start_time) (1000 * timeout)) as [Hlt|Hge].
  - unfold bind. destruct (poll_responses trigger_id s) as [[[text|]|e] s2];
      [done | apply IH | done].
  - intros [= <-]. done.
Qed.

End ResponseWaiterEnds.

(** *** Waiting with nothing to take *)

Lemma files_tick `{Host} (s : state) :
  files (tick s) = host_step (ops s) (files s).
Proof. reflexivity. Qed.

Section Quiet.
Context `{Runtime} `{Host}.

Lemma nothing_there_usable (trigger_id : string) (fs : gmap string string) :
  nothing_there trigger_id fs -> nothing_usable trigger_id fs.
Proof. intros Hn p raw Hp Hraw. by rewrite (Hn p Hp) in Hraw. Qed.

Lemma path_exists_true (p : string) (s : state) :
  (path_exists p s).1 = Ok true <-> is_Some (files (tick s) !! p).
Proof.
  unfold path_exists. cbv zeta. cbn [fst].
  destruct (files (tick s) !! p); split; by try intros [? ?].
Qed.

Lemma read_text_ok (p raw : string) (s : state) :
  (read_text p s).1 = Ok raw <->
  exists body, files (tick s) !! p = Some body /\ raw = universal_newlines body.
Proof.
  unfold read_text. cbv zeta.
  destruct (files (tick s) !! p) as [body|]; cbn [fst]; split.
  - intros [= <-]. by exists body.
  - by intros (? & [= <-] & ->).
  - done.
  - by intros (? & [=] & _).
Qed.



(** A file that is not there is passed over. *)
Lemma handle_absent (trigger_id p : string) (s : state) :
  files (tick s) !! p = None ->
  handle_candidate trigger_id p s = (Ok None, tick s).
Proof.
  intros Hex. unfold handle_candidate, bind, path_exists. cbv zeta.
  by rewrite Hex.
Qed.

(** So is a file the host removes between the test and the read. *)
Lemma handle_vanished (trigger_id p : string) (s : state) :
  is_Some (files (tick s) !! p) ->
  files (tick (tick s)) !! p = None ->
  handle_candidate trigger_id p s
  = (Ok None,
     with_journal (ProcessingError p (not_found p) :: journal s) (tick (tick s))).
Proof.
  intros [body Hex] Hread.
  unfold handle_candidate, bind at 1, path_exists. cbv zeta. rewrite Hex.
  unfold try_except, bind at 1, read_text. cbv zeta. by rewrite Hread.
Qed.

(** What a malformed body leads to: the two log entries and nothing else. *)
Lemma handle_malformed (trigger_id p raw m : string) (s : state) :
  (path_exists p s).1 = Ok true ->
  (read_text p (tick s)).1 = Ok raw ->
  startswith raw "{" = true ->
  json_loads (strip raw) = inr m ->
  handle_candidate trigger_id p s
  = (Ok None,
     with_journal (DecodeError p (Exn JSONDecodeError m)
                     :: FoundResponse p (strip raw) :: journal s)
       (tick (tick s))).
Proof.
  rewrite path_exists_true, read_text_ok.
  intros [body Hex] (b & Hread & Hraw) Hbrace Hjson.
  unfold handle_candidate, bind at 1, path_exists. cbv zeta. rewrite Hex.
  unfold try_except, bind at 1, read_text. cbv zeta. rewrite Hread, <- Hraw.
  unfold bind at 1, say at 1, bind at 1, interpret.
  rewrite (strip_keeps_brace _ Hbrace).
  unfold bind at 1, lift at 1, loads. by rewrite Hjson.
Qed.

Section Invariant.
Variable trigger_id : string.
Variable quiet : gmap string string -> Prop.
Hypothesis quiet_unusable : forall fs, quiet fs -> nothing_usable trigger_id fs.
Hypothesis quiet_host : forall n fs, quiet fs -> quiet (host_step n fs).
Hypothesis elapse_nonneg : forall n, 0 <= elapse n.

Lemma quiet_tick (s : state) : quiet (files s) -> quiet (files (tick s)).
Proof. rewrite files_tick. apply quiet_host. Qed.

Lemma handle_candidate_quiet (p : string) (s : state) :
  p ∈ response_patterns trigger_id -> quiet (files s) ->
  idle_step quiet (handle_candidate trigger_id p s) s 0.
Proof.
  intros Hp Hq.
  pose proof (elapse_nonneg (ops s)). pose proof (elapse_nonneg (S (ops s))).
  pose proof (quiet_tick _ Hq) as Hq1. pose proof (quiet_tick _ Hq1) as Hq2.
  destruct (files (tick s) !! p) as [body|] eqn:Hex.
  2:{ rewrite handle_absent by done.
      repeat split; simpl; first [done | lia]. }
  destruct (files (tick (tick s)) !! p) as [raw|] eqn:Hread.
  - destruct (quiet_unusable _ Hq2 p raw Hp Hread) as [Hbrace [m Hm]].
    rewrite (handle_malformed trigger_id p (universal_newlines raw) m s);
      rewrite ?path_exists_true, ?read_text_ok; eauto.
    repeat split; simpl; first [done | lia].
  - rewrite handle_vanished by done.
    repeat split; simpl; first [done | lia].
Qed.

Lemma scan_candidates_quiet (ps : list string) (s : state) :
  ps ⊆ response_patterns trigger_id -> quiet (files s) ->
  idle_step quiet (scan_candidates trigger_id ps s) s 0.
Proof.
  revert s. induction ps as [|p ps IH]; intros s Hps Hq; simpl.
  - unfold idle_step. simpl. repeat split; [done | lia].
  - destruct (handle_candidate_quiet p s) as (Hr & Hq1 & Hc & Ha);
      [set_solver | done |].
    unfold bind. destruct (handle_candidate trigger_id p s) as [r s1].
    simpl in *. subst r.
    destruct (IH s1) as (Hr2 & Hq2 & Hc2 & Ha2); [set_solver | done |].
    unfold idle_step. repeat split; [done | done | lia | congruence].
Qed.

Lemma poll_responses_quiet (s : state) :
  quiet (files s) -> idle_step quiet (poll_responses trigger_id s) s 100.
Proof.
  intros Hq.
  destruct (scan_candidates_quiet (response_patterns trigger_id) s)
    as (Hr & Hq1 & Hc & Ha); [done | done |].
  unfold poll_responses, try_except, bind at 1.
  destruct (scan_candidates _ _ s) as [r s1]. simpl in *. subst r.
  unfold idle_step. simpl. repeat split.
  - by apply quiet_tick.
  - pose proof (elapse_nonneg (ops s1)). lia.
  - done.
Qed.

Lemma wait_input_loop_quiet (fuel : nat) (start_time timeout : Z) (s : state) :
  quiet (files s) ->
  (0 < fuel)%nat ->
  1000 * timeout - (clock s - start_time) <= 100 * (Z.of_nat fuel - 1) ->
  exists s1,
    wait_input_loop fuel trigger_id start_time timeout s = (Ok (Some None), s1) /\
    quiet (files s1) /\ _last_attachments s1 = _last_attachments s.
Proof.
  revert s. induction fuel as [|fuel IH]; intros s Hq Hfuel Hrem; [lia |].
  simpl. unfold bind at 1, time_now.
  destruct (Z.ltb_spec (clock s - start_time) (1000 * timeout)) as [Hlt|Hge].
  - destruct (poll_responses_quiet s Hq) as (Hr & Hq1 & Hc & Ha).
    unfold bind. destruct (poll_responses trigger_id s) as [r s1].
    simpl in *. subst r.
    destruct (IH s1) as (s2 & -> & Hq2 & Ha2); [done | lia | lia |].
    exists s2. repeat split; [done | congruence].
  - eexists. by repeat split.
Qed.

Lemma wait_for_user_input_quiet (fuel : nat) (timeout : Z) (s : state) :
  quiet (files s) ->
  (turns timeout <= fuel)%nat ->
  exists s1,
    _wait_for_user_input fuel trigger_id timeout s = (Ok (Some None), s1) /\
    1000 * timeout <= clock s1 - clock s /\
    quiet (files s1) /\ _last_attachments s1 = _last_attachments s.
Proof.
  intros Hq Hfuel. unfold turns in Hfuel.
  destruct (wait_input_loop_quiet fuel (clock s) timeout s Hq)
    as (s1 & Hrun & Hq1 & Ha); [lia | lia |].
  exists s1. repeat split; try done.
  by apply (wait_input_loop_not_early fuel trigger_id _ _ s).
Qed.

End Invariant.
End Quiet.

(** *** Polling on *)

Section GoingOn.
Context `{Runtime} `{Host}.

Lemma clock_tick (s : state) : clock (tick s) = clock s + elapse (ops s).
Proof. reflexivity. Qed.

Lemma ops_tick (s : state) : ops (tick s) = S (ops s).
Proof. reflexivity. Qed.

Lemma handle_candidate_polls_on (trigger_id p : string) (s : state) :
  polls_on id 0 s (handle_candidate trigger_id p s).
Proof.
  unfold handle_candidate, bind at 1, path_exists. cbv zeta.
  destruct (files (tick s) !! p) as [?|].
  2:{ unfold polls_on. cbn. intros Hn. rewrite clock_tick. specialize (Hn (ops s)). lia. }
  unfold try_except, bind at 1, read_text. cbv zeta.
  destruct (files (tick (tick s)) !! p) as [body|].
  2:{ unfold polls_on. cbn. rewrite bool_decide_eq_false_2 by done. cbn.
      intros Hn. rewrite !clock_tick, ops_tick.
      pose proof (Hn (ops s)). pose proof (Hn (S (ops s))). lia. }
  unfold bind at 1, say at 1.
  set (fc := strip (universal_newlines body)).
  set (s3 := with_journal _ _).
  assert ((forall n, 0 <= elapse n) -> clock s <= clock s3) as Hs3.
  { intros Hn. subst s3. cbn. rewrite !clock_tick, ops_tick.
    pose proof (Hn (ops s)). pose proof (Hn (S (ops s))). lia. }
  pose proof (interpret_spec trigger_id p fc s3) as Hint.
  unfold bind at 1.
  destruct (interpret trigger_id p fc s3) as [[[|user_input]|e] s4];
    destruct Hint as [(_ & Hclock & Hops & _) _].
  - unfold polls_on. cbn. intros Hn. specialize (Hs3 Hn). lia.
  - pose proof (consume_spec p fc user_input s4) as Hc.
    destruct (consume p fc user_input s4) as [r s5].
    destruct Hc as (ev & _ & _ & _ & _ & Hc5 & _ & Hres).
    destruct (String.eqb user_input "") eqn:He; destruct Hres as [-> _].
    + unfold polls_on. cbn. intros Hn. rewrite Hc5, clock_tick. specialize (Hs3 Hn).
      specialize (Hn (ops s4)). lia.
    + unfold polls_on. cbn. apply eqb_empty_false. by rewrite He.
  - unfold polls_on. cbn. case_bool_decide; cbn; intros Hn; specialize (Hs3 Hn); lia.
Qed.

Lemma scan_candidates_polls_on (trigger_id : string) (ps : list string)
  (s : state) :
  polls_on id 0 s (scan_candidates trigger_id ps s).
Proof.
  revert s. induction ps as [|p ps IH]; intros s; simpl.
  - unfold polls_on. cbn. lia.
  - pose proof (handle_candidate_polls_on trigger_id p s) as Hh.
    unfold bind. destruct (handle_candidate trigger_id p s) as [[[text|]|e] s1].
    + done.
    + specialize (IH s1). unfold polls_on in *. cbn in Hh.
      destruct (scan_candidates trigger_id ps s1) as [[[text|]|e] s2]; cbn in *;
        try done.
      intros Hn. specialize (Hh Hn). specialize (IH Hn). lia.
    + done.
Qed.

Lemma poll_responses_polls_on (trigger_id : string) (s : state) :
  polls_on id 100 s (poll_responses trigger_id s).
Proof.
  pose proof (scan_candidates_polls_on trigger_id (response_patterns trigger_id) s)
    as Hs.
  unfold poll_responses, try_except, bind at 1.
  destruct (scan_candidates _ _ s) as [[[text|]|e] s1]; [done | | done].
  unfold polls_on in *. cbn in *. intros Hn. specialize (Hs Hn).
  rewrite clock_tick. specialize (Hn (ops s1)). lia.
Qed.

Lemma wait_input_loop_polls_on (fuel : nat) (trigger_id : string)
  (start_time timeout : Z) (s : state) :
  polls_on returned_text 0 s
    (wait_input_loop fuel trigger_id start_time timeout s).
Proof.
  revert s. induction fuel as [|fuel IH]; intros s; simpl.
  - unfold polls_on. cbn. lia.
  - unfold bind at 1, time_now.
    destruct (clock s - start_time <? 1000 * timeout).
    2:{ unfold polls_on. cbn. lia. }
    pose proof (poll_responses_polls_on trigger_id s) as Hp.
    unfold bind. destruct (poll_responses trigger_id s) as [[[text|]|e] s1];
      [done | | done].
    specialize (IH s1). unfold polls_on in *. cbn in Hp.
    destruct (wait_input_loop fuel trigger_id start_time timeout s1)
      as [[r|e] s2]; cbn in *; [| done].
    destruct (returned_text r); [done |].
    intros Hn. specialize (Hp Hn). specialize (IH Hn). lia.
Qed.

Lemma wait_input_loop_ends (fuel : nat) (trigger_id : string)
  (start_time timeout : Z) (s : state) :
  (forall n, 0 <= elapse n) ->
  (0 < fuel)%nat ->
  1000 * timeout - (clock s - start_time) <= 100 * (Z.of_nat fuel - 1) ->
  exists r s1,
    wait_input_loop fuel trigger_id start_time timeout s = (Ok (Some r), s1).
Proof.
  intros Hn. revert s. induction fuel as [|fuel IH]; intros s Hfuel Hrem; [lia |].
  simpl. unfold bind at 1, time_now.
  destruct (Z.ltb_spec (clock s - start_time) (1000 * timeout)) as [Hlt|Hge].
  - pose proof (poll_responses_polls_on trigger_id s) as Hp.
    unfold bind. destruct (poll_responses trigger_id s) as [[[text|]|e] s1].
    + by eexists _, _.
    + specialize (Hp Hn). cbn in Hp. apply IH; lia.
    + done.
  - by eexists _, _.
Qed.

End GoingOn.

(** *** What the waiter does with a response file *)

Section ResponseWaiterProperties.
Context `{Runtime} `{Host}.


(** C7, as amended.  When the call returns the text of a response file
    whose body is a JSON object with an [attachments] array of three
    entries, [_last_attachments] holds exactly these three entries when
    the call returns, whatever it held before. *)
Theorem returned_attachments_are_stored
  (fuel : nat) (trigger_id : string) (timeout : Z) (s s1 : state) (text : string) :
  _wait_for_user_input fuel trigger_id timeout s = (Ok (Some (Some text)), s1) ->
  exists p file_content rest,
    journal s1 = ReceivedInput p file_content text :: rest /\
    forall d a1 a2 a3,
      startswith file_content "{" = true ->
      json_loads file_content = inl (PDict d) ->
      dict_get d "attachments" = Some (PList [a1; a2; a3]) ->
      _last_attachments s1 = PList [a1; a2; a3].
Proof.
  intros Hrun.
  pose proof (wait_for_user_input_spec fuel trigger_id timeout s) as Hspec.
  rewrite Hrun in Hspec.
  destruct Hspec as (new & Hj & _ & Hres). simpl in *.
  destruct Hres as (p & fc & rest & -> & Hrec).
  exists p, fc, (rest ++ journal s)%list. split; [done |].
  intros d a1 a2 a3 Hb Hd Ha. by apply (Hrec d).
Qed.

(** C9.  When no response file for the awaited id ever appears (none is
    there at the start and the host never creates one) and the clock does
    not run backwards, the call returns the no-response outcome [None],
    and when it does at least [timeout] seconds have passed on the clock
    since the call started. *)
Theorem no_response_times_out
  (fuel : nat) (trigger_id : string) (timeout : Z) (s : state) :
  (forall n, 0 <= elapse n) ->
  nothing_there trigger_id (files s) ->
  (forall n fs, nothing_there trigger_id fs ->
                nothing_there trigger_id (host_step n fs)) ->
  (turns timeout <= fuel)%nat ->
  exists s1,
    _wait_for_user_input fuel trigger_id timeout s = (Ok (Some None), s1) /\
    1000 * timeout <= clock s1 - clock s.
Proof.
  intros Hclock Hstart Hhost Hfuel.
  destruct (wait_for_user_input_quiet trigger_id (nothing_there trigger_id)
              (nothing_there_usable trigger_id) Hhost Hclock fuel timeout s)
    as (s1 & Hrun & Hlate & _); [done.. |].
  by exists s1.
Qed.


(** An accepted body that leaves the empty text: the clean-up and
    nothing handed back. *)
Lemma handle_empty (trigger_id p raw : string) (s : state) :
  (path_exists p s).1 = Ok true ->
  (read_text p (path_exists p s).2).1 = Ok raw ->
  (forall s0, (interpret trigger_id p (strip raw) s0).1 = Ok (Accept "")) ->
  let s2 := tick (tick s) in
  let '(r, s1) := handle_candidate trigger_id p s in
  r = Ok None /\
  (unlink_fails (ops s2) = false -> files s1 !! p = None) /\
  exists ev,
    journal s1
    = EmptyInput p (strip raw) :: ev :: FoundResponse p (strip raw) :: journal s /\
    (ev = CleanedUp p (strip raw) /\
       unlink_fails (ops s2) = false /\ files s1 = delete p (files (tick s2)) \/
     ev = CleanupError p (strip raw) (not_found p) /\
       files (tick s2) !! p = None /\ files s1 = files (tick s2) \/
     ev = CleanupError p (strip raw) (refused p) /\
       unlink_fails (ops s2) = true /\ files s1 = files (tick s2)).
Proof.
  rewrite path_exists_true. change (path_exists p s).2 with (tick s).
  rewrite read_text_ok. intros [body Hex] (b & Hread & Hraw) Hempty s2.
  unfold handle_candidate, bind at 1, path_exists. cbv zeta. rewrite Hex.
  unfold try_except, bind at 1, read_text. cbv zeta. rewrite Hread, <- Hraw.
  unfold bind at 1, say at 1.
  set (s3 := with_journal _ (tick (tick s))).
  specialize (Hempty s3).
  pose proof (interpret_spec trigger_id p (strip raw) s3) as Hint.
  unfold bind at 1.
  destruct (interpret trigger_id p (strip raw) s3) as [v s4].
  simpl in Hempty. subst v. cbv beta iota in Hint.
  destruct Hint as ((Hfiles & _ & Hops & _) & Hj & _).
  pose proof (consume_spec p (strip raw) "" s4) as Hc.
  destruct (consume p (strip raw) "" s4) as [r s5].
  cbv beta iota in Hc. change (String.eqb "" "") with true in Hc.
  destruct Hc as (ev & Hev & Hgone & _ & _ & _ & _ & -> & Hj5).
  assert (files (tick s4) = files (tick s2)) as Hsame
    by (by rewrite !files_tick, Hfiles, Hops).
  rewrite Hops, Hsame in Hev. rewrite Hops in Hgone.
  cbv beta iota. repeat split.
  - intros Hu. apply Hgone. by right.
  - exists ev. split; [by rewrite Hj5, Hj | exact Hev].
Qed.

(** C5, as amended.  When the waiter accepts a response file (plain text,
    or JSON that passes the check of the trigger id and is handled without
    error) and the text it ends up with is empty, it tries to unlink the
    file and returns nothing for it.  The file is gone afterwards when the
    unlink went through or found it gone already; an unlink that is
    refused is caught and logged and leaves the file.  Polling continues:
    the scan goes on with the next file name; a scan that ends with
    nothing is followed by a sleep of 0.1 s and, while the timeout has not
    elapsed, by the next turn of the loop; every call raises nothing and
    returns either a text that is not empty, logged with the file it was
    read from, or the no-response outcome once [timeout] seconds have
    passed; and while no operation takes a negative time the call does
    return. *)
Theorem empty_text_is_deleted_not_returned
  (trigger_id p raw : string) (s : state) :
  (path_exists p s).1 = Ok true ->
  (read_text p (path_exists p s).2).1 = Ok raw ->
  (forall s0, (interpret trigger_id p (strip raw) s0).1 = Ok (Accept "")) ->
  let s2 := tick (tick s) in
  (let '(r, s1) := handle_candidate trigger_id p s in
   r = Ok None /\
   (unlink_fails (ops s2) = false -> files s1 !! p = None) /\
   (exists ev,
       journal s1
       = EmptyInput p (strip raw) :: ev :: FoundResponse p (strip raw) :: journal s /\
       (ev = CleanedUp p (strip raw) /\
          unlink_fails (ops s2) = false /\
          files s1 = delete p (files (tick s2)) \/
        ev = CleanupError p (strip raw) (not_found p) /\
          files (tick s2) !! p = None /\ files s1 = files (tick s2) \/
        ev = CleanupError p (strip raw) (refused p) /\
          unlink_fails (ops s2) = true /\ files s1 = files (tick s2))) /\
   (forall rest,
       scan_candidates trigger_id (p :: rest) s
       = scan_candidates trigger_id rest s1)) /\
  (forall fuel start_time timeout s0 s1,
      scan_candidates trigger_id (response_patterns trigger_id) s0 = (Ok None, s1) ->
      clock s0 - start_time < 1000 * timeout ->
      wait_input_loop (S fuel) trigger_id start_time timeout s0
      = wait_input_loop fuel trigger_id start_time timeout (advance 100 (tick s1))) /\
  (forall fuel timeout s0,
      let '(r, s1) := _wait_for_user_input fuel trigger_id timeout s0 in
      match r with
      | Ok (Some (Some text)) =>
          text <> "" /\
          exists q file_content rest,
            journal s1 = ReceivedInput q file_content text :: rest
      | Ok (Some None) => 1000 * timeout <= clock s1 - clock s0
      | Ok None => True
      | Raise _ => False
      end) /\
  (forall fuel timeout s0,
      (forall n, 0 <= elapse n) ->
      (turns timeout <= fuel)%nat ->
      exists r s1,
        _wait_for_user_input fuel trigger_id timeout s0 = (Ok (Some r), s1)).
Proof.
  intros Hex Hread Hempty s2.
  split; [| split; [| split]].
  - pose proof (handle_empty trigger_id p raw s Hex Hread Hempty) as Hh.
    cbv zeta in Hh. fold s2 in Hh.
    destruct (handle_candidate trigger_id p s) as [r s1] eqn:Hrun.
    destruct Hh as (-> & Hgone & Hev). repeat split; [done.. |].
    intros rest. cbn [scan_candidates]. unfold bind at 1. by rewrite Hrun.
  - intros fuel start_time timeout s0 s1 Hscan Hlt.
    cbn [wait_input_loop]. unfold bind at 1, time_now.
    apply Z.ltb_lt in Hlt. rewrite Hlt.
    unfold bind at 1, poll_responses, try_except, bind at 1.
    by rewrite Hscan.
  - intros fuel timeout s0.
    pose proof (wait_for_user_input_spec fuel trigger_id timeout s0) as Hspec.
    pose proof (wait_input_loop_polls_on fuel trigger_id (clock s0) timeout s0)
      as Hp.
    pose proof (wait_input_loop_not_early fuel trigger_id (clock s0) timeout s0)
      as Hlate.
    change (wait_input_loop fuel trigger_id (clock s0) timeout s0)
      with (_wait_for_user_input fuel trigger_id timeout s0) in Hp, Hlate.
    destruct (_wait_for_user_input fuel trigger_id timeout s0)
      as [[[[text|]|]|e] s1].
    + split; [exact Hp |].
      destruct Hspec as (new & Hj & _ & q & fc & rest & -> & _).
      by exists q, fc, (rest ++ journal s0)%list.
    + by apply Hlate.
    + done.
    + done.
  - intros fuel timeout s0 Hn Hfuel. unfold turns in Hfuel.
    apply wait_input_loop_ends; [done | lia | lia].
Qed.

End ResponseWaiterProperties.

Section ResponseExamples.
Import Demo ResponseRuns.

(** A response for another request is found on every turn and left where
    it is; the call times out. *)
Example other_id_run :
  let '(r, s1) := @_wait_for_user_input rt idle 11 "t1" 1
                    (holding shared (render other_id)) in
  r = Ok (Some None) /\
  files s1 !! shared = Some (render other_id) /\
  hd_error (rev (journal s1)) = Some (FoundResponse shared (render other_id)).
Proof. vm_compute. done. Qed.

(** The scenario of the specification: the awaited response is returned
    and its file is gone. *)
Example matching_id_run :
  let '(r, s1) := @_wait_for_user_input rt idle 11 "review_1000" 2
                    (holding shared (render other_id)) in
  r = Ok (Some (Some "looks good")) /\ files s1 !! shared = None.
Proof. vm_compute. done. Qed.

(** Witness of C9: an empty directory, an idle host, one second. *)
Lemma no_response_times_out_witness :
  exists s1,
    @_wait_for_user_input rt idle 11 "t1" 1 (start ∅ None) = (Ok (Some None), s1) /\
    1000 * 1 <= clock s1 - clock (start ∅ None).
Proof.
  apply (@no_response_times_out rt idle 11 "t1" 1 (start ∅ None)).
  - intros n. simpl. lia.
  - intros p _. apply lookup_empty.
  - intros n fs Hfs. exact Hfs.
  - vm_compute. lia.
Defined.


(** Under an idle host the truncated body stays where it is for the whole
    call. *)
Example truncated_run :
  let '(r, s1) := @_wait_for_user_input rt idle 11 "t1" 1 (holding shared truncated) in
  r = Ok (Some None) /\ files s1 !! shared = Some truncated /\ 1000 <= clock s1.
Proof. vm_compute. repeat split; congruence. Qed.

(** Witness of C5 as amended: a text of blanks only. *)
Lemma empty_text_is_deleted_not_returned_witness :
  let s := holding shared (render blank) in
  let fc := strip (render blank) in
  let s2 := @tick idle (@tick idle s) in
  (let '(r, s1) := @handle_candidate rt idle "t1" shared s in
   r = Ok None /\
   (@unlink_fails idle (ops s2) = false -> files s1 !! shared = None) /\
   (exists ev,
       journal s1 = EmptyInput shared fc :: ev :: FoundResponse shared fc :: journal s /\
       (ev = CleanedUp shared fc /\
          @unlink_fails idle (ops s2) = false /\
          files s1 = delete shared (files (@tick idle s2)) \/
        ev = CleanupError shared fc (@not_found rt shared) /\
          files (@tick idle s2) !! shared = None /\
          files s1 = files (@tick idle s2) \/
        ev = CleanupError shared fc (@refused rt shared) /\
          @unlink_fails idle (ops s2) = true /\ files s1 = files (@tick idle s2))) /\
   (forall rest,
       @scan_candidates rt idle "t1" (shared :: rest) s
       = @scan_candidates rt idle "t1" rest s1)) /\
  (forall fuel start_time timeout s0 s1,
      @scan_candidates rt idle "t1" (@response_patterns rt "t1") s0 = (Ok None, s1) ->
      clock s0 - start_time < 1000 * timeout ->
      @wait_input_loop rt idle (S fuel) "t1" start_time timeout s0
      = @wait_input_loop rt idle fuel "t1" start_time timeout
          (advance 100 (@tick idle s1))) /\
  (forall fuel timeout s0,
      let '(r, s1) := @_wait_for_user_input rt idle fuel "t1" timeout s0 in
      match r with
      | Ok (Some (Some text)) =>
          text <> "" /\
          exists q file_content rest,
            journal s1 = ReceivedInput q file_content text :: rest
      | Ok (Some None) => 1000 * timeout <= clock s1 - clock s0
      | Ok None => True
      | Raise _ => False
      end) /\
  (forall fuel timeout s0,
      (forall n, 0 <= @elapse idle n) ->
      (turns timeout <= fuel)%nat ->
      exists r s1,
        @_wait_for_user_input rt idle fuel "t1" timeout s0 = (Ok (Some r), s1)).
Proof.
  apply (@empty_text_is_deleted_not_returned rt idle "t1" shared (render blank)
           (holding shared (render blank))).
  - reflexivity.
  - reflexivity.
  - intros s0. reflexivity.
Defined.

(** A text of blanks only in a directory that lets nothing be deleted:
    the file stays, the refusal is logged, and the file is found again on
    every turn until the call times out. *)
Example empty_text_kept_run :
  let '(r, s1) := @_wait_for_user_input rt (failing_unlinks (seq 0 200)) 11 "t1" 1
                    (holding shared (render blank)) in
  r = Ok (Some None) /\
  files s1 !! shared = Some (render blank) /\
  (CleanupError shared (strip (render blank)) (@refused rt shared) ∈ journal s1) /\
  hd_error (journal s1) = Some InputTimeout.
Proof.
  vm_compute. repeat split; try done.
  do 2 apply list_elem_of_further. apply list_elem_of_here.
Qed.

(** The same text, first in the scoped file and then, with an answer, in
    the shared one: the empty one is deleted and the answer is returned in
    the same turn. *)
Example empty_then_answer_run :
  let s := start (<[scoped := render blank]> {[ shared := "ok" ]}) None in
  let '(r, s1) := @_wait_for_user_input rt idle 11 "t1" 1 s in
  r = Ok (Some (Some "ok")) /\
  files s1 !! scoped = None /\ files s1 !! shared = None /\
  journal s1
  = [ ReceivedInput shared "ok" "ok"; CleanedUp shared "ok";
      FoundResponse shared "ok";
      EmptyInput scoped (render blank); CleanedUp scoped (render blank);
      FoundResponse scoped (render blank) ].
Proof. vm_compute. done. Qed.

(** Counterexample to C5 as stated.  The text extracted from the first
    body is empty, yet the call returns for it: the description of the
    attached image has been appended.  The text extracted from the second
    body is empty too, and its file is not deleted: it names another
    trigger id.  Nor is the file of the third, whose attachment has no
    [get]: the exception is caught before the clean-up. *)
Lemma empty_text_with_image_is_returned :
  (@json_loads rt (render image_only) = inl image_only /\
   extract_text image_only = Ok "" /\
   (@_wait_for_user_input rt idle 11 "t1" 1 (holding shared (render image_only))).1
   = Ok (Some (Some (newline +:+ newline +:+ "Attached: Image: a.png"))))
  /\
  (@json_loads rt (render other_id_empty) = inl other_id_empty /\
   extract_text other_id_empty = Ok "" /\
   let '(r, s1) := @handle_candidate rt idle "t1" shared
                     (holding shared (render other_id_empty)) in
   r = Ok None /\ files s1 !! shared = Some (render other_id_empty))
  /\
  (@json_loads rt (render odd_attachment) = inl odd_attachment /\
   extract_text odd_attachment = Ok "" /\
   let '(r, s1) := @handle_candidate rt idle "t1" shared
                     (holding shared (render odd_attachment)) in
   r = Ok None /\ files s1 !! shared = Some (render odd_attachment)).
Proof. vm_compute. done. Qed.

(** Witness of C7 as amended: three images with the returned text. *)
Lemma returned_attachments_are_stored_witness :
  exists p file_content rest,
    journal (@_wait_for_user_input rt idle 11 "t1" 1
               (holding shared (render three_images))).2
    = ReceivedInput p file_content
        ("see these" +:+ newline +:+ newline
         +:+ "Attached: Image: a.png, Image: b.png, Image: c.png") :: rest /\
    forall d a1 a2 a3,
      startswith file_content "{" = true ->
      @json_loads rt file_content = inl (PDict d) ->
      dict_get d "attachments" = Some (PList [a1; a2; a3]) ->
      _last_attachments (@_wait_for_user_input rt idle 11 "t1" 1
                           (holding shared (render three_images))).2
      = PList [a1; a2; a3].
Proof.
  apply (@returned_attachments_are_stored rt idle 11 "t1" 1
           (holding shared (render three_images))).
  vm_compute. reflexivity.
Defined.

Example three_images_run :
  let '(r, s1) := @_wait_for_user_input rt idle 11 "t1" 1
                    (holding shared (render three_images)) in
  r = Ok (Some (Some ("see these" +:+ newline +:+ newline
                      +:+ "Attached: Image: a.png, Image: b.png, Image: c.png"))) /\
  _last_attachments s1 = PList [image "a.png"; image "b.png"; image "c.png"].
Proof. vm_compute. done. Qed.

(** Counterexample to C7 as stated.  The file under the scoped name
    carries three attachments and is consumed (unlinked) by the waiter; its
    text is empty, so the waiter goes on, consumes the plain-text file
    under the shared name and returns its text.  When the call returns the
    stored attachments are the empty list, not the three entries. *)
Lemma consumed_attachments_are_overwritten :
  let s := start (<[scoped := render three_notes]> {[ shared := "ok" ]}) None in
  let '(r, s1) := @_wait_for_user_input rt idle 11 "t1" 1 s in
  @json_loads rt (render three_notes)
  = inl (PDict [("user_input", PStr "");
                ("attachments", PList [note "a.txt"; note "b.txt"; note "c.txt"])]) /\
  r = Ok (Some (Some "ok")) /\
  (CleanedUp scoped (render three_notes) ∈ journal s1) /\
  files s1 !! scoped = None /\
  _last_attachments s1 = PList [] /\
  _last_attachments s1 <> PList [note "a.txt"; note "b.txt"; note "c.txt"].
Proof.
  vm_compute. repeat split; try done.
  do 4 apply list_elem_of_further. apply list_elem_of_here.
Qed.

End ResponseExamples.

(** ** The dispatcher *)

Section DispatcherProperties.
Context `{Runtime} `{Host}.
Variable handler : pyval -> M (list content).

(** C10.  For a tool name other than [review_gate_chat] the dispatcher
    raises nothing: the [ValueError] it raises itself is caught, and the
    call returns one text item, [ERROR: Tool <name> failed: Unknown tool:
    <name>], which starts with [ERROR: Tool <name> failed:]. *)
Theorem unknown_tool_is_reported (name : string) (arguments : pyval) (s : state) :
  name <> "review_gate_chat" ->
  exists text,
    (call_tool handler name arguments s).1 = Ok [TextContent text] /\
    text = "ERROR: Tool " +:+ name +:+ " failed: Unknown tool: " +:+ name /\
    startswith text ("ERROR: Tool " +:+ name +:+ " failed:") = true.
Proof.
  intros Hname. eexists. split; [| split; [reflexivity |]].
  - unfold call_tool, bind at 1, say at 1, bind at 1, sleep at 1, try_except.
    destruct (String.eqb_spec name "review_gate_chat") as [|_]; [done |].
    reflexivity.
  - change (" failed: Unknown tool: " +:+ name)
      with (" failed:" +:+ " Unknown tool: " +:+ name).
    rewrite <- (append_assoc name), <- (append_assoc "ERROR: Tool ").
    apply startswith_append.
Qed.

End DispatcherProperties.

(** Witness of C10: a tool that does not exist. *)
Lemma unknown_tool_is_reported_witness :
  exists text,
    (@call_tool Demo.idle (fun _ => ret []) "quick_review" (PDict [])
       (Demo.start ∅ None)).1
    = Ok [TextContent text] /\
    text = "ERROR: Tool " +:+ "quick_review" +:+ " failed: Unknown tool: " +:+ "quick_review" /\
    startswith text ("ERROR: Tool " +:+ "quick_review" +:+ " failed:") = true.
Proof.
  apply (@unknown_tool_is_reported Demo.idle (fun _ => ret [])
           "quick_review" (PDict []) (Demo.start ∅ None)).
  discriminate.
Defined.

(** ** The emitter *)

Section EmitterProperties.
Context `{Runtime} `{Host}.

Lemma create_backup_triggers_never_raises (data : pyval) (s : state) :
  (_create_backup_triggers data s).1 = Ok tt.
Proof.
  unfold _create_backup_triggers, try_except, bind at 1.
  by destruct (write_backups data [0; 1; 2] s) as [[[]|e] s1].
Qed.

Lemma sync_with_retry_never_raises (attempts : list nat) (s : state) :
  (sync_with_retry attempts s).1 = Ok tt.
Proof.
  revert s. induction attempts as [|a attempts IH]; intros s; simpl; [done |].
  unfold bind at 1, try_except, bind at 1, os_sync. cbv zeta.
  destruct (sync_fails (ops s)); simpl; [apply IH | done].
Qed.

Lemma after_verification_true (data : pyval) (file_size : nat) (s : state) :
  (after_verification data file_size s).1 = Ok true.
Proof.
  unfold after_verification, bind at 1.
  pose proof (sync_with_retry_never_raises [0; 1; 2]%nat s) as Hsync.
  destruct (sync_with_retry [0; 1; 2]%nat s) as [r1 s1]. simpl in Hsync. subst r1.
  unfold bind at 1, say at 1, bind at 1.
  set (s2 := with_journal _ s1).
  pose proof (create_backup_triggers_never_raises data s2) as Hbackup.
  destruct (_create_backup_triggers data s2) as [r3 s3]. simpl in Hbackup. subst r3.
  unfold bind at 1, sleep at 1, bind at 1, try_except, bind at 1, path_exists at 1.
  cbv zeta.
  by destruct (files (tick (advance 200 (tick s3))) !! trigger_file).
Qed.

Lemma trigger_result (data : pyval) (s : state) :
  let s0 := (sleep 100 s).2 in
  let text := json_dumps (trigger_data data (isoformat (clock s0))) in
  let written := write_text trigger_file text s0 in
  let present := path_exists trigger_file written.2 in
  let size := stat_size trigger_file present.2 in
  (_trigger_cursor_popup_immediately data s).1
  = Ok (verified written.1 present.1 size.1).
Proof.
  cbv zeta.
  unfold _trigger_cursor_popup_immediately, try_except, bind at 1, sleep at 1.
  unfold bind at 1, now_iso at 1.
  change (sleep 100 s).2 with (advance 100 (tick s)).
  set (s0 := advance 100 (tick s)).
  set (text := json_dumps _).
  unfold bind at 1, write_text. cbv zeta.
  destruct (write_fails (ops s0)) eqn:Hw; cbn [fst snd]; [done |].
  set (s1 := with_files _ (tick s0)).
  unfold bind at 1, path_exists. cbv zeta.
  destruct (files (tick s1) !! trigger_file) as [body|] eqn:Hex;
    cbn [fst snd negb verified]; [| done].
  unfold bind at 1, try_except_kind, bind at 1, stat_size. cbv zeta.
  destruct (files (tick (tick s1)) !! trigger_file) as [body'|] eqn:Hst;
    cbn [fst snd].
  - destruct (String.length body') as [|n]; cbn [Nat.eqb fst snd]; [done |].
    unfold ret at 1. cbv beta iota.
    pose proof (after_verification_true data (S n) (tick (tick s1))) as Hav.
    destruct (after_verification data (S n) (tick (tick s1))) as [r sf].
    cbn [fst] in Hav. by subst r.
  - cbn [kind not_found]. rewrite bool_decide_eq_true_2 by done.
    unfold bind at 1, say at 1, ret at 1. cbv beta iota.
    set (s3 := with_journal _ (tick (tick s1))).
    pose proof (after_verification_true data (String.length text) s3) as Hav.
    destruct (after_verification data (String.length text) s3) as [r sf].
    cbn [fst] in Hav. by subst r.
Qed.

(** C2.  The emitter always returns a boolean, and it returns [False]
    in exactly three cases: the write of the primary trigger file raised;
    or the file was not there right after the write; or it was there and
    its size was zero.  When the file is gone by the time its size is
    asked for ([FileNotFoundError]: the host consumed it) the emitter
    returns [True].  Creating the three numbered backups never raises:
    a failed write there is caught, and nothing above depends on it. *)
Theorem trigger_failure_causes (data : pyval) (s : state) :
  let s0 := (sleep 100 s).2 in
  let text := json_dumps (trigger_data data (isoformat (clock s0))) in
  let written := write_text trigger_file text s0 in
  let present := path_exists trigger_file written.2 in
  let size := stat_size trigger_file present.2 in
  let result := (_trigger_cursor_popup_immediately data s).1 in
  (exists b, result = Ok b) /\
  (result = Ok false <->
     is_raise written.1 = true \/
     (is_raise written.1 = false /\ present.1 = Ok false) \/
     (is_raise written.1 = false /\ present.1 = Ok true /\ size.1 = Ok 0%nat)) /\
  (is_raise written.1 = false -> present.1 = Ok true ->
   size.1 = Raise (not_found trigger_file) -> result = Ok true) /\
  (forall s', (_create_backup_triggers data s').1 = Ok tt).
Proof.
  intros s0 text written present size result.
  assert (result = Ok (verified written.1 present.1 size.1)) as ->
    by apply trigger_result.
  assert (size.1 = Raise (not_found trigger_file)
          \/ exists n, size.1 = Ok n) as Hsize.
  { subst size. unfold stat_size. cbv zeta.
    destruct (files (tick present.2) !! trigger_file); cbn [fst]; eauto. }
  assert (exists b, present.1 = Ok b) as [found Hfound] by (by eexists).
  rewrite Hfound.
  split; [by eexists |]. split; [| split].
  - destruct written.1 as [[]|e]; cbn [is_raise verified].
    2:{ split; [by left | done]. }
    destruct found.
    2:{ split; [right; by left | done]. }
    destruct Hsize as [->|[[|n] ->]]; cbn [verified kind not_found].
    + rewrite bool_decide_eq_true_2 by done.
      split; [done | intros [[=]|[[_ [=]]|(_ & _ & [=])]]].
    + split; [by right; right | done].
    + split; [done | intros [[=]|[[_ [=]]|(_ & _ & [=])]]].
  - intros Hw [= ->] ->. destruct written.1; [| done].
    cbn [verified kind not_found]. by rewrite bool_decide_eq_true_2.
  - apply create_backup_triggers_never_raises.
Qed.

End EmitterProperties.

Section EmitterExamples.
Import Demo OtherRuns.

(** The host takes the trigger file away between the existence check and
    the size check: success. *)
Example consumed_trigger_run :
  (@_trigger_cursor_popup_immediately ResponseRuns.rt
     (consuming "/tmp/review_gate_trigger.json" 3) review_request (start ∅ None)).1
  = Ok true.
Proof. vm_compute. done. Qed.

(** The host takes it away before the existence check: failure. *)
Example missing_trigger_run :
  (@_trigger_cursor_popup_immediately ResponseRuns.rt
     (consuming "/tmp/review_gate_trigger.json" 2) review_request (start ∅ None)).1
  = Ok false.
Proof. vm_compute. done. Qed.

(** The write of the second backup fails: success all the same, with the
    primary file and the first backup written. *)
Example failed_backup_run :
  let '(r, s1) := @_trigger_cursor_popup_immediately ResponseRuns.rt
                    (failing_writes [6%nat]) review_request (start ∅ None) in
  r = Ok true /\
  is_Some (files s1 !! "/tmp/review_gate_trigger.json") /\
  is_Some (files s1 !! "/tmp/review_gate_trigger_0.json") /\
  files s1 !! "/tmp/review_gate_trigger_1.json" = None /\
  files s1 !! "/tmp/review_gate_trigger_2.json" = None.
Proof. vm_compute. repeat split; by eauto. Qed.

(** The primary write fails: failure. *)
Example failed_write_run :
  (@_trigger_cursor_popup_immediately ResponseRuns.rt
     (failing_writes [1%nat]) review_request (start ∅ None)).1
  = Ok false.
Proof. vm_compute. done. Qed.

End EmitterExamples.

(** ** The acknowledgement waiter *)

Section AcknowledgementProperties.
Context `{Runtime} `{Host}.



Lemma check_acknowledgement_spec (trigger_id : string) (s : state) :
  let '(r, s1) := check_acknowledgement trigger_id s in
  ((forall n, 0 <= elapse n) -> clock s <= clock s1) /\
  (r = Ok true -> acknowledged s1).
Proof.
  unfold check_acknowledgement, bind at 1, path_exists. cbv zeta.
  destruct (files (tick s) !! ack_file trigger_id) as [?|].
  2:{ simpl. split; [| done]. intros Hn. specialize (Hn (ops s)). lia. }
  unfold bind at 1, read_text. cbv zeta.
  destruct (files (tick (tick s)) !! ack_file trigger_id) as [raw|].
  2:{ simpl. split; [| done]. intros Hn.
      pose proof (Hn (ops s)). pose proof (Hn (S (ops s))). lia. }
  set (body := universal_newlines raw).
  unfold bind at 1, lift at 1, loads.
  destruct (json_loads body) as [data|m] eqn:Hjson.
  2:{ simpl. split; [| done]. intros Hn.
      pose proof (Hn (ops s)). pose proof (Hn (S (ops s))). lia. }
  unfold bind at 1, lift at 1, get.
  destruct data as [| | | | | |d];
    try (simpl; split; [| done]; intros Hn;
         pose proof (Hn (ops s)); pose proof (Hn (S (ops s))); lia).
  fold (flag_of d). unfold bind at 1, try_except, bind at 1, unlink. cbv zeta.
  unfold acknowledged.
  destruct (files (tick (tick (tick s))) !! ack_file trigger_id);
    [destruct (unlink_fails (ops (tick (tick s)))) |];
    destruct (flag_of d) eqn:Hflag; simpl;
    (split; [intros Hn; pose proof (Hn (ops s)); pose proof (Hn (S (ops s)));
             pose proof (Hn (S (S (ops s)))); lia |]);
    try done; intros _; eexists _, d, _; by repeat split.
Qed.

Lemma poll_acknowledgement_spec (trigger_id : string) (s : state) :
  let '(r, s1) := poll_acknowledgement trigger_id s in
  (r = Ok true /\ acknowledged s1) \/
  (r = Ok false /\ ((forall n, 0 <= elapse n) -> clock s + 100 <= clock s1)).
Proof.
  pose proof (check_acknowledgement_spec trigger_id s) as Hc.
  unfold poll_acknowledgement, try_except, bind at 1.
  destruct (check_acknowledgement trigger_id s) as [[[|]|e] s1];
    destruct Hc as [Hclock Hack]; simpl.
  - left. auto.
  - right. split; [done |]. intros Hn. specialize (Hclock Hn).
    pose proof (Hn (ops s1)). lia.
  - right. split; [done |]. intros Hn. specialize (Hclock Hn).
    pose proof (Hn (ops s1)). lia.
Qed.

Lemma wait_ack_loop_spec (fuel : nat) (trigger_id : string)
  (start_time timeout : Z) (s : state) :
  let '(r, s1) := wait_ack_loop fuel trigger_id start_time timeout s in
  match r with
  | Ok (Some true) => acknowledged s1
  | Ok (Some false) => 1000 * timeout <= clock s1 - start_time
  | Ok None => True
  | Raise _ => False
  end.
Proof.
  revert s. induction fuel as [|fuel IH]; intros s; simpl; [done |].
  unfold bind at 1, time_now.
  destruct (Z.ltb_spec (clock s - start_time) (1000 * timeout)) as [Hlt|Hge].
  - pose proof (poll_acknowledgement_spec trigger_id s) as Hp.
    unfold bind. destruct (poll_acknowledgement trigger_id s) as [r s1].
    destruct Hp as [[-> Hack]|[-> _]]; [done | apply IH].
  - simpl. lia.
Qed.

Lemma wait_ack_loop_ends (fuel : nat) (trigger_id : string)
  (start_time timeout : Z) (s : state) :
  (forall n, 0 <= elapse n) ->
  (0 < fuel)%nat ->
  1000 * timeout - (clock s - start_time) <= 100 * (Z.of_nat fuel - 1) ->
  exists b s1,
    wait_ack_loop fuel trigger_id start_time timeout s = (Ok (Some b), s1).
Proof.
  intros Hn. revert s. induction fuel as [|fuel IH]; intros s Hfuel Hrem; [lia |].
  simpl. unfold bind at 1, time_now.
  destruct (Z.ltb_spec (clock s - start_time) (1000 * timeout)) as [Hlt|Hge].
  - pose proof (poll_acknowledgement_spec trigger_id s) as Hp.
    unfold bind. destruct (poll_acknowledgement trigger_id s) as [r s1].
    destruct Hp as [[-> Hack]|[-> Hclock]]; [by eexists _, _ |].
    specialize (Hclock Hn). apply IH; lia.
  - by eexists _, _.
Qed.


End AcknowledgementProperties.

Section AcknowledgementExamples.
Import Demo AckRuns.

(** A refusal is deleted on sight and the call waits out its second. *)
Example refused_run :
  let '(r, s1) := @_wait_for_extension_acknowledgement rt idle 11 "review_1000" 1
                    (start {[ ack_path := render (ack false) ]} None) in
  r = Ok (Some false) /\ files s1 !! ack_path = None /\ 1000 <= clock s1.
Proof. vm_compute. repeat split; congruence. Qed.

Example acknowledged_run :
  let '(r, s1) := @_wait_for_extension_acknowledgement rt idle 11 "review_1000" 1
                    (start {[ ack_path := render (ack true) ]} None) in
  r = Ok (Some true) /\ files s1 !! ack_path = None /\
  journal s1 = [Acknowledged (render (ack true)); AckCleaned (render (ack true))].
Proof. vm_compute. done. Qed.

(** In a directory that lets nothing be deleted the acknowledgement is
    taken all the same, and its file stays. *)
Example refused_cleanup_run :
  let '(r, s1) := @_wait_for_extension_acknowledgement rt (failing_unlinks [2%nat])
                    11 "review_1000" 1
                    (start {[ ack_path := render (ack true) ]} None) in
  r = Ok (Some true) /\ files s1 !! ack_path = Some (render (ack true)) /\
  journal s1 = [Acknowledged (render (ack true))].
Proof. vm_compute. done. Qed.


End AcknowledgementExamples.

(** ** The speech requests *)

Section SpeechProperties.
Context `{Runtime} `{Host}.

Lemma write_speech_response_failure (trigger_id : pyval) (reason : string)
  (s : state) :
  write_fails (ops s) = false ->
  let '(r, s1) := _write_speech_response trigger_id "" (Some reason) s in
  r = Ok tt /\ failure_reported trigger_id reason s1.
Proof.
  intros Hw.
  unfold _write_speech_response, try_except, bind at 1, now_iso at 1.
  unfold bind at 1, write_text. cbv zeta. rewrite Hw. simpl.
  split; [done |]. eexists. split; [apply lookup_insert_eq | done].
Qed.

Lemma get_present (d : list (string * pyval)) (k : string) (dflt v : pyval) :
  dict_get d k = Some v -> get (PDict d) k dflt = Ok v.
Proof. intros Hk. unfold get. by rewrite Hk. Qed.

(** C8, as amended.  For a speech request with a trigger id and the path
    of an audio file, on a system where writing does not fail: when no
    model is loaded, when the audio file is not there, and when the
    transcription raises, a result document named after the trigger id is
    written, with [success: false] and an [error] field that holds,
    respectively, [Whisper model not available], [Audio file not found],
    and the text of the exception (which is empty when the exception
    carries no message). *)
Theorem speech_failure_is_reported
  (trigger_data trigger_id : pyval) (audio_file : string) (s : state) :
  speech_request trigger_data trigger_id audio_file ->
  (forall n, write_fails n = false) ->
  let '(_, s1) := _process_speech_request trigger_data s in
  (_whisper_model s = None ->
   failure_reported trigger_id "Whisper model not available" s1) /\
  (_whisper_model s <> None ->
   (path_exists audio_file s).1 = Ok false ->
   failure_reported trigger_id "Audio file not found" s1) /\
  (forall e,
      _whisper_model s <> None ->
      (path_exists audio_file s).1 = Ok true ->
      (run_transcribe (PStr audio_file) (path_exists audio_file s).2).1 = Raise e ->
      failure_reported trigger_id (msg e) s1).
Proof.
  intros (td & dd & -> & Hdata & Htid & Htruthy & Haudio & Hpath) Hw.
  apply eqb_empty_false in Hpath.
  unfold _process_speech_request, try_except.
  rewrite !(get_present _ _ _ _ Hdata).
  unfold bind at 1, lift at 1. cbv beta iota.
  rewrite (get_present _ _ _ _ Haudio).
  unfold bind at 1, lift at 1. cbv beta iota.
  unfold bind at 1, lift at 1. cbv beta iota.
  rewrite (get_present _ _ _ _ Htid).
  unfold bind at 1, lift at 1. cbv beta iota.
  cbn [truthy]. rewrite Hpath, Htruthy. cbn [negb orb].
  unfold bind at 1, whisper_model at 1.
  destruct (_whisper_model s) as [model|] eqn:Hmodel.
  2:{ unfold bind at 1, say at 1.
      set (s2 := with_journal _ s).
      pose proof (write_speech_response_failure trigger_id
                    "Whisper model not available" s2 (Hw _)) as Hwr.
      destruct (_write_speech_response _ _ _ s2) as [r s3].
      destruct Hwr as [-> Hrep]. by repeat split. }
  change (path_exists audio_file s).2 with (tick s).
  unfold bind at 1, os_path_exists, path_exists. cbv zeta.
  destruct (files (tick s) !! audio_file) as [audio|] eqn:Hex; cbn [negb fst].
  2:{ unfold bind at 1, say at 1.
      set (s2 := with_journal _ (tick s)).
      pose proof (write_speech_response_failure trigger_id
                    "Audio file not found" s2 (Hw _)) as Hwr.
      destruct (_write_speech_response _ _ _ s2) as [r s3].
      destruct Hwr as [-> Hrep]. by repeat split. }
  unfold bind at 1.
  destruct (run_transcribe (PStr audio_file) (tick s)) as [[joined|e] s2] eqn:Hrun.
  - match goal with |- (let '(_, _) := ?X in _) => destruct X as [r0 s9] end.
    repeat split; [congruence | by intros _ [=] | by intros e _ _ [=]].
  - cbn [fst]. unfold bind at 1, say at 1.
    set (s3 := with_journal _ s2).
    unfold bind at 1, lift at 1. cbv beta iota.
    rewrite (get_present _ _ _ _ Htid).
    unfold bind at 1, lift at 1. cbv beta iota.
    pose proof (write_speech_response_failure trigger_id (msg e) s3 (Hw _)) as Hwr.
    destruct (_write_speech_response _ _ _ s3) as [r s4].
    destruct Hwr as [-> Hrep]. repeat split; try done.
    by intros e' _ _ [= <-].
Qed.

End SpeechProperties.

Section SpeechExamples.
Import Demo SpeechRuns.

(** Witness of C8 as amended: no model is loaded. *)
Lemma speech_failure_is_reported_witness :
  let s := start {[ audio := "RIFF" ]} None in
  let '(_, s1) := @_process_speech_request (rt no_transcriber) idle request s in
  (_whisper_model s = None ->
   @failure_reported (rt no_transcriber) (PStr "speech_1")
     "Whisper model not available" s1) /\
  (_whisper_model s <> None ->
   (@path_exists idle audio s).1 = Ok false ->
   @failure_reported (rt no_transcriber) (PStr "speech_1") "Audio file not found" s1) /\
  (forall e,
      _whisper_model s <> None ->
      (@path_exists idle audio s).1 = Ok true ->
      (@run_transcribe (rt no_transcriber) idle (PStr audio)
         (@path_exists idle audio s).2).1 = Raise e ->
      @failure_reported (rt no_transcriber) (PStr "speech_1") (msg e) s1).
Proof.
  apply (@speech_failure_is_reported (rt no_transcriber) idle request
           (PStr "speech_1") audio (start {[ audio := "RIFF" ]} None)).
  - exists [("data", PDict [("tool", PStr "speech_to_text");
                            ("trigger_id", PStr "speech_1");
                            ("audio_file", PStr audio)])],
           [("tool", PStr "speech_to_text"); ("trigger_id", PStr "speech_1");
            ("audio_file", PStr audio)].
    repeat split; try reflexivity. discriminate.
  - reflexivity.
Defined.

Example no_model_run :
  let '(_, s1) := @_process_speech_request (rt no_transcriber) idle request
                    (start {[ audio := "RIFF" ]} None) in
  files s1 !! result
  = Some (render (response_data "t+0" (PStr "speech_1") ""
                    (Some "Whisper model not available"))).
Proof. vm_compute. done. Qed.

Example missing_audio_run :
  let '(_, s1) := @_process_speech_request (rt no_transcriber) idle request
                    (start ∅ (Some BaseModel)) in
  files s1 !! result
  = Some (render (response_data "t+1" (PStr "speech_1") ""
                    (Some "Audio file not found"))).
Proof. vm_compute. done. Qed.

(** Counterexample to C8 as stated.  The request names a trigger id and an
    audio file that is there, the model is loaded, and the transcription
    raises an exception that carries no message.  The result document is
    written with [success: false], and its [error] field is the empty
    text.  (And on a system that refuses the write, with no model loaded,
    no result document is left at all.) *)
Lemma silent_exception_gives_empty_error :
  (let s := start {[ audio := "RIFF" ]} (Some BaseModel) in
   let '(_, s1) := @_process_speech_request (rt silent_failure) idle request s in
   (@run_transcribe (rt silent_failure) idle (PStr audio) (@tick idle s)).1
   = Raise (Exn OtherError "") /\
   files s1 !! result = Some (render (PDict silent_result)) /\
   dict_get silent_result "success" = Some (PBool false) /\
   dict_get silent_result "error" = Some (PStr "")) /\
  (let s := start {[ audio := "RIFF" ]} None in
   let '(_, s1) := @_process_speech_request (rt no_transcriber)
                     (failing_writes [0%nat]) request s in
   files s1 !! result = None).
Proof. vm_compute. done. Qed.

End SpeechExamples.

Section FieldPriorityExamples.
Import Demo OtherRuns.

Example legacy_fields_text : priority_text legacy_fields = Ok "fine".
Proof. reflexivity. Qed.

Example legacy_fields_run :
  (@_wait_for_user_input (runtime [PDict legacy_fields] no_transcriber) idle 11 "t1" 1
     (start {[ ResponseRuns.shared := render (PDict legacy_fields) ]} None)).1
  = Ok (Some (Some "fine")).
Proof. vm_compute. done. Qed.

(** Witness of C4. *)
Lemma response_text_field_priority_witness :
  @interpret (runtime [PDict legacy_fields] no_transcriber) "t1" ResponseRuns.shared
    (render (PDict legacy_fields)) (start ∅ None)
  = (user_input <- lift (priority_text legacy_fields) ;;
     @judge_response (runtime [PDict legacy_fields] no_transcriber) "t1"
       ResponseRuns.shared (render (PDict legacy_fields)) (PDict legacy_fields)
       user_input) (start ∅ None).
Proof.
  apply (@response_text_field_priority (runtime [PDict legacy_fields] no_transcriber)
           "t1" ResponseRuns.shared (render (PDict legacy_fields)) legacy_fields
           (start ∅ None)); reflexivity.
Defined.

End FieldPriorityExamples.

(** * More properties: the tools, the monitors and the installer *)

(** ** Paths and directories *)

Lemma append_inj_l (a b c : string) : a +:+ b = a +:+ c -> b = c.
Proof.
  induction a as [|x a IH]; [done |].
  rewrite !append_cons. intros [= Heq]. by apply IH.
Qed.

Lemma os_path_join_inj (a b c : string) :
  startswith b "/" = false -> startswith c "/" = false ->
  os_path_join a b = os_path_join a c -> b = c.
Proof.
  unfold os_path_join. intros -> ->.
  destruct (String.eqb a "" || ends_with_sep a).
  - apply append_inj_l.
  - intros Heq. apply append_inj_l in Heq. by apply append_inj_l in Heq.
Qed.

Lemma files_with_journal (j : list event) (s : state) :
  files (with_journal j s) = files s.
Proof. reflexivity. Qed.

Lemma files_advance (ms : Z) (s : state) : files (advance ms s) = files s.
Proof. reflexivity. Qed.

Lemma files_with_files (fs : gmap string string) (s : state) :
  files (with_files fs s) = fs.
Proof. reflexivity. Qed.

Lemma files_tick_still `{Host} :
  (forall n fs, host_step n fs = fs) -> forall s, files (tick s) = files s.
Proof. intros Hstill s. by rewrite files_tick. Qed.

Section TriggerPaths.
Context `{Runtime}.

Lemma temp_files_are_triggers :
  temp_files = trigger_file :: map backup_trigger [0; 1; 2].
Proof. reflexivity. Qed.

Lemma temp_files_distinct : NoDup temp_files.
Proof.
  change temp_files
    with (os_path_join get_temp_dir
            <$> ["review_gate_trigger.json"; "review_gate_trigger_0.json";
                 "review_gate_trigger_1.json"; "review_gate_trigger_2.json"]).
  apply NoDup_fmap_2_strong.
  - intros a b Ha Hb. apply os_path_join_inj.
    + set_unfold in Ha. by destruct Ha as [->|[->|[->|[->|[]]]]].
    + set_unfold in Hb. by destruct Hb as [->|[->|[->|[->|[]]]]].
  - apply NoDup_ListNoDup. repeat constructor; simpl; intuition discriminate.
Qed.

Lemma triggers_are_no_responses (trigger_id p : string) :
  p ∈ temp_files -> p ∉ response_patterns trigger_id.
Proof.
  unfold temp_files, response_patterns. intros Hp Hq.
  repeat (apply elem_of_cons in Hp as [->|Hp]);
    [| | | | by apply elem_of_nil in Hp].
  all: repeat (apply elem_of_cons in Hq as [Hq|Hq]);
    [| | | | by apply elem_of_nil in Hq].
  all: apply os_path_join_inj in Hq; [discriminate Hq | reflexivity..].
Qed.

Lemma ack_is_no_response (trigger_id tid : string) :
  ack_file tid ∉ response_patterns trigger_id.
Proof.
  unfold ack_file, response_patterns. intros Hq.
  repeat (apply elem_of_cons in Hq as [Hq|Hq]);
    [| | | | by apply elem_of_nil in Hq].
  all: apply os_path_join_inj in Hq; [discriminate Hq | reflexivity..].
Qed.

End TriggerPaths.

(** ** The response waiter, once more *)

Section ResponseWaiterMore.
Context `{Runtime} `{Host}.

Lemma interpret_plain (trigger_id p file_content : string) (s : state) :
  startswith file_content "{" = false ->
  interpret trigger_id p file_content s
  = (Ok (Accept file_content), with_attachments (PList []) s).
Proof. intros Hb. unfold interpret. by rewrite Hb. Qed.

(** A body that [interpret] accepts with a text that is not empty. *)
Lemma handle_accepted (trigger_id p raw text : string) (stored : pyval)
  (s : state) :
  (path_exists p s).1 = Ok true ->
  (read_text p (path_exists p s).2).1 = Ok raw ->
  (forall s0, interpret trigger_id p (strip raw) s0
              = (Ok (Accept text), with_attachments stored s0)) ->
  text <> "" ->
  let s2 := tick (tick s) in
  let '(r, s1) := handle_candidate trigger_id p s in
  r = Ok (Some text) /\
  (unlink_fails (ops s2) = false -> files s1 !! p = None) /\
  (unlink_fails (ops s2) = true -> files s1 = files (tick s2)) /\
  _last_attachments s1 = stored /\
  (forall q, q <> p -> files s1 !! q = files (tick s2) !! q).
Proof.
  rewrite path_exists_true. change (path_exists p s).2 with (tick s).
  rewrite read_text_ok. intros [body Hex] (b & Hread & Hraw) Haccept Hne s2.
  unfold handle_candidate, bind at 1, path_exists. cbv zeta. rewrite Hex.
  unfold try_except, bind at 1, read_text. cbv zeta. rewrite Hread, <- Hraw.
  unfold bind at 1, say at 1. unfold bind at 1.
  rewrite Haccept.
  set (s4 := with_attachments _ _).
  pose proof (consume_spec p (strip raw) text s4) as Hc.
  destruct (consume p (strip raw) text s4) as [r s5].
  apply eqb_empty_false in Hne. apply negb_true_iff in Hne.
  rewrite Hne in Hc.
  destruct Hc as (ev & Hev & Hgone & Hrest & Hatt & _ & _ & -> & _).
  repeat split; [| | by rewrite Hatt | exact Hrest].
  - intros Hok. apply Hgone. by right.
  - intros Hbad.
    destruct Hev as [(_ & Hok & _)|[(_ & _ & Hkept)|(_ & _ & Hkept)]];
      [| exact Hkept..].
    change (ops s4) with (ops s2) in Hok. congruence.
Qed.

Lemma handle_plain_still (trigger_id p raw : string) (s : state) :
  (forall n fs, host_step n fs = fs) ->
  files s !! p = Some raw ->
  startswith (strip (universal_newlines raw)) "{" = false ->
  strip (universal_newlines raw) <> "" ->
  exists s1,
    handle_candidate trigger_id p s
    = (Ok (Some (strip (universal_newlines raw))), s1) /\
    (unlink_fails (ops (tick (tick s))) = false -> files s1 !! p = None) /\
    (unlink_fails (ops (tick (tick s))) = true -> files s1 = files s) /\
    _last_attachments s1 = PList [] /\
    (forall q, q <> p -> files s1 !! q = files s !! q).
Proof.
  intros Hstill Hthere Hplain Hne.
  pose proof (handle_accepted trigger_id p (universal_newlines raw)
                (strip (universal_newlines raw)) (PList []) s) as Hh.
  cbv zeta in Hh.
  destruct (handle_candidate trigger_id p s) as [r s1].
  destruct Hh as (-> & Hgone & Hkept & Hatt & Hrest); [| | | done |].
  - apply path_exists_true. by rewrite (files_tick_still Hstill), Hthere.
  - apply read_text_ok. change (path_exists p s).2 with (tick s).
    exists raw. by rewrite !(files_tick_still Hstill).
  - intros s0. by apply interpret_plain.
  - exists s1. repeat split; try done.
    + intros Hbad. by rewrite (Hkept Hbad), !(files_tick_still Hstill).
    + intros q Hq. by rewrite (Hrest q Hq), !(files_tick_still Hstill).
Qed.

(** X1. A response file whose stripped body does not start with a brace
    and is not empty is taken as plain text: the waiter hands back the
    stripped body and tries to delete the file.  Unless the deletion is
    refused the file is gone afterwards, whatever the host does; when it
    is refused the directory is as the host left it.  The stored
    attachments are reset to the empty list, and no other file is touched
    by the server. *)
Theorem plain_text_response_is_returned (trigger_id p raw : string) (s : state) :
  (path_exists p s).1 = Ok true ->
  (read_text p (path_exists p s).2).1 = Ok raw ->
  startswith (strip raw) "{" = false ->
  strip raw <> "" ->
  let '(r, s1) := handle_candidate trigger_id p s in
  r = Ok (Some (strip raw)) /\
  (unlink_fails (ops (tick (tick s))) = false -> files s1 !! p = None) /\
  (unlink_fails (ops (tick (tick s))) = true ->
   files s1 = files (tick (tick (tick s)))) /\
  _last_attachments s1 = PList [] /\
  (forall q, q <> p -> files s1 !! q = files (tick (tick (tick s))) !! q).
Proof.
  intros Hex Hread Hplain Hne.
  apply (handle_accepted trigger_id p raw (strip raw) (PList []) s Hex Hread);
    [| exact Hne].
  intros s0. unfold interpret. by rewrite Hplain.
Qed.

(** A JSON object is accepted with the text of its fields when it names
    no other trigger id and carries no attachments. *)
Lemma interpret_object (trigger_id p file_content text : string)
  (d : list (string * pyval)) (s : state) :
  startswith file_content "{" = true ->
  json_loads file_content = inl (PDict d) ->
  priority_text d = Ok text ->
  (forall v, dict_get d "trigger_id" = Some v ->
             truthy v = false \/ v = PStr trigger_id) ->
  (forall v, dict_get d "attachments" = Some v -> truthy v = false) ->
  interpret trigger_id p file_content s
  = (Ok (Accept text), with_attachments (PList []) s).
Proof.
  intros Hbrace Hjson Htext Hid Hatt.
  unfold interpret. rewrite Hbrace.
  unfold bind at 1, lift at 1, loads. rewrite Hjson.
  unfold interpret_json, bind at 1, lift at 1.
  rewrite extract_text_priority, Htext.
  unfold judge_response, bind at 1, lift at 1. cbn [get].
  unfold bind at 1, lift at 1. cbn [get].
  assert (truthy (default (PStr "") (dict_get d "trigger_id"))
          && ne_str (default (PStr "") (dict_get d "trigger_id")) trigger_id
          = false) as ->.
  { destruct (dict_get d "trigger_id") as [v|]; [| done]. simpl.
    destruct (Hid v eq_refl) as [->| ->]; [done |].
    simpl. rewrite String.eqb_refl. apply andb_false_r. }
  unfold bind at 1, record_attachments.
  assert (truthy (default (PList []) (dict_get d "attachments")) = false) as ->.
  { destruct (dict_get d "attachments") as [v|]; [| done]. by apply Hatt. }
  reflexivity.
Qed.

(** X2. A response file that holds a JSON object naming no other trigger
    id (none, an empty one, or the awaited one) and carrying no
    attachments is answered with the stripped value of the first of
    [user_input], [response], [message] that is there, when that is not
    empty: the text is handed back and the waiter tries to delete the
    file.  Unless the deletion is refused the file is gone afterwards,
    whatever the host does; when it is refused the directory is as the
    host left it.  The stored attachments are reset to the empty list. *)
Theorem json_response_is_returned (trigger_id p raw text : string)
  (d : list (string * pyval)) (s : state) :
  (path_exists p s).1 = Ok true ->
  (read_text p (path_exists p s).2).1 = Ok raw ->
  startswith (strip raw) "{" = true ->
  json_loads (strip raw) = inl (PDict d) ->
  priority_text d = Ok text ->
  text <> "" ->
  (forall v, dict_get d "trigger_id" = Some v ->
             truthy v = false \/ v = PStr trigger_id) ->
  (forall v, dict_get d "attachments" = Some v -> truthy v = false) ->
  let '(r, s1) := handle_candidate trigger_id p s in
  r = Ok (Some text) /\
  (unlink_fails (ops (tick (tick s))) = false -> files s1 !! p = None) /\
  (unlink_fails (ops (tick (tick s))) = true ->
   files s1 = files (tick (tick (tick s)))) /\
  _last_attachments s1 = PList [] /\
  (forall q, q <> p -> files s1 !! q = files (tick (tick (tick s))) !! q).
Proof.
  intros Hex Hread Hbrace Hjson Htext Hne Hid Hatt.
  apply (handle_accepted trigger_id p raw text (PList []) s Hex Hread);
    [| exact Hne].
  intros s0. by apply (interpret_object _ _ _ _ d).
Qed.

(** X3. The response file that carries the trigger id in its name is
    looked at first: on a host that leaves the directory alone, when it
    holds plain text that is not blank (as text mode reads it), one turn
    of the loop hands that text back, stripped, and tries to delete that
    file: the file is gone afterwards unless the deletion is refused, in
    which case it stays as it was; the other response files stay as they
    are, whatever they hold. *)
Theorem scoped_response_comes_first (trigger_id raw : string) (s : state) :
  (forall n fs, host_step n fs = fs) ->
  files s !! scoped_response trigger_id = Some raw ->
  startswith (strip (universal_newlines raw)) "{" = false ->
  strip (universal_newlines raw) <> "" ->
  let '(r, s1) := poll_responses trigger_id s in
  r = Ok (Some (strip (universal_newlines raw))) /\
  (unlink_fails (ops (tick (tick s))) = false ->
   files s1 !! scoped_response trigger_id = None) /\
  (unlink_fails (ops (tick (tick s))) = true ->
   files s1 !! scoped_response trigger_id = Some raw) /\
  (forall q, q <> scoped_response trigger_id -> files s1 !! q = files s !! q).
Proof.
  intros Hstill Hthere Hplain Hne.
  destruct (handle_plain_still trigger_id _ raw s Hstill Hthere Hplain Hne)
    as (s1 & Hrun & Hgone & Hkept & _ & Hrest).
  unfold poll_responses, try_except, bind at 1.
  change (response_patterns trigger_id)
    with (scoped_response trigger_id :: tl (response_patterns trigger_id)).
  cbn [scan_candidates]. unfold bind at 1. rewrite Hrun.
  repeat split; [exact Hgone | | exact Hrest].
  intros Hbad. by rewrite (Hkept Hbad).
Qed.

Lemma record_attachments_walkable (attachments : pyval) (user_input : string)
  (s : state) :
  let '(r, s1) := record_attachments attachments user_input s in
  match r with
  | Ok _ => walkable (_last_attachments s1)
  | Raise _ => True
  end.
Proof.
  unfold record_attachments.
  destruct (truthy attachments) eqn:Ht.
  - unfold bind at 1, lift at 1. destruct (len attachments); [| done].
    unfold bind at 1, set_last_attachments.
    unfold bind at 1, lift at 1.
    destruct (iter attachments) as [items|] eqn:Hi; [| done].
    unfold bind at 1, lift at 1.
    destruct (attachment_descriptions items) as [ds|] eqn:Hd; [| done].
    assert (walkable attachments) by (intros _; by exists items, ds).
    by destruct ds.
  - simpl. by intros [=].
Qed.

Lemma interpret_walkable (trigger_id p file_content : string) (s : state) :
  let '(r, s1) := interpret trigger_id p file_content s in
  match r with
  | Ok (Accept _) => walkable (_last_attachments s1)
  | _ => True
  end.
Proof.
  unfold interpret. destruct (startswith file_content "{").
  2:{ simpl. by intros [=]. }
  unfold bind at 1, lift at 1. destruct (loads file_content) as [data|]; [| done].
  unfold interpret_json, bind at 1, lift at 1.
  destruct (extract_text data) as [user_input|]; [| done].
  unfold judge_response, bind at 1, lift at 1.
  destruct (get data "attachments" (PList [])) as [attachments|]; [| done].
  unfold bind at 1, lift at 1.
  destruct (get data "trigger_id" (PStr "")) as [tid|]; [| done].
  destruct (truthy tid && ne_str tid trigger_id); [done |].
  pose proof (record_attachments_walkable attachments user_input s) as Hr.
  unfold bind at 1.
  by destruct (record_attachments attachments user_input s) as [[text|e] s1].
Qed.

Lemma handle_candidate_hands_back (trigger_id p : string) (s : state) :
  hands_back id (handle_candidate trigger_id p s).
Proof.
  unfold handle_candidate, bind at 1, path_exists. cbv zeta.
  destruct (files (tick s) !! p) as [?|]; [| done].
  unfold try_except, bind at 1, read_text. cbv zeta.
  destruct (files (tick (tick s)) !! p) as [body|]; [| done].
  set (raw := universal_newlines body).
  unfold bind at 1, say at 1.
  set (s3 := with_journal _ _).
  pose proof (interpret_walkable trigger_id p (strip raw) s3) as Hint.
  unfold bind at 1.
  destruct (interpret trigger_id p (strip raw) s3) as [[[|user_input]|e] s4].
  - done.
  - pose proof (consume_spec p (strip raw) user_input s4) as Hc.
    destruct (consume p (strip raw) user_input s4) as [r s5].
    destruct Hc as (ev & _ & _ & _ & Hatt & _ & _ & Hres).
    destruct (String.eqb user_input "") eqn:He; destruct Hres as [-> _].
    + done.
    + unfold hands_back. simpl. split; [| by rewrite Hatt].
      apply eqb_empty_false. by rewrite He.
  - simpl. by case_bool_decide.
Qed.

Lemma scan_candidates_hands_back (trigger_id : string) (ps : list string)
  (s : state) :
  hands_back id (scan_candidates trigger_id ps s).
Proof.
  revert s. induction ps as [|p ps IH]; intros s; simpl; [done |].
  pose proof (handle_candidate_hands_back trigger_id p s) as Hh.
  unfold bind. by destruct (handle_candidate trigger_id p s) as [[[text|]|e] s1].
Qed.

Lemma poll_responses_hands_back (trigger_id : string) (s : state) :
  hands_back id (poll_responses trigger_id s).
Proof.
  unfold poll_responses, try_except.
  pose proof (scan_candidates_hands_back trigger_id (response_patterns trigger_id) s)
    as Hs.
  unfold bind at 1.
  by destruct (scan_candidates _ _ s) as [[[text|]|e] s1].
Qed.

Lemma wait_input_loop_hands_back (fuel : nat) (trigger_id : string)
  (start_time timeout : Z) (s : state) :
  hands_back returned_text (wait_input_loop fuel trigger_id start_time timeout s).
Proof.
  revert s. induction fuel as [|fuel IH]; intros s; simpl; [done |].
  unfold bind at 1, time_now.
  destruct (clock s - start_time <? 1000 * timeout); [| done].
  pose proof (poll_responses_hands_back trigger_id s) as Hp.
  unfold bind. by destruct (poll_responses trigger_id s) as [[[text|]|e] s1].
Qed.

(** X4. Whatever the host does and however many turns the loop takes,
    the response waiter raises nothing and never returns the empty text: a
    returned text has at least one character. *)
Theorem returned_text_is_never_empty
  (fuel : nat) (trigger_id : string) (timeout : Z) (s : state) :
  match (_wait_for_user_input fuel trigger_id timeout s).1 with
  | Ok (Some (Some text)) => text <> ""
  | Ok _ => True
  | Raise _ => False
  end.
Proof.
  pose proof (wait_input_loop_hands_back fuel trigger_id (clock s) timeout s) as Hw.
  unfold _wait_for_user_input, bind, time_now.
  unfold hands_back in Hw.
  destruct (wait_input_loop _ _ _ _ s) as [[[[text|]|]|e] s1]; simpl in *; tauto.
Qed.

End ResponseWaiterMore.

(** ** The acknowledgement waiter, once more *)

Section AcknowledgementMore.
Context `{Runtime} `{Host}.

(** X5. An acknowledgement file whose body does not parse, or parses to
    something that is not an object, is not deleted: the poll logs the
    error, sleeps half a second and reports no acknowledgement; apart from
    the log and the clock the state is what the two reads left. *)
Theorem unreadable_acknowledgement_is_left_in_place
  (trigger_id body : string) (e : exn) (s : state) :
  (path_exists (ack_file trigger_id) s).1 = Ok true ->
  (read_text (ack_file trigger_id) (path_exists (ack_file trigger_id) s).2).1
  = Ok body ->
  (data <~ loads body ;; get data "acknowledged" (PBool false)) = Raise e ->
  poll_acknowledgement trigger_id s
  = (Ok false,
     advance 500 (tick (with_journal (AckError e :: journal s) (tick (tick s))))).
Proof.
  rewrite path_exists_true. change (path_exists _ s).2 with (tick s).
  rewrite read_text_ok. intros [b Hex] (raw & Hread & Hbody) Hbad.
  unfold poll_acknowledgement, try_except, check_acknowledgement.
  unfold bind at 1 2, path_exists. cbv zeta. rewrite Hex.
  unfold bind at 1, read_text. cbv zeta. rewrite Hread, <- Hbody.
  unfold bind at 1, lift at 1.
  unfold and_then in Hbad.
  destruct (loads body) as [data|e1].
  - unfold bind at 1, lift at 1. rewrite Hbad. reflexivity.
  - injection Hbad as ->. reflexivity.
Qed.

End AcknowledgementMore.

(** ** The speech requests, once more *)

Section SpeechMore.
Context `{Runtime} `{Host}.

Lemma write_speech_response_never_raises (trigger_id : pyval)
  (transcription : string) (error : option string) (s : state) :
  (_write_speech_response trigger_id transcription error s).1 = Ok tt.
Proof.
  unfold _write_speech_response, try_except, bind at 1, now_iso at 1.
  unfold bind at 1, write_text. cbv zeta.
  by destruct (write_fails (ops s)).
Qed.

Lemma get_raises (v : pyval) (k k' : string) (dflt dflt' : pyval) :
  is_raise (get v k dflt) = is_raise (get v k' dflt').
Proof. by destruct v. Qed.

(** X6. A speech request whose [audio_file] or [trigger_id] is missing
    or empty is only logged as invalid: no result document is written and
    nothing else in the state changes. *)
Theorem incomplete_speech_request_writes_nothing
  (trigger_data data audio_file trigger_id : pyval) (s : state) :
  get trigger_data "data" (PDict []) = Ok data ->
  get data "audio_file" PNone = Ok audio_file ->
  get data "trigger_id" PNone = Ok trigger_id ->
  truthy audio_file && truthy trigger_id = false ->
  _process_speech_request trigger_data s
  = (Ok tt, with_journal (SpeechInvalid :: journal s) s).
Proof.
  intros Hd Ha Ht Hmissing.
  unfold _process_speech_request, try_except.
  rewrite !Hd. unfold bind at 1, lift at 1. cbv beta iota.
  rewrite Ha. unfold bind at 1, lift at 1. cbv beta iota.
  unfold bind at 1, lift at 1. cbv beta iota.
  rewrite Ht. unfold bind at 1, lift at 1. cbv beta iota.
  rewrite <- negb_andb, Hmissing. reflexivity.
Qed.

(** X7. [_process_speech_request] lets an exception escape exactly when
    the trigger document, or its [data] field, is not an object: then the
    look-up of the trigger id in the [except] branch raises again.  In
    every other case it returns normally. *)
Theorem speech_request_raises_only_without_object
  (trigger_data : pyval) (s : state) :
  is_raise (_process_speech_request trigger_data s).1
  = is_raise (data <~ get trigger_data "data" (PDict []) ;;
              get data "trigger_id" (PStr "unknown")).
Proof.
  unfold _process_speech_request, try_except.
  destruct (get trigger_data "data" (PDict [])) as [data|e0] eqn:Hd.
  2:{ reflexivity. }
  unfold bind at 1, lift at 1. cbv beta iota.
  cbn [and_then].
  destruct (get data "audio_file" PNone) as [audio_file|e1] eqn:Ha.
  2:{ unfold bind at 1, lift at 1. cbv beta iota.
      unfold bind at 1, say at 1. unfold bind at 1, lift at 1. cbv beta iota.
      pose proof (get_raises data "audio_file" "trigger_id" PNone (PStr "unknown")) as Hg.
      rewrite Ha in Hg.
      destruct (get data "trigger_id" (PStr "unknown")); [done |].
      reflexivity. }
  pose proof (get_raises data "audio_file" "trigger_id" PNone (PStr "unknown")) as Hg.
  rewrite Ha in Hg.
  destruct (get data "trigger_id" (PStr "unknown")) as [fallback|] eqn:Hf; [| done].
  cbn [is_raise].
  match goal with
  | |- is_raise (match ?m s with _ => _ end).1 = false =>
      destruct (m s) as [[[]|e] s1]; [done |]
  end.
  unfold bind at 1, say at 1. unfold bind at 1, lift at 1. cbv beta iota.
  unfold bind at 1, lift at 1. rewrite Hf.
  by rewrite write_speech_response_never_raises.
Qed.

(** X8. With a loaded model, an audio file that is there and a
    transcription that succeeds, on a host that leaves the directory alone
    and with writes that succeed: the result document says [success: true],
    has a null [error] and carries the stripped transcription, and the
    server tries to delete the audio file: the file is gone afterwards
    unless the deletion is refused, in which case it stays as it was and
    the request is served all the same.  The audio file must not be the
    result document itself. *)
Theorem speech_success_is_reported
  (trigger_data trigger_id : pyval) (audio_file joined : string) (s : state) :
  speech_request trigger_data trigger_id audio_file ->
  (forall n fs, host_step n fs = fs) ->
  (forall n, write_fails n = false) ->
  _whisper_model s <> None ->
  is_Some (files s !! audio_file) ->
  transcribe (PStr audio_file) (files s) = Ok joined ->
  audio_file <> speech_response_file trigger_id ->
  let '(r, s1) := _process_speech_request trigger_data s in
  r = Ok tt /\
  success_reported trigger_id (strip joined) s1 /\
  (unlink_fails (ops (tick (tick (tick s)))) = false ->
   files s1 !! audio_file = None) /\
  (unlink_fails (ops (tick (tick (tick s)))) = true ->
   files s1 !! audio_file = files s !! audio_file).
Proof.
  intros (td & dd & -> & Hdata & Htid & Htruthy & Haudio & Hpath) Hq Hw
    Hmodel [audio Hex] Hrun Hother.
  apply eqb_empty_false in Hpath.
  unfold _process_speech_request, try_except.
  rewrite !(get_present _ _ _ _ Hdata).
  unfold bind at 1, lift at 1. cbv beta iota.
  rewrite (get_present _ _ _ _ Haudio).
  unfold bind at 1, lift at 1. cbv beta iota.
  unfold bind at 1, lift at 1. cbv beta iota.
  rewrite (get_present _ _ _ _ Htid).
  unfold bind at 1, lift at 1. cbv beta iota.
  cbn [truthy]. rewrite Hpath, Htruthy. cbn [negb orb].
  unfold bind at 1, whisper_model at 1.
  destruct (_whisper_model s) as [model|]; [| done].
  unfold bind at 1, os_path_exists, path_exists. cbv zeta.
  rewrite (files_tick_still Hq s), Hex. cbn [negb].
  unfold bind at 1, run_transcribe. cbv zeta.
  rewrite (files_tick_still Hq), (files_tick_still Hq s), Hrun.
  unfold bind at 1, say at 1.
  unfold bind at 1, _write_speech_response, try_except.
  unfold bind at 1, now_iso at 1. unfold bind at 1, write_text at 1. cbv zeta.
  rewrite Hw. unfold say at 1.
  unfold try_except, bind at 1, unlink_path, unlink. cbv zeta.
  set (s5 := with_journal _ _).
  assert (files (tick s5) = <[speech_response_file trigger_id :=
            json_dumps (response_data
              (isoformat (clock (with_journal (SpeechTranscribed (strip joined)
                                    :: journal (tick (tick s))) (tick (tick s)))))
              trigger_id (strip joined) None)]> (files s)) as Hfiles.
  { rewrite (files_tick_still Hq). subst s5. cbn [files with_journal with_files].
    f_equal. rewrite (files_tick_still Hq). change (files (tick (tick s)) = files s).
    by rewrite !(files_tick_still Hq). }
  rewrite Hfiles, lookup_insert_ne, Hex by done.
  change (ops s5) with (ops (tick (tick (tick s)))).
  destruct (unlink_fails (ops (tick (tick (tick s))))) eqn:Hrefused.
  - cbn. repeat split; [| done |].
    + eexists. cbn [files with_journal]. rewrite Hfiles.
      split; [apply lookup_insert_eq | done].
    + intros _. by rewrite Hfiles, lookup_insert_ne.
  - cbn. repeat split; [| | done].
    + eexists. cbn [files with_journal with_files].
      rewrite lookup_delete_ne by done.
      split; [apply lookup_insert_eq | done].
    + intros _. apply lookup_delete_eq.
Qed.

End SpeechMore.

(** ** The dispatcher, once more *)

Section DispatcherMore.
Context `{Runtime} `{Host}.
Variable handler : pyval -> M (list content).

(** X9. The dispatcher never lets an exception escape, whatever the
    handler of the review tool does and whatever the tool name is. *)
Theorem call_tool_never_raises (name : string) (arguments : pyval) (s : state) :
  is_raise (call_tool handler name arguments s).1 = false.
Proof.
  unfold call_tool, bind at 1, say at 1. unfold bind at 1, sleep at 1.
  unfold try_except.
  destruct (String.eqb name "review_gate_chat").
  - by destruct (handler arguments _) as [[c|e] s1].
  - reflexivity.
Qed.

(** X10. Called for [review_gate_chat], the dispatcher hands the handler's
    content on unchanged; when the handler raises, the result is the single
    text [ERROR: Tool review_gate_chat failed: <str(e)>].  The handler runs
    after the half second of sleep. *)
Theorem handler_error_is_reported (arguments : pyval) (s : state) :
  let s0 := advance 500
              (tick (with_journal (ToolCalled "review_gate_chat" :: journal s) s)) in
  (call_tool handler "review_gate_chat" arguments s).1
  = match (handler arguments s0).1 with
    | Ok response_content => Ok response_content
    | Raise e =>
        Ok [TextContent ("ERROR: Tool review_gate_chat failed: " +:+ msg e)]
    end.
Proof.
  unfold call_tool, bind at 1, say at 1. unfold bind at 1, sleep at 1.
  unfold try_except. cbv zeta.
  change (String.eqb "review_gate_chat" "review_gate_chat") with true.
  cbv beta iota.
  by destruct (handler arguments _) as [[c|e] s1].
Qed.

End DispatcherMore.

(** ** A host that leaves the directory alone *)

Section Still.
Context `{Runtime} `{Host}.
Hypothesis host_still : forall n fs, host_step n fs = fs.
Hypothesis writes_succeed : forall n, write_fails n = false.


Lemma sync_with_retry_still (attempts : list nat) (s : state) :
  files (sync_with_retry attempts s).2 = files s.
Proof.
  revert s. induction attempts as [|a rest IH]; intros s; [done |].
  simpl. unfold bind at 1, try_except, bind at 1, os_sync. cbv zeta.
  destruct (sync_fails (ops s)).
  - unfold bind at 1, say at 1. unfold bind at 1, sleep at 1. cbv beta iota.
    unfold ret at 1. cbv beta iota. rewrite IH.
    by rewrite files_advance, (files_tick_still host_still), files_with_journal, (files_tick_still host_still).
  - simpl. apply (files_tick_still host_still).
Qed.

Lemma create_backup_triggers_still (data : pyval) (s : state) :
  exists t0 t1 t2,
    files (_create_backup_triggers data s).2
    = <[backup_trigger 2 := json_dumps (backup_data 2 data t2)]>
        (<[backup_trigger 1 := json_dumps (backup_data 1 data t1)]>
           (<[backup_trigger 0 := json_dumps (backup_data 0 data t0)]> (files s))).
Proof.
  unfold _create_backup_triggers, try_except, write_backups, bind, now_iso,
    write_text, say, ret.
  cbv zeta. rewrite !writes_succeed.
  cbn [fst snd].
  repeat (rewrite files_with_journal || rewrite files_with_files
          || rewrite (files_tick_still host_still)).
  by eexists _, _, _.
Qed.

Lemma after_verification_still (data : pyval) (file_size : nat) (s : state) :
  exists t0 t1 t2,
    files (after_verification data file_size s).2
    = <[backup_trigger 2 := json_dumps (backup_data 2 data t2)]>
        (<[backup_trigger 1 := json_dumps (backup_data 1 data t1)]>
           (<[backup_trigger 0 := json_dumps (backup_data 0 data t0)]> (files s))).
Proof.
  unfold after_verification.
  unfold bind at 1.
  pose proof (sync_with_retry_never_raises [0; 1; 2]%nat s) as Hr.
  pose proof (sync_with_retry_still [0; 1; 2]%nat s) as Hf.
  destruct (sync_with_retry _ s) as [r s1]. simpl in Hr, Hf. subst r.
  unfold bind at 1, say at 1.
  set (s2 := with_journal _ s1).
  unfold bind at 1.
  pose proof (create_backup_triggers_never_raises data s2) as Hr.
  destruct (create_backup_triggers_still data s2) as (t0 & t1 & t2 & Hb).
  destruct (_create_backup_triggers data s2) as [r s3]. simpl in Hr, Hb. subst r.
  exists t0, t1, t2.
  rewrite Hf in Hb. rewrite <- Hb.
  unfold bind at 1, sleep at 1. unfold bind at 1, try_except, bind at 1, path_exists.
  cbv zeta.
  set (s4 := tick (advance 200 (tick s3))).
  assert (files s4 = files s3) as H4.
  { subst s4. by rewrite (files_tick_still host_still), files_advance, (files_tick_still host_still). }
  destruct (files s4 !! trigger_file); unfold say at 1;
    unfold bind at 1, path_exists; cbv zeta;
    unfold bind at 1, say at 1; unfold ret; cbn [snd];
    by rewrite files_with_journal, (files_tick_still host_still), files_with_journal.
Qed.

(** X11. On a host that leaves the directory alone, with writes that
    succeed and a request whose JSON text is not empty, the emitter returns
    [True] and leaves the primary trigger file and the three backups, each
    holding the request under [data]; no other file is touched. *)
Theorem quiet_emission_leaves_four_triggers (data : pyval) (s : state) :
  (forall timestamp, json_dumps (trigger_data data timestamp) <> "") ->
  let '(r, s1) := _trigger_cursor_popup_immediately data s in
  r = Ok true /\
  (exists timestamp,
      files s1 !! trigger_file = Some (json_dumps (trigger_data data timestamp))) /\
  (forall i, i ∈ [0; 1; 2] ->
             exists timestamp,
               files s1 !! backup_trigger i
               = Some (json_dumps (backup_data i data timestamp))) /\
  (forall q, q ∉ trigger_file :: map backup_trigger [0; 1; 2] ->
             files s1 !! q = files s !! q).
Proof.
  intros Hfull.
  pose proof temp_files_distinct as Hnd. rewrite temp_files_are_triggers in Hnd.
  apply NoDup_cons in Hnd as [Hp Hnd].
  apply NoDup_cons in Hnd as [Hb0 Hnd].
  apply NoDup_cons in Hnd as [Hb1 _].
  cbn [map] in Hp, Hb0, Hb1.
  unfold _trigger_cursor_popup_immediately, try_except.
  unfold bind at 1, sleep at 1. unfold bind at 1, now_iso at 1.
  set (s0 := advance 100 (tick s)).
  set (text := json_dumps (trigger_data data (isoformat (clock s0)))).
  unfold bind at 1, write_text at 1. cbv zeta. rewrite writes_succeed.
  set (s2 := with_files _ (tick s0)).
  unfold bind at 1, path_exists at 1. cbv zeta.
  assert (files (tick s2) !! trigger_file = Some text) as Hthere.
  { rewrite (files_tick_still host_still). apply lookup_insert_eq. }
  rewrite Hthere. cbn [negb].
  unfold bind at 1, try_except_kind, bind at 1, stat_size at 1. cbv zeta.
  assert (files (tick (tick s2)) !! trigger_file = Some text) as Hthere2.
  { by rewrite (files_tick_still host_still). }
  rewrite Hthere2.
  destruct (String.length text) as [|n] eqn:Hlen.
  { destruct text eqn:Htext; [| done]. by destruct (Hfull (isoformat (clock s0))). }
  cbn [Nat.eqb]. unfold ret at 1.
  set (s4 := tick (tick s2)).
  pose proof (after_verification_true data (S n) s4) as Hr.
  destruct (after_verification_still data (S n) s4) as (t0 & t1 & t2 & Hf).
  destruct (after_verification data (S n) s4) as [r s5].
  cbn [fst snd] in Hr, Hf. subst r.
  assert (files s4 = <[trigger_file := text]> (files s)) as H4.
  { subst s4 s2 s0.
    by repeat (rewrite (files_tick_still host_still) || rewrite files_with_files
               || rewrite files_advance). }
  rewrite H4 in Hf. rewrite Hf. clear Hf H4 Hthere Hthere2.
  apply not_elem_of_cons in Hp as [Hp0 Hp].
  apply not_elem_of_cons in Hp as [Hp1 Hp].
  apply not_elem_of_cons in Hp as [Hp2 _].
  apply not_elem_of_cons in Hb0 as [H01 Hb0].
  apply not_elem_of_cons in Hb0 as [H02 _].
  apply not_elem_of_cons in Hb1 as [H12 _].
  split; [done |]. split; [| split].
  - exists (isoformat (clock s0)).
    rewrite !lookup_insert_ne by done. apply lookup_insert_eq.
  - intros i Hi.
    apply elem_of_cons in Hi as [->|Hi]; [| apply elem_of_cons in Hi as [->|Hi]].
    + exists t0. rewrite !lookup_insert_ne by done. apply lookup_insert_eq.
    + exists t1. rewrite lookup_insert_ne by done. apply lookup_insert_eq.
    + apply list_elem_of_singleton in Hi as ->. exists t2. apply lookup_insert_eq.
  - intros q Hq. cbn [map] in Hq.
    apply not_elem_of_cons in Hq as [Hq0 Hq].
    apply not_elem_of_cons in Hq as [Hq1 Hq].
    apply not_elem_of_cons in Hq as [Hq2 Hq].
    apply not_elem_of_cons in Hq as [Hq3 _].
    by rewrite !lookup_insert_ne by done.
Qed.

End Still.

(** ** The shutdown monitor *)

Section ShutdownMore.
Context `{Runtime} `{Host}.
Variable shutdown_requested : nat -> bool.

Lemma cleanup_before_shutdown_true (s : state) :
  (cleanup_before_shutdown s).1 = Ok true.
Proof.
  unfold cleanup_before_shutdown, bind, try_except.
  by destruct (remove_files temp_files s) as [[[]|e] s1].
Qed.

Lemma await_shutdown_spec (fuel n : nat) (s : state) :
  let '(r, s1) := await_shutdown shutdown_requested fuel n s in
  exists k,
    s1 = Nat.iter k nap s /\
    (forall j, (j < k)%nat -> shutdown_requested (n + j) = false) /\
    ((r = Ok true /\ (k < fuel)%nat /\ shutdown_requested (n + k) = true) \/
     (r = Ok false /\ k = fuel)).
Proof.
  revert n s. induction fuel as [|fuel IH]; intros n s.
  - exists 0%nat. simpl. repeat split; [lia | by right].
  - simpl. destruct (shutdown_requested n) eqn:Hn.
    + exists 0%nat. simpl. repeat split; [lia |]. left.
      rewrite Nat.add_0_r. repeat split; [lia | done].
    + unfold bind, sleep. specialize (IH (S n) (nap s)).
      fold (nap s).
      destruct (await_shutdown shutdown_requested fuel (S n) (nap s)) as [r s1].
      destruct IH as (k & -> & Hbefore & Hend).
      exists (S k). repeat split.
      * by rewrite Nat.iter_succ_r.
      * intros [|j] Hj; [by rewrite Nat.add_0_r |].
        rewrite Nat.add_succ_r. apply (Hbefore j). lia.
      * rewrite Nat.add_succ_r.
        destruct Hend as [(-> & Hk & Hflag)|[-> ->]]; [left | by right].
        repeat split; [lia | done].
Qed.

(** X12. The shutdown monitor returns [True] and never raises.  It runs
    the clean-up only once a test of the loop has found the flag set, after
    one second of sleep for every test that found it unset; while the flag
    stays unset it does nothing but sleep. *)
Theorem monitor_waits_for_the_flag (fuel : nat) (s : state) :
  let '(r, s1) := _monitor_shutdown shutdown_requested fuel s in
  match r with
  | Ok (Some result) =>
      result = true /\
      exists k, (k < fuel)%nat /\ shutdown_requested k = true /\
                (forall j, (j < k)%nat -> shutdown_requested j = false) /\
                s1 = (cleanup_before_shutdown (Nat.iter k nap s)).2
  | Ok None =>
      (forall j, (j < fuel)%nat -> shutdown_requested j = false) /\
      s1 = Nat.iter fuel nap s
  | Raise _ => False
  end.
Proof.
  unfold _monitor_shutdown, bind at 1.
  pose proof (await_shutdown_spec fuel 0 s) as Hw.
  destruct (await_shutdown shutdown_requested fuel 0 s) as [r s0].
  destruct Hw as (k & -> & Hbefore & [(-> & Hk & Hflag)|[-> ->]]).
  - unfold bind. pose proof (cleanup_before_shutdown_true (Nat.iter k nap s)) as Hc.
    destruct (cleanup_before_shutdown (Nat.iter k nap s)) as [r s1] eqn:Hrun.
    simpl in Hc. subst r. simpl. split; [done |]. exists k. by rewrite Hrun.
  - simpl. by split.
Qed.

End ShutdownMore.

Section ShutdownCleanup.
Context `{Runtime} `{Host}.

Lemma remove_files_still (fs : list string) (s : state) :
  (forall n fs, host_step n fs = fs) ->
  (forall n, unlink_fails n = false) ->
  let '(r, s1) := remove_files fs s in
  r = Ok tt /\
  (forall q, q ∈ fs -> files s1 !! q = None) /\
  (forall q, q ∉ fs -> files s1 !! q = files s !! q).
Proof.
  intros Hstill Hok. revert s. induction fs as [|p rest IH]; intros s.
  - simpl. split; [done |]. split; [| done]. intros q Hq. by apply elem_of_nil in Hq.
  - simpl. unfold bind at 1, path_exists. cbv zeta.
    assert (forall x, files (tick x) = files x) as Ht
      by (intros x; by rewrite files_tick).
    rewrite Ht.
    assert (forall s2 : state,
               files s2 !! p = None ->
               (forall q, q <> p -> files s2 !! q = files s !! q) ->
               let '(r, s1) := remove_files rest s2 in
               r = Ok tt /\
               (forall q, q ∈ p :: rest -> files s1 !! q = None) /\
               (forall q, q ∉ p :: rest -> files s1 !! q = files s !! q)) as Hrest.
    { intros s2 Hgone Hsame. specialize (IH s2).
      destruct (remove_files rest s2) as [r s3].
      destruct IH as (-> & Hin & Hout). split; [done |]. split.
      - intros q Hq. destruct (decide (q ∈ rest)) as [Hr|Hr]; [by apply Hin |].
        apply elem_of_cons in Hq as [->|Hq]; [| done]. by rewrite Hout.
      - intros q Hq. apply not_elem_of_cons in Hq as [Hqp Hq].
        rewrite Hout by done. by apply Hsame. }
    destruct (files s !! p) as [body|] eqn:Hp.
    + unfold bind at 1, unlink. cbv zeta. rewrite !Ht, Hp, Hok.
      apply Hrest.
      * rewrite files_with_files. apply lookup_delete_eq.
      * intros q Hq. rewrite files_with_files. by rewrite lookup_delete_ne.
    + unfold bind at 1, ret at 1. apply Hrest.
      * by rewrite Ht.
      * intros q _. by rewrite Ht.
Qed.

(** X13. On a host that leaves the directory alone, and where no
    deletion is refused, the clean-up before shutdown removes the primary
    trigger file and the three backups, the files the emitter writes, and
    touches nothing else. *)
Theorem shutdown_cleanup_removes_the_triggers (s : state) :
  (forall n fs, host_step n fs = fs) ->
  (forall n, unlink_fails n = false) ->
  let '(r, s1) := cleanup_before_shutdown s in
  r = Ok true /\
  files s1 !! trigger_file = None /\
  (forall i, i ∈ [0; 1; 2] -> files s1 !! backup_trigger i = None) /\
  (forall q, q ∉ temp_files -> files s1 !! q = files s !! q).
Proof.
  intros Hstill Hok. unfold cleanup_before_shutdown, bind, try_except.
  pose proof (remove_files_still temp_files s Hstill Hok) as Hr.
  destruct (remove_files temp_files s) as [r s1].
  destruct Hr as (-> & Hin & Hout). simpl. split; [done |].
  rewrite temp_files_are_triggers in Hin.
  split; [| split].
  - apply Hin, list_elem_of_here.
  - intros i Hi. apply Hin, list_elem_of_further. by apply list_elem_of_fmap_2.
  - exact Hout.
Qed.

(** X14. The clean-up tests for a file and then deletes it.  When the
    deletion raises, because the file went away between the two (the host
    consumed it) or because the deletion is refused, the exception ends
    the loop: the files after it in the list are not looked at.  For the
    primary trigger file, the first of the list, the clean-up is over
    after these two operations and still reports [True]. *)
Theorem vanished_file_ends_the_cleanup (p : string) (rest : list string)
  (s : state) :
  (path_exists p s).1 = Ok true ->
  is_raise (unlink p (path_exists p s).2).1 = true ->
  (exists e,
      (e = not_found p /\ files (tick (tick s)) !! p = None \/
       e = refused p /\ is_Some (files (tick (tick s)) !! p) /\
         unlink_fails (ops (tick s)) = true) /\
      remove_files (p :: rest) s = (Raise e, tick (tick s))) /\
  (p :: rest = temp_files ->
   cleanup_before_shutdown s = (Ok true, tick (tick s))).
Proof.
  rewrite path_exists_true. change (path_exists p s).2 with (tick s).
  intros [body Hex] Hgone.
  assert (exists e,
             (e = not_found p /\ files (tick (tick s)) !! p = None \/
              e = refused p /\ is_Some (files (tick (tick s)) !! p) /\
                unlink_fails (ops (tick s)) = true) /\
             remove_files (p :: rest) s = (Raise e, tick (tick s)))
    as (e & He & Hstep).
  { cbn [remove_files]. unfold bind at 1, path_exists. cbv zeta. rewrite Hex.
    unfold bind at 1. unfold unlink in *. cbv zeta in *.
    destruct (files (tick (tick s)) !! p) as [kept|] eqn:Hkept.
    - destruct (unlink_fails (ops (tick s))) eqn:Hrefused; [| done].
      exists (refused p). split; [right; by repeat split | done].
    - exists (not_found p). split; [by left | done]. }
  split; [by exists e |].
  intros Hlist. unfold cleanup_before_shutdown, bind, try_except.
  by rewrite <- Hlist, Hstep.
Qed.

End ShutdownCleanup.

(** ** The speech triggers *)

Section SpeechTriggerMore.
Context `{Runtime} `{Host}.

Lemma unlink_quietly (p : string) (s : state) :
  let '(r, s1) := try_except (unlink p) (fun _ => ret tt) s in
  r = Ok tt /\
  (unlink_fails (Nat.pred (ops s1)) = false -> files s1 !! p = None).
Proof.
  unfold try_except, unlink. cbv zeta.
  destruct (files (tick s) !! p) eqn:Hp; simpl; [| done].
  destruct (unlink_fails (ops s)) eqn:Hrefused; simpl.
  - split; [done |]. congruence.
  - split; [done |]. intros _. apply lookup_delete_eq.
Qed.

(** X15. Handling one speech trigger file never raises.  Whenever the
    file could not be read, did not parse, was not an object, or asked for
    [speech_to_text], the last thing done is an attempt to delete it, and
    unless that attempt is refused the file is gone afterwards; a trigger
    that asks for another tool is left alone: nothing but the read has
    happened. *)
Theorem speech_trigger_is_removed_or_left_alone (trigger_file : string)
  (s : state) :
  let '(r, s1) := handle_speech_trigger trigger_file s in
  let removed :=
    unlink_fails (Nat.pred (ops s1)) = false -> files s1 !! trigger_file = None in
  r = Ok tt /\
  match (read_text trigger_file s).1 with
  | Ok body =>
      match requested_tool body with
      | Ok tool =>
          if eq_str tool "speech_to_text" then removed else s1 = tick s
      | Raise _ => removed
      end
  | Raise _ => removed
  end.
Proof.
  unfold handle_speech_trigger, try_except at 1.
  unfold bind at 1, read_text. cbv zeta.
  destruct (files (tick s) !! trigger_file) as [raw|] eqn:Hread; cbn [fst].
  2:{ apply unlink_quietly. }
  set (body := universal_newlines raw).
  unfold requested_tool.
  unfold bind at 1, lift at 1.
  destruct (loads body) as [trigger_data|e]; cbn [and_then].
  2:{ apply unlink_quietly. }
  unfold bind at 1, lift at 1.
  destruct (get trigger_data "data" (PDict [])) as [data|e]; cbn [and_then].
  2:{ apply unlink_quietly. }
  unfold bind at 1, lift at 1.
  destruct (get data "tool" PNone) as [tool|e]; cbn [and_then].
  2:{ apply unlink_quietly. }
  destruct (eq_str tool "speech_to_text"); [| done].
  unfold bind at 1.
  destruct (_process_speech_request trigger_data (tick s)) as [[[]|e] s2].
  2:{ apply unlink_quietly. }
  pose proof (unlink_quietly trigger_file s2) as Hq.
  unfold try_except in Hq.
  destruct (unlink trigger_file s2) as [[[]|e] s3] eqn:Hu.
  - done.
  - unfold unlink in Hu. cbv zeta in Hu.
    destruct (files (tick s2) !! trigger_file);
      [destruct (unlink_fails (ops s2)); [| done] |];
      injection Hu as <- <-; apply unlink_quietly.
Qed.

End SpeechTriggerMore.

Section SpeechTriggerAnswered.
Context `{Runtime} `{Host}.

Lemma process_without_model (trigger_data trigger_id : pyval)
  (audio_file : string) (s : state) :
  speech_request trigger_data trigger_id audio_file ->
  _whisper_model s = None ->
  _process_speech_request trigger_data s
  = _write_speech_response trigger_id "" (Some "Whisper model not available")
      (with_journal (SpeechNoModel :: journal s) s).
Proof.
  intros (td & dd & -> & Hdata & Htid & Htruthy & Haudio & Hpath) Hmodel.
  apply eqb_empty_false in Hpath.
  unfold _process_speech_request, try_except.
  rewrite !(get_present _ _ _ _ Hdata).
  unfold bind at 1, lift at 1. cbv beta iota.
  rewrite (get_present _ _ _ _ Haudio).
  unfold bind at 1, lift at 1. cbv beta iota.
  unfold bind at 1, lift at 1. cbv beta iota.
  rewrite (get_present _ _ _ _ Htid).
  unfold bind at 1, lift at 1. cbv beta iota.
  cbn [truthy]. rewrite Hpath, Htruthy. cbn [negb orb].
  unfold bind at 1, whisper_model at 1. rewrite Hmodel.
  unfold bind at 1, say at 1.
  pose proof (write_speech_response_never_raises trigger_id ""
                (Some "Whisper model not available")
                (with_journal (SpeechNoModel :: journal s) s)) as Hok.
  destruct (_write_speech_response _ _ _ _) as [r s1]. simpl in Hok. by subst r.
Qed.

(** X16. A trigger file that asks for [speech_to_text] while no model is
    loaded is answered, and the server tries to remove it: on a host that
    leaves the directory alone and with writes that succeed, the result
    document for its trigger id reports the failure; the trigger file is
    gone when the deletion goes through, or when it is refused and the
    second attempt, made on account of that error, goes through; when
    both are refused the file stays as it was.  The trigger file must not
    be the result document itself. *)
Theorem speech_trigger_is_answered (trigger_file raw : string)
  (trigger_data data trigger_id : pyval) (audio_file : string) (s : state) :
  (forall n fs, host_step n fs = fs) ->
  (forall n, write_fails n = false) ->
  files s !! trigger_file = Some raw ->
  json_loads (universal_newlines raw) = inl trigger_data ->
  speech_request trigger_data trigger_id audio_file ->
  requested_tool (universal_newlines raw) = Ok (PStr "speech_to_text") ->
  _whisper_model s = None ->
  trigger_file <> speech_response_file trigger_id ->
  let '(r, s1) := handle_speech_trigger trigger_file s in
  let first := unlink_fails (ops (tick (tick s))) in
  let second := unlink_fails (ops (tick (tick (tick s)))) in
  r = Ok tt /\
  failure_reported trigger_id "Whisper model not available" s1 /\
  (first = false -> files s1 !! trigger_file = None) /\
  (first = true -> second = false -> files s1 !! trigger_file = None) /\
  (first = true -> second = true -> files s1 !! trigger_file = Some raw).
Proof.
  intros Hstill Hw Hthere Hjson Hreq Htool Hmodel Hother.
  assert (forall x, files (tick x) = files x) as Ht
      by (intros x; by rewrite files_tick).
  unfold handle_speech_trigger, try_except at 1.
  unfold bind at 1, read_text. cbv zeta. rewrite Ht, Hthere.
  set (body := universal_newlines raw) in *.
  unfold requested_tool, loads in Htool. unfold loads.
  rewrite Hjson in *. cbn [and_then] in Htool.
  unfold bind at 1, lift at 1.
  destruct (get trigger_data "data" (PDict [])) as [d|]; [| done].
  cbn [and_then] in Htool. unfold bind at 1, lift at 1. cbv beta iota.
  rewrite Htool. unfold bind at 1, lift at 1. cbv beta iota.
  change (eq_str (PStr "speech_to_text") "speech_to_text") with true.
  cbv beta iota.
  unfold bind at 1.
  rewrite (process_without_model _ _ _ _ Hreq) by done.
  set (s2 := with_journal _ (tick s)).
  pose proof (write_speech_response_failure trigger_id
                "Whisper model not available" s2 (Hw _)) as Hwr.
  assert (files (_write_speech_response trigger_id ""
                   (Some "Whisper model not available") s2).2 !! trigger_file
          = Some raw /\
          ops (_write_speech_response trigger_id ""
                 (Some "Whisper model not available") s2).2
          = ops (tick (tick s))) as [Hkept Hops].
  { split.
    - unfold _write_speech_response, try_except, bind at 1, now_iso at 1.
      unfold bind at 1, write_text. cbv zeta. rewrite Hw. cbn [fst snd say].
      rewrite files_with_journal, files_with_files, lookup_insert_ne by done.
      subst s2. by rewrite Ht, files_with_journal, Ht.
    - unfold _write_speech_response, try_except, bind at 1, now_iso at 1.
      unfold bind at 1, write_text. cbv zeta. by rewrite Hw. }
  destruct (_write_speech_response trigger_id "" _ s2) as [r s3].
  destruct Hwr as [-> (doc & Hdoc & Hfields)]. cbn [snd] in Hkept, Hops.
  unfold unlink at 1. cbv zeta. rewrite Ht, Hkept, Hops.
  destruct (unlink_fails (ops (tick (tick s)))) eqn:Hfirst.
  - unfold try_except, unlink. cbv zeta.
    change (ops (tick s3)) with (S (ops s3)). rewrite Hops.
    change (S (ops (tick (tick s)))) with (ops (tick (tick (tick s)))).
    rewrite !Ht, Hkept.
    destruct (unlink_fails (ops (tick (tick (tick s))))) eqn:Hsecond.
    + cbn. rewrite ?Ht. repeat split; try done.
      exists doc. by rewrite !Ht.
    + cbn. rewrite ?Ht. repeat split; try done.
      * exists doc. cbn [files with_files].
        rewrite lookup_delete_ne by done. by rewrite ?Ht.
      * intros _ _. apply lookup_delete_eq.
  - cbn. repeat split; try done.
    + exists doc. split; [| done]. rewrite files_with_files.
      by rewrite lookup_delete_ne.
    + intros _. apply lookup_delete_eq.
Qed.

End SpeechTriggerAnswered.

(** ** What the emitter and the acknowledgement waiter leave as it is *)

Section Frame.
Context `{Runtime} `{Host}.
Variable P : gmap string string -> Prop.
Variable writable deletable : string -> Prop.
Hypothesis host_ok : forall n fs, P fs -> P (host_step n fs).
Hypothesis insert_ok : forall p body fs, writable p -> P fs -> P (<[p := body]> fs).
Hypothesis delete_ok : forall p fs, deletable p -> P fs -> P (delete p fs).
Hypothesis elapse_nonneg : forall n, 0 <= elapse n.

Lemma fine_refl (s : state) : fine P s s.
Proof. split; [done | lia]. Qed.

Lemma fine_trans (s s1 s2 : state) : fine P s s1 -> fine P s1 s2 -> fine P s s2.
Proof. intros [? ?] [? ?]. split; [tauto | lia]. Qed.

Lemma fine_tick (s : state) : fine P s (tick s).
Proof.
  split.
  - rewrite files_tick. apply host_ok.
  - unfold tick. cbn [clock]. specialize (elapse_nonneg (ops s)). lia.
Qed.

Lemma keeps_ret {A} (a : A) : keeps P (ret a).
Proof. intros s. apply fine_refl. Qed.

Lemma keeps_lift {A} (r : res A) : keeps P (lift r).
Proof. intros s. apply fine_refl. Qed.

Lemma keeps_say (ev : event) : keeps P (say ev).
Proof. intros s. split; [done | simpl; lia]. Qed.

Lemma keeps_time_now : keeps P time_now.
Proof. intros s. apply fine_refl. Qed.

Lemma keeps_now_iso : keeps P now_iso.
Proof. intros s. apply fine_refl. Qed.

Lemma keeps_bind {A B} (m : M A) (k : A -> M B) :
  keeps P m -> (forall a, keeps P (k a)) -> keeps P (bind m k).
Proof.
  intros Hm Hk s. unfold bind. specialize (Hm s).
  destruct (m s) as [[a|e] s1]; [| done].
  eapply fine_trans; [exact Hm | apply Hk].
Qed.

Lemma keeps_try_except {A} (m : M A) (h : exn -> M A) :
  keeps P m -> (forall e, keeps P (h e)) -> keeps P (try_except m h).
Proof.
  intros Hm Hh s. unfold try_except. specialize (Hm s).
  destruct (m s) as [[a|e] s1]; [done |].
  eapply fine_trans; [exact Hm | apply Hh].
Qed.

Lemma keeps_try_except_kind {A} (K : exn_kind) (m : M A) (h : exn -> M A) :
  keeps P m -> (forall e, keeps P (h e)) -> keeps P (try_except_kind K m h).
Proof.
  intros Hm Hh s. unfold try_except_kind. specialize (Hm s).
  destruct (m s) as [[a|e] s1]; [done |].
  case_bool_decide; [| done].
  eapply fine_trans; [exact Hm | apply Hh].
Qed.

Lemma keeps_sleep (ms : Z) : 0 <= ms -> keeps P (sleep ms).
Proof.
  intros Hms s. eapply fine_trans; [apply fine_tick |].
  split; [done | simpl; lia].
Qed.

Lemma keeps_path_exists (p : string) : keeps P (path_exists p).
Proof. intros s. apply fine_tick. Qed.

Lemma keeps_read_text (p : string) : keeps P (read_text p).
Proof.
  intros s. unfold read_text. cbv zeta.
  destruct (files (tick s) !! p); apply fine_tick.
Qed.

Lemma keeps_stat_size (p : string) : keeps P (stat_size p).
Proof.
  intros s. unfold stat_size. cbv zeta.
  destruct (files (tick s) !! p); apply fine_tick.
Qed.

Lemma keeps_os_sync : keeps P os_sync.
Proof.
  intros s. unfold os_sync. cbv zeta.
  destruct (sync_fails (ops s)); apply fine_tick.
Qed.

Lemma keeps_unlink (p : string) : deletable p -> keeps P (unlink p).
Proof.
  intros Hp s. unfold unlink. cbv zeta.
  destruct (files (tick s) !! p); [| apply fine_tick].
  destruct (unlink_fails (ops s)); [apply fine_tick |].
  eapply fine_trans; [apply fine_tick |].
  split; [| simpl; lia]. cbn [snd]. rewrite files_with_files. by apply delete_ok.
Qed.

Lemma keeps_write_text (p body : string) : writable p -> keeps P (write_text p body).
Proof.
  intros Hp s. unfold write_text. cbv zeta.
  destruct (write_fails (ops s)); [apply fine_tick |].
  eapply fine_trans; [apply fine_tick |].
  split; [| simpl; lia]. cbn [snd]. rewrite files_with_files. by apply insert_ok.
Qed.

End Frame.

Ltac keeps_step :=
  lazymatch goal with
  | |- keeps _ (bind _ _) => apply keeps_bind; [| intros ?]
  | |- keeps _ (try_except _ _) => apply keeps_try_except; [| intros ?]
  | |- keeps _ (try_except_kind _ _ _) => apply keeps_try_except_kind; [| intros ?]
  | |- keeps _ (if ?b then _ else _) => destruct b
  | |- keeps _ (match ?x with _ => _ end) => destruct x
  | |- keeps _ (sleep _) => apply keeps_sleep; [assumption.. | lia]
  | |- keeps _ (unlink _) => eapply keeps_unlink; [eassumption.. |]
  | |- keeps _ (write_text _ _) => eapply keeps_write_text; [eassumption.. |]
  | |- keeps _ _ =>
      first [ apply keeps_ret | apply keeps_lift | apply keeps_say
            | apply keeps_time_now | apply keeps_now_iso
            | apply keeps_path_exists; assumption
            | apply keeps_read_text; assumption
            | apply keeps_stat_size; assumption
            | apply keeps_os_sync; assumption ]
  end.

Section FrameUses.
Context `{Runtime} `{Host}.
Variable P : gmap string string -> Prop.
Variable writable deletable : string -> Prop.
Hypothesis host_ok : forall n fs, P fs -> P (host_step n fs).
Hypothesis insert_ok : forall p body fs, writable p -> P fs -> P (<[p := body]> fs).
Hypothesis delete_ok : forall p fs, deletable p -> P fs -> P (delete p fs).
Hypothesis elapse_nonneg : forall n, 0 <= elapse n.
Hypothesis triggers_writable : forall p, p ∈ temp_files -> writable p.

Lemma keeps_sync_with_retry (attempts : list nat) :
  keeps P (sync_with_retry attempts).
Proof.
  induction attempts as [|a rest IH]; simpl; repeat keeps_step; done.
Qed.

Lemma keeps_trigger (data : pyval) :
  keeps P (_trigger_cursor_popup_immediately data).
Proof.
  assert (writable trigger_file) as Ht
    by (apply triggers_writable; rewrite temp_files_are_triggers; set_solver).
  assert (forall i, i ∈ [0; 1; 2] -> writable (backup_trigger i)) as Hb.
  { intros i Hi. apply triggers_writable. rewrite temp_files_are_triggers.
    apply list_elem_of_further. by apply list_elem_of_fmap_2. }
  unfold _trigger_cursor_popup_immediately, after_verification,
    _create_backup_triggers, write_backups.
  repeat keeps_step; try apply keeps_sync_with_retry; try done.
  all: apply Hb; set_solver.
Qed.

Lemma keeps_wait_ack_loop (fuel : nat) (trigger_id : string)
  (start_time timeout : Z) :
  deletable (ack_file trigger_id) ->
  keeps P (wait_ack_loop fuel trigger_id start_time timeout).
Proof.
  intros Hd. induction fuel as [|fuel IH]; simpl; [apply keeps_ret |].
  unfold poll_acknowledgement, check_acknowledgement.
  repeat keeps_step; done.
Qed.

Lemma keeps_wait_for_extension_acknowledgement (fuel : nat)
  (trigger_id : string) (timeout : Z) :
  deletable (ack_file trigger_id) ->
  keeps P (_wait_for_extension_acknowledgement fuel trigger_id timeout).
Proof.
  intros Hd. unfold _wait_for_extension_acknowledgement.
  keeps_step; [keeps_step |]. by apply keeps_wait_ack_loop.
Qed.

End FrameUses.

(** ** The review tool *)

Section ReviewMore.
Context `{Runtime} `{Host}.

Lemma add_images_spec (items : list pyval) (acc : list content) :
  match add_images items acc with
  | Ok response_content =>
      exists images,
        response_content = (acc ++ images)%list /\ Forall is_image images /\
        (length images <= length items)%nat
  | Raise _ => True
  end.
Proof.
  revert acc. induction items as [|attachment rest IH]; intros acc; simpl.
  - exists []. by rewrite app_nil_r.
  - destruct (get attachment "mimeType" (PStr "")) as [mime|] eqn:Hm; [| done].
    cbn [and_then].
    destruct (startswith_val mime "image/") as [[|]|] eqn:Hs; [| | done];
      cbn [and_then].
    2:{ specialize (IH acc). destruct (add_images rest acc); [| done].
        destruct IH as (images & -> & Himg & Hlen). exists images.
        repeat split; [done | lia]. }
    destruct (image_of attachment) as [c|] eqn:Hc.
    2:{ specialize (IH acc). destruct (add_images rest acc); [| done].
        destruct IH as (images & -> & Himg & Hlen). exists images.
        repeat split; [done | lia]. }
    specialize (IH (acc ++ [c])%list).
    destruct (add_images rest (acc ++ [c])); [| done].
    destruct IH as (images & -> & Himg & Hlen). exists (c :: images).
    rewrite <- app_assoc. repeat split; [| simpl; lia].
    apply Forall_cons. split; [| done].
    unfold image_of in Hc. destruct attachment as [| | | | | |d]; try done.
    destruct (dict_get d "base64Data") as [[| | | |data| |]|]; try done.
    destruct (dict_get d "mimeType") as [m|] eqn:Hd; [| done].
    destruct m as [| | | |mimeType| |]; try done.
    injection Hc as <-. simpl.
    unfold get in Hm. rewrite Hd in Hm. injection Hm as <-.
    simpl in Hs. by injection Hs as ->.
Qed.

Lemma add_images_total (items : list pyval) (acc : list content)
  (ds : list string) :
  attachment_descriptions items = Ok ds -> is_raise (add_images items acc) = false.
Proof.
  revert acc ds. induction items as [|attachment rest IH]; intros acc ds; simpl;
    [done |].
  destruct (get attachment "mimeType" (PStr "")) as [mime|]; [| done].
  cbn [and_then].
  destruct (startswith_val mime "image/") as [[|]|]; [| | done]; cbn [and_then].
  - destruct (get attachment "fileName" (PStr "unknown")); [| done].
    cbn [and_then].
    destruct (attachment_descriptions rest) as [ds'|] eqn:Hd; [| done].
    intros _. destruct (image_of attachment); by eapply IH.
  - apply IH.
Qed.

Lemma review_response_spec (user_input : string) (s : state) :
  walkable (_last_attachments s) ->
  exists images,
    review_response user_input s
    = (Ok (TextContent ("User Response: " +:+ user_input) :: images), s) /\
    Forall is_image images.
Proof.
  intros Hwalk. unfold review_response, bind at 1, last_attachments.
  destruct (truthy (_last_attachments s)) eqn:Ht.
  2:{ by exists []. }
  destruct (Hwalk Ht) as (items & ds & Hi & Hd).
  unfold bind, lift. rewrite Hi.
  pose proof (add_images_spec items [TextContent ("User Response: " +:+ user_input)])
    as Hspec.
  pose proof (add_images_total items
                [TextContent ("User Response: " +:+ user_input)] ds Hd) as Htot.
  destruct (add_images items _) as [cs|]; [| done].
  destruct Hspec as (images & -> & Himg & _). by exists images.
Qed.

End ReviewMore.

Section ReviewTool.
Context `{Runtime} `{Host}.

Lemma trigger_never_raises (data : pyval) (s : state) :
  exists success, (_trigger_cursor_popup_immediately data s).1 = Ok success.
Proof. rewrite trigger_result. by eexists. Qed.

Lemma handle_review_gate_chat_spec (fuel : nat) (d : list (string * pyval))
  (s : state) :
  let '(r, s1) := _handle_review_gate_chat fuel (PDict d) s in
  match r with
  | Ok (Some response_content) => review_answer response_content s1
  | Ok None => True
  | Raise _ => False
  end.
Proof.
  unfold _handle_review_gate_chat.
  unfold bind at 1, lift at 1. cbn [get].
  unfold bind at 1, lift at 1. cbn [get].
  unfold bind at 1, lift at 1. cbn [get].
  unfold bind at 1, lift at 1. cbn [get].
  unfold bind at 1, time_now at 1. unfold bind at 1, now_iso at 1.
  set (trigger_id := "review_" +:+ pretty (clock s)).
  set (request := chat_request _ _ _ _ _ _).
  destruct (trigger_never_raises request s) as [success Hs].
  unfold bind at 1.
  destruct (_trigger_cursor_popup_immediately request s) as [r s1].
  cbn [fst] in Hs. subst r.
  destruct success; [| by left].
  pose proof (wait_ack_loop_spec fuel trigger_id (clock s1) 30 s1) as Hack.
  unfold bind at 1, _wait_for_extension_acknowledgement, bind at 1, time_now at 1.
  destruct (wait_ack_loop fuel trigger_id (clock s1) 30 s1) as [[[ack|]|e] s2];
    [| done | done].
  clear Hack.
  pose proof (wait_input_loop_hands_back fuel trigger_id (clock s2) 300 s2) as Hback.
  pose proof (wait_input_loop_spec fuel trigger_id (clock s2) 300 s2) as Hlog.
  unfold bind at 1, _wait_for_user_input, bind at 1, time_now at 1.
  destruct (wait_input_loop fuel trigger_id (clock s2) 300 s2)
    as [[[[text|]|]|e] s3]; [| by right; left | done | done].
  destruct Hback as [Hne Hwalk]. cbn [snd] in Hwalk.
  destruct Hlog as (new & Hj & _ & (p & fc & rest & -> & _)). cbn [snd] in Hj.
  apply eqb_empty_false in Hne as Hne'. rewrite Hne'.
  destruct (review_response_spec text s3 Hwalk) as (images & Hr & Himg).
  unfold bind. rewrite Hr. right; right.
  exists text, images, p, fc, (rest ++ journal s2)%list. by rewrite Hj.
Qed.

(** X17. The review tool lets an exception escape exactly when its
    arguments are not an object; with an object it never raises, whatever
    the host does and whatever the response files hold. *)
Theorem review_tool_raises_only_without_object (fuel : nat) (args : pyval)
  (s : state) :
  is_raise (_handle_review_gate_chat fuel args s).1
  = is_raise (get args "message" (PStr "Please provide your review:")).
Proof.
  destruct args as [| | | | | |d]; try reflexivity.
  pose proof (handle_review_gate_chat_spec fuel d s) as Hspec.
  by destruct (_handle_review_gate_chat fuel (PDict d) s) as [[[cs|]|e] s1].
Qed.

(** X18. What the review tool returns is one of: the single text that the
    popup could not be triggered; the single text of the five-minute
    timeout; or the text [User Response: <text>], where <text> is not empty
    and is the text last logged as received, followed only by images whose
    type starts with [image/].  With arguments that are not an object the
    [AttributeError] of the first look-up escapes and nothing has
    happened. *)
Theorem review_tool_answer (fuel : nat) (args : pyval) (s : state) :
  let '(r, s1) := _handle_review_gate_chat fuel args s in
  match r with
  | Ok (Some response_content) => review_answer response_content s1
  | Ok None => True
  | Raise e => e = no_attribute args "get" /\ s1 = s
  end.
Proof.
  destruct args as [| | | | | |d]; try done.
  pose proof (handle_review_gate_chat_spec fuel d s) as Hspec.
  by destruct (_handle_review_gate_chat fuel (PDict d) s) as [[[cs|]|e] s1].
Qed.

End ReviewTool.

Section ReviewToolRuns.
Context `{Runtime} `{Host}.

Lemma handle_review_gate_chat_unfold (fuel : nat) (d : list (string * pyval))
  (s : state) :
  _handle_review_gate_chat fuel (PDict d) s
  = (success <- _trigger_cursor_popup_immediately (chat_request_of d s) ;;
     if (success : bool) then
       ack_received <- _wait_for_extension_acknowledgement fuel
                         ("review_" +:+ pretty (clock s)) 30 ;;
       match ack_received with
       | None => ret None
       | Some _ =>
           user_input <- _wait_for_user_input fuel
                           ("review_" +:+ pretty (clock s)) 300 ;;
           match user_input with
           | None => ret None
           | Some (Some text) =>
               if negb (String.eqb text "") then
                 response_content <- review_response text ;;
                 ret (Some response_content)
               else ret (Some review_timeout)
           | Some None => ret (Some review_timeout)
           end
       end
     else ret (Some review_not_triggered)) s.
Proof. reflexivity. Qed.

Lemma review_response_head (user_input : string) (s : state) :
  match (review_response user_input s).1 with
  | Ok response_content =>
      exists images,
        response_content = TextContent ("User Response: " +:+ user_input) :: images
  | Raise _ => True
  end.
Proof.
  unfold review_response, bind at 1, last_attachments.
  destruct (truthy (_last_attachments s)); [| by exists []].
  unfold bind, lift. destruct (iter (_last_attachments s)) as [items|]; [| done].
  pose proof (add_images_spec items [TextContent ("User Response: " +:+ user_input)])
    as Hspec.
  destruct (add_images items _) as [cs|]; [| done].
  destruct Hspec as (images & -> & _). by exists images.
Qed.

(** X19. When the emitter reports failure the review tool answers at once
    with [ERROR: Failed to trigger Review Gate popup], in the state the
    emitter left: neither wait loop is entered.  When the emitter reports
    success, that text is never the answer. *)
Theorem failed_trigger_ends_the_review (fuel : nat) (d : list (string * pyval))
  (s : state) :
  let '(r, s1) := _handle_review_gate_chat fuel (PDict d) s in
  match (_trigger_cursor_popup_immediately (chat_request_of d s) s).1 with
  | Ok false =>
      r = Ok (Some review_not_triggered) /\
      s1 = (_trigger_cursor_popup_immediately (chat_request_of d s) s).2
  | _ =>
      match r with
      | Ok (Some response_content) => response_content <> review_not_triggered
      | _ => True
      end
  end.
Proof.
  rewrite handle_review_gate_chat_unfold. unfold bind at 1.
  destruct (_trigger_cursor_popup_immediately (chat_request_of d s) s)
    as [[[|]|e] s1]; cbn [fst snd]; [| done | done].
  unfold bind at 1.
  destruct (_wait_for_extension_acknowledgement _ _ _ s1) as [[[ack|]|e] s2];
    [| done | done].
  unfold bind at 1.
  destruct (_wait_for_user_input _ _ _ s2) as [[[[text|]|]|e] s3]; try done.
  destruct (negb (String.eqb text "")); [| done].
  pose proof (review_response_head text s3) as Hhead.
  unfold bind. destruct (review_response text s3) as [[cs|e] s4]; [| done].
  cbn [fst] in Hhead. by destruct Hhead as [images ->].
Qed.

End ReviewToolRuns.

Section ReviewTimeout.
Context `{Runtime} `{Host}.

(** X20. When no response file for the call's trigger id is ever there
    (not at the start, and the host creates none) and the clock does not
    run backwards, the review tool, given enough turns, answers with the
    timeout text no earlier than 300 seconds after the call, or with the
    error text when the emitter failed.  The trigger id is [review_]
    followed by the clock in milliseconds at the call. *)
Theorem unanswered_review_times_out (fuel : nat) (d : list (string * pyval))
  (s : state) :
  (forall n, 0 <= elapse n) ->
  nothing_there ("review_" +:+ pretty (clock s)) (files s) ->
  (forall n fs, nothing_there ("review_" +:+ pretty (clock s)) fs ->
                nothing_there ("review_" +:+ pretty (clock s)) (host_step n fs)) ->
  (turns 300 <= fuel)%nat ->
  let '(r, s1) := _handle_review_gate_chat fuel (PDict d) s in
  (r = Ok (Some review_timeout) /\ 300000 <= clock s1 - clock s) \/
  r = Ok (Some review_not_triggered).
Proof.
  set (trigger_id := "review_" +:+ pretty (clock s)).
  intros Helapse Hnone Hhost Hfuel.
  set (P := nothing_there trigger_id).
  assert (forall p body fs, p ∈ temp_files -> P fs -> P (<[p := body]> fs)) as Hins.
  { intros p body fs Hp Hfs q Hq. rewrite lookup_insert_ne; [by apply Hfs |].
    intros ->. by apply (triggers_are_no_responses trigger_id q). }
  assert (forall p fs, True -> P fs -> P (delete p fs)) as Hdel.
  { intros p fs _ Hfs q Hq. apply lookup_delete_None. right. by apply Hfs. }
  rewrite handle_review_gate_chat_unfold. fold trigger_id.
  pose proof (keeps_trigger P (fun p => p ∈ temp_files) (fun _ => True)
                Hhost Hins Hdel Helapse
                (fun p Hp => Hp) (chat_request_of d s) s) as [Hp1 Hc1].
  destruct (trigger_never_raises (chat_request_of d s) s) as [success Hs].
  unfold bind at 1.
  destruct (_trigger_cursor_popup_immediately (chat_request_of d s) s) as [r s1].
  cbn [fst snd] in *. subst r. destruct success; [| by right].
  pose proof (keeps_wait_for_extension_acknowledgement P (fun _ => True)
                Hhost Hdel Helapse fuel trigger_id 30 I s1) as [Hp2 Hc2].
  unfold turns in Hfuel.
  destruct (wait_ack_loop_ends fuel trigger_id (clock s1) 30 s1 Helapse)
    as (ack & s2 & Hack); [lia | lia |].
  unfold bind at 1.
  change (_wait_for_extension_acknowledgement fuel trigger_id 30 s1)
    with (wait_ack_loop fuel trigger_id (clock s1) 30 s1) in *.
  rewrite Hack in *. cbn [fst snd] in *.
  destruct (wait_for_user_input_quiet trigger_id P
              (nothing_there_usable trigger_id) Hhost Helapse fuel 300 s2)
    as (s3 & Hrun & Hlate & _); [by auto | done |].
  unfold bind. rewrite Hrun. left. split; [done |]. cbn [snd]. lia.
Qed.

End ReviewTimeout.

Section ReviewAnswered.
Context `{Runtime} `{Host}.

Lemma trigger_still (data : pyval) (s : state) :
  (forall n fs, host_step n fs = fs) ->
  (forall n, write_fails n = false) ->
  (forall timestamp, json_dumps (trigger_data data timestamp) <> "") ->
  (_trigger_cursor_popup_immediately data s).1 = Ok true.
Proof.
  intros Hstill Hw Hfull. rewrite trigger_result. cbv zeta. f_equal.
  unfold write_text. cbv zeta. rewrite Hw. cbn [fst snd].
  set (text := json_dumps _).
  set (s2 := with_files _ _).
  assert (forall x, files (tick x) = files x) as Ht
      by (intros x; by rewrite files_tick).
  assert (files s2 !! trigger_file = Some text) as Hthere
    by (subst s2; rewrite files_with_files; apply lookup_insert_eq).
  unfold path_exists, stat_size. cbv zeta. cbn [fst snd].
  rewrite !Ht, Hthere. cbn [fst].
  destruct (String.length text) eqn:Hlen; [| done].
  subst text. destruct (json_dumps _) eqn:Htext; [| done]. by destruct (Hfull _ Htext).
Qed.

(** X21. On a host that leaves the directory alone, with writes that
    succeed and a clock that does not run backwards: when the response file
    named after the call's trigger id holds plain text that is not blank
    (as text mode reads it), the review tool emits the request, with
    success; waits for the acknowledgement, which comes or times out; and
    then, at the first look at the response file, takes it: the answer is
    the single text [User Response: <stripped body>], and the state is the
    one that look left.  The response file is gone afterwards unless its
    deletion is refused, in which case it stays as it was. *)
Theorem plain_answer_is_handed_back (fuel : nat) (d : list (string * pyval))
  (raw : string) (s : state) :
  (forall n fs, host_step n fs = fs) ->
  (forall n, write_fails n = false) ->
  (forall n, 0 <= elapse n) ->
  (forall timestamp,
      json_dumps (trigger_data (chat_request_of d s) timestamp) <> "") ->
  files s !! scoped_response ("review_" +:+ pretty (clock s))
  = Some raw ->
  startswith (strip (universal_newlines raw)) "{" = false ->
  strip (universal_newlines raw) <> "" ->
  (turns 30 <= fuel)%nat ->
  let trigger_id := "review_" +:+ pretty (clock s) in
  let emitted := _trigger_cursor_popup_immediately (chat_request_of d s) s in
  let waited := _wait_for_extension_acknowledgement fuel trigger_id 30 emitted.2 in
  let '(r, s1) := _handle_review_gate_chat fuel (PDict d) s in
  emitted.1 = Ok true /\
  (exists ack_received, waited.1 = Ok (Some ack_received)) /\
  s1 = (handle_candidate trigger_id (scoped_response trigger_id) waited.2).2 /\
  r = Ok (Some [TextContent
                  ("User Response: " +:+ strip (universal_newlines raw))]) /\
  (unlink_fails (ops (tick (tick waited.2))) = false ->
   files s1 !! scoped_response trigger_id = None) /\
  (unlink_fails (ops (tick (tick waited.2))) = true ->
   files s1 !! scoped_response trigger_id = Some raw).
Proof.
  set (trigger_id := "review_" +:+ pretty (clock s)).
  set (response_file := scoped_response trigger_id).
  intros Hstill Hw Helapse Hfull Hthere Hplain Hne Hfuel.
  cbv zeta. fold response_file.
  assert (response_file ∈ response_patterns trigger_id) as Hin
    by apply list_elem_of_here.
  set (P := fun fs : gmap string string => fs !! response_file = Some raw).
  assert (forall n fs, P fs -> P (host_step n fs)) as Hhost
    by (intros n fs; by rewrite Hstill).
  assert (forall p body fs, p ∈ temp_files -> P fs -> P (<[p := body]> fs)) as Hins.
  { intros p body fs Hp Hfs. unfold P. rewrite lookup_insert_ne; [done |].
    intros ->. by apply (triggers_are_no_responses trigger_id response_file). }
  assert (forall p fs, p = ack_file trigger_id -> P fs -> P (delete p fs)) as Hdel.
  { intros p fs -> Hfs. unfold P. rewrite lookup_delete_ne; [done |].
    intros Heq. apply (ack_is_no_response trigger_id trigger_id). by rewrite Heq. }
  rewrite handle_review_gate_chat_unfold. fold trigger_id.
  pose proof (keeps_trigger P (fun p => p ∈ temp_files)
                (fun p => p = ack_file trigger_id)
                Hhost Hins Hdel Helapse
                (fun p Hp => Hp) (chat_request_of d s) s) as [Hp1 _].
  pose proof (trigger_still (chat_request_of d s) s Hstill Hw Hfull) as Hs.
  unfold bind at 1.
  destruct (_trigger_cursor_popup_immediately (chat_request_of d s) s) as [r s1].
  cbn [fst snd] in *. subst r.
  pose proof (keeps_wait_for_extension_acknowledgement P
                (fun p => p = ack_file trigger_id)
                Hhost Hdel Helapse fuel trigger_id 30 eq_refl s1) as [Hp2 _].
  unfold turns in Hfuel.
  destruct (wait_ack_loop_ends fuel trigger_id (clock s1) 30 s1 Helapse)
    as (ack & s2 & Hack); [lia | lia |].
  unfold bind at 1.
  change (_wait_for_extension_acknowledgement fuel trigger_id 30 s1)
    with (wait_ack_loop fuel trigger_id (clock s1) 30 s1) in *.
  rewrite Hack in *. cbn [fst snd] in *.
  specialize (Hp2 (Hp1 Hthere)). unfold P in Hp2.
  destruct fuel as [|fuel]; [lia |].
  unfold bind at 1, _wait_for_user_input, bind at 1, time_now at 1.
  cbn [wait_input_loop]. unfold bind at 1, time_now at 1.
  replace (clock s2 - clock s2 <? 1000 * 300) with true
    by (symmetry; apply Z.ltb_lt; lia).
  unfold bind at 1, poll_responses, try_except, bind at 1.
  change (response_patterns trigger_id)
    with (response_file :: tl (response_patterns trigger_id)).
  cbn [scan_candidates]. unfold bind at 1.
  destruct (handle_plain_still trigger_id response_file raw s2 Hstill Hp2
              Hplain Hne) as (s3 & -> & Hgone & Hkept & Hatt & _).
  unfold ret. cbv beta iota.
  apply eqb_empty_false in Hne. rewrite Hne.
  unfold bind, review_response, bind, last_attachments, ret. rewrite Hatt.
  cbn. repeat split; [by exists ack | exact Hgone |].
  intros Hrefused. by rewrite (Hkept Hrefused).
Qed.

End ReviewAnswered.

(** ** The configuration script *)

Section ConfigureMore.
Import ConfigureMcp.
Context `{Runtime} `{Host}.

Lemma dict_get_pop (d : list (string * pyval)) (k name : string) :
  dict_get (dict_pop d k) name = if String.eqb name k then None else dict_get d name.
Proof.
  induction d as [|[k' v] d IH]; simpl.
  - by destruct (String.eqb name k).
  - destruct (String.eqb k' k) eqn:Hk.
    + rewrite IH. apply String.eqb_eq in Hk as ->.
      destruct (String.eqb name k) eqn:Hn; [done |].
      rewrite String.eqb_sym in Hn. by rewrite Hn.
    + simpl. destruct (String.eqb k' name) eqn:Hn.
      * apply String.eqb_eq in Hn as ->. by rewrite Hk.
      * exact IH.
Qed.

Lemma dict_set_absent (d : list (string * pyval)) (k : string) (v : pyval) :
  dict_get d k = None -> dict_set d k v = (d ++ [(k, v)])%list.
Proof.
  induction d as [|[k' v'] d IH]; simpl; [done |].
  destruct (String.eqb k' k); [done |]. intros Hk. by rewrite IH.
Qed.

Lemma dict_get_set (d : list (string * pyval)) (k name : string) (v : pyval) :
  dict_get (dict_set d k v) name = if String.eqb name k then Some v else dict_get d name.
Proof.
  induction d as [|[k' v'] d IH]; simpl.
  - rewrite String.eqb_sym. by destruct (String.eqb name k).
  - destruct (String.eqb k' k) eqn:Hk; simpl.
    + apply String.eqb_eq in Hk as ->. rewrite (String.eqb_sym k name).
      by destruct (String.eqb name k).
    + destruct (String.eqb k' name) eqn:Hn.
      * apply String.eqb_eq in Hn as ->. by rewrite Hk.
      * exact IH.
Qed.

Lemma dict_pop_absent (d : list (string * pyval)) (k : string) :
  dict_get d k = None -> dict_pop d k = d.
Proof.
  induction d as [|[k' v'] d IH]; simpl; [done |].
  destruct (String.eqb k' k); [done |]. intros Hk. by rewrite IH.
Qed.

Lemma dict_pop_set (d : list (string * pyval)) (k : string) (v : pyval) :
  dict_get d k = None -> dict_pop (dict_set d k v) k = d.
Proof.
  induction d as [|[k' v'] d IH]; simpl.
  - by rewrite String.eqb_refl.
  - destruct (String.eqb k' k) eqn:Hk; [done |]. simpl. rewrite Hk.
    intros Hd. by rewrite IH.
Qed.

Lemma read_existing_servers_spec (mcp_file : string) (s : state) :
  let '(r, s1) := read_existing_servers mcp_file s in
  exists servers, r = Ok servers /\ dict_get servers "review-gate-v2" = None.
Proof.
  unfold read_existing_servers, bind at 1, path_exists. cbv zeta.
  destruct (files (tick s) !! mcp_file); [| by exists []].
  unfold try_except, bind at 1, read_text. cbv zeta.
  destruct (files (tick (tick s)) !! mcp_file) as [raw|]; [| by exists []].
  set (body := universal_newlines raw).
  unfold bind at 1, lift at 1.
  destruct (loads body) as [config|]; [| by exists []].
  unfold bind at 1, lift at 1.
  destruct (get config "mcpServers" (PDict [])) as [servers|]; [| by exists []].
  unfold lift, pop.
  destruct servers as [| | | | | |d]; try by exists [].
  exists (dict_pop d "review-gate-v2"). split; [done |].
  by rewrite dict_get_pop.
Qed.

(** X22. The configuration script never raises.  With other than two
    arguments it exits with status 1 and touches nothing.  Otherwise it
    exits with status 1 exactly when the write failed; with status 0 the
    file holds an object with the single key [mcpServers], whose last entry
    is the one for [review-gate-v2]. *)
Theorem configure_exit_status (argv : list string) (s : state) :
  let '(r, s1) := main argv s in
  match argv with
  | [_; mcp_file; review_gate_dir] =>
      (r = Ok 0 /\ write_fails (Nat.pred (ops s1)) = false /\
       exists servers,
         dict_get servers "review-gate-v2" = None /\
         files s1 !! mcp_file
         = Some (json_dumps
                   (PDict [("mcpServers",
                            PDict (servers ++ [("review-gate-v2",
                                                server_entry review_gate_dir)])%list)])))
      \/ (r = Ok 1 /\ write_fails (Nat.pred (ops s1)) = true)
  | _ => r = Ok 1 /\ s1 = s
  end.
Proof.
  unfold main.
  destruct argv as [|a0 [|mcp_file [|review_gate_dir [|]]]]; try done.
  pose proof (read_existing_servers_spec mcp_file s) as Hread.
  unfold bind at 1.
  destruct (read_existing_servers mcp_file s) as [r s1].
  destruct Hread as (servers & -> & Hnew).
  unfold try_except, bind at 1, write_text. cbv zeta.
  destruct (write_fails (ops s1)) eqn:Hw; simpl.
  - right. by rewrite Hw.
  - left. rewrite Hw. split; [done |]. split; [done |]. exists servers.
    split; [done |]. rewrite lookup_insert_eq. unfold new_config.
    by rewrite dict_set_absent.
Qed.

Lemma read_existing_servers_found (mcp_file body : string) (s : state) :
  (path_exists mcp_file s).1 = Ok true ->
  (read_text mcp_file (path_exists mcp_file s).2).1 = Ok body ->
  read_existing_servers mcp_file s
  = (Ok (match servers_of body with Ok servers => servers | Raise _ => [] end),
     tick (tick s)).
Proof.
  rewrite path_exists_true. change (path_exists _ s).2 with (tick s).
  rewrite read_text_ok. intros [b Hex] (raw & Hread & Hbody).
  unfold read_existing_servers, bind at 1, path_exists. cbv zeta. rewrite Hex.
  unfold try_except, bind at 1, read_text. cbv zeta. rewrite Hread, <- Hbody.
  unfold servers_of.
  unfold bind at 1, lift at 1.
  destruct (loads body) as [config|]; [| done]. cbn [and_then].
  unfold bind at 1, lift at 1.
  destruct (get config "mcpServers" (PDict [])) as [servers|]; [| done].
  cbn [and_then]. unfold lift.
  by destruct (pop servers "review-gate-v2").
Qed.

(** X23. When the existing configuration is an object whose [mcpServers]
    is an object, every server other than [review-gate-v2] is written back
    with its settings and in its place; an old entry for [review-gate-v2]
    is dropped and the new one is put last. *)
Theorem other_servers_are_kept
  (a0 mcp_file review_gate_dir body : string)
  (config servers : list (string * pyval)) (s : state) :
  (path_exists mcp_file s).1 = Ok true ->
  (read_text mcp_file (path_exists mcp_file s).2).1 = Ok body ->
  json_loads body = inl (PDict config) ->
  dict_get config "mcpServers" = Some (PDict servers) ->
  write_fails (S (S (ops s))) = false ->
  let '(r, s1) := main [a0; mcp_file; review_gate_dir] s in
  r = Ok 0 /\
  exists written,
    files s1 !! mcp_file
    = Some (json_dumps (PDict [("mcpServers", PDict written)])) /\
    written = (dict_pop servers "review-gate-v2"
               ++ [("review-gate-v2", server_entry review_gate_dir)])%list /\
    forall name,
      dict_get written name
      = if String.eqb name "review-gate-v2"
        then Some (server_entry review_gate_dir)
        else dict_get servers name.
Proof.
  intros Hex Hread Hjson Hservers Hw.
  unfold main, bind at 1.
  rewrite (read_existing_servers_found _ _ _ Hex Hread).
  unfold servers_of, loads. rewrite Hjson. cbn [and_then].
  rewrite (get_present _ _ _ _ Hservers). cbn [and_then pop].
  unfold try_except, bind at 1, write_text. cbv zeta.
  change (ops (tick (tick s))) with (S (S (ops s))). rewrite Hw.
  simpl. split; [done |]. eexists. split; [apply lookup_insert_eq |].
  assert (dict_get (dict_pop servers "review-gate-v2") "review-gate-v2" = None)
    as Hgone by (by rewrite dict_get_pop).
  split; [by apply dict_set_absent |].
  intros name. rewrite dict_get_set, dict_get_pop.
  by destruct (String.eqb name "review-gate-v2").
Qed.

(** X24. When there is no configuration file, or it cannot be read, does
    not parse, is not an object or has an [mcpServers] that is not an
    object, the written configuration holds the entry for
    [review-gate-v2] and nothing else. *)
Theorem unusable_config_is_replaced
  (a0 mcp_file review_gate_dir : string) (s : state) :
  (path_exists mcp_file s).1 = Ok false \/
  match (read_text mcp_file (path_exists mcp_file s).2).1 with
  | Ok body => is_raise (servers_of body) = true
  | Raise _ => True
  end ->
  (forall n, write_fails n = false) ->
  let '(r, s1) := main [a0; mcp_file; review_gate_dir] s in
  r = Ok 0 /\
  files s1 !! mcp_file
  = Some (json_dumps
            (PDict [("mcpServers",
                     PDict [("review-gate-v2", server_entry review_gate_dir)])])).
Proof.
  intros Hbad Hw.
  assert (exists s0, read_existing_servers mcp_file s = (Ok [], s0)) as [s0 Hr].
  { destruct (path_exists mcp_file s) as [[[|]|e] s1] eqn:Hex.
    - destruct Hbad as [Hno|Hbad]; [done |].
      cbn [snd] in Hbad.
      destruct (read_text mcp_file s1) as [[body|e] s2] eqn:Hread.
      + cbn [fst] in Hbad.
        pose proof (read_existing_servers_found mcp_file body s) as Hf.
        rewrite Hex in Hf. cbn [fst snd] in Hf. rewrite Hread in Hf.
        rewrite Hf by done. destruct (servers_of body); [done |]. by eexists.
      + unfold read_existing_servers, bind at 1. rewrite Hex.
        unfold try_except, bind at 1. rewrite Hread. by eexists.
    - unfold read_existing_servers, bind at 1. rewrite Hex. by eexists.
    - unfold path_exists in Hex. cbv zeta in Hex. done. }
  unfold main, bind at 1. rewrite Hr.
  unfold try_except, bind at 1, write_text. cbv zeta. rewrite Hw.
  simpl. split; [done |]. apply lookup_insert_eq.
Qed.

(** X25. Running the script a second time changes nothing: on a host that
    leaves the directory alone and with writes that succeed, provided the
    written configuration, as it is read back, parses to itself, the
    second run exits with status 0 and leaves the directory as the first
    run left it. *)
Theorem second_run_changes_nothing
  (a0 a1 mcp_file review_gate_dir : string) (s : state) :
  (forall n fs, host_step n fs = fs) ->
  (forall n, write_fails n = false) ->
  (forall servers,
      (read_existing_servers mcp_file s).1 = Ok servers ->
      json_loads
        (universal_newlines (json_dumps (new_config servers review_gate_dir)))
      = inl (new_config servers review_gate_dir)) ->
  let '(r1, s1) := main [a0; mcp_file; review_gate_dir] s in
  let '(r2, s2) := main [a1; mcp_file; review_gate_dir] s1 in
  r1 = Ok 0 /\ r2 = Ok 0 /\ files s2 = files s1.
Proof.
  intros Hstill Hw Hround.
  assert (forall x, files (tick x) = files x) as Ht
      by (intros x; by rewrite files_tick).
  pose proof (read_existing_servers_spec mcp_file s) as Hread.
  unfold main at 1, bind at 1.
  destruct (read_existing_servers mcp_file s) as [r s0].
  destruct Hread as (servers & -> & Hnew).
  specialize (Hround servers eq_refl).
  unfold try_except at 1, bind at 1, write_text at 1. cbv zeta. rewrite Hw.
  unfold ret at 1.
  set (text := json_dumps (new_config servers review_gate_dir)) in *.
  set (s1 := with_files _ (tick s0)).
  assert (files s1 !! mcp_file = Some text) as Hthere
    by (subst s1; rewrite files_with_files; apply lookup_insert_eq).
  unfold main, bind at 1.
  rewrite (read_existing_servers_found mcp_file (universal_newlines text) s1).
  2:{ apply path_exists_true. by rewrite Ht, Hthere. }
  2:{ apply read_text_ok. change (path_exists mcp_file s1).2 with (tick s1).
      exists text. by rewrite !Ht. }
  unfold servers_of, loads. rewrite Hround. cbn [and_then new_config get dict_get].
  change (String.eqb "mcpServers" "mcpServers") with true. cbn [default from_option id pop].
  rewrite (dict_pop_set _ _ _ Hnew).
  unfold try_except, bind at 1, write_text. cbv zeta. rewrite Hw.
  cbn [fst snd ret]. split; [done |]. split; [done |].
  rewrite files_with_files, !Ht. fold text.
  by apply insert_id.
Qed.

End ConfigureMore.

(** ** Runs *)

Section ToolExamples.
Import Demo ToolRuns.

Lemma plain_text_response_is_returned_witness :
  let s := start {[ ResponseRuns.shared := two_lines ]} None in
  let '(r, s1) := @handle_candidate rt idle "t1" ResponseRuns.shared s in
  r = Ok (Some (strip ("fine" +:+ newline +:+ "thanks" +:+ newline))) /\
  (@unlink_fails idle (ops (@tick idle (@tick idle s))) = false ->
   files s1 !! ResponseRuns.shared = None) /\
  (@unlink_fails idle (ops (@tick idle (@tick idle s))) = true ->
   files s1 = files (@tick idle (@tick idle (@tick idle s)))) /\
  _last_attachments s1 = PList [] /\
  (forall q, q <> ResponseRuns.shared ->
             files s1 !! q = files (@tick idle (@tick idle (@tick idle s))) !! q).
Proof.
  apply (@plain_text_response_is_returned rt idle "t1" ResponseRuns.shared
           ("fine" +:+ newline +:+ "thanks" +:+ newline)
           (start {[ ResponseRuns.shared := two_lines ]} None));
    [reflexivity | reflexivity | reflexivity | discriminate].
Defined.

(** The two lines come back with line feeds only, and the file is gone. *)
Example two_lines_run :
  let '(r, s1) := @_wait_for_user_input rt idle 11 "t1" 1
                    (start {[ ResponseRuns.shared := two_lines ]} None) in
  r = Ok (Some (Some ("fine" +:+ newline +:+ "thanks"))) /\ files s1 = ∅.
Proof. vm_compute. done. Qed.

(** In a directory that lets nothing be deleted the answer is handed
    back all the same; its file stays and the refusal is logged. *)
Example refused_unlink_run :
  let '(r, s1) := @_wait_for_user_input rt (failing_unlinks [3%nat]) 11 "t1" 1
                    (start {[ ResponseRuns.shared := " fine " ]} None) in
  r = Ok (Some (Some "fine")) /\
  files s1 !! ResponseRuns.shared = Some " fine " /\
  journal s1
  = [ ReceivedInput ResponseRuns.shared "fine" "fine";
      CleanupError ResponseRuns.shared "fine" (@refused rt ResponseRuns.shared);
      FoundResponse ResponseRuns.shared "fine" ].
Proof. vm_compute. done. Qed.

Example plain_text_run :
  let '(r, s1) := @_wait_for_user_input rt idle 11 "t1" 1
                    (start {[ ResponseRuns.shared := " fine " ]} None) in
  r = Ok (Some (Some "fine")) /\ files s1 = ∅.
Proof. vm_compute. done. Qed.

Lemma json_response_is_returned_witness :
  let s := start {[ ResponseRuns.shared := render (PDict plain_object) ]} None in
  let '(r, s1) := @handle_candidate rt idle "t1" ResponseRuns.shared s in
  r = Ok (Some "yes") /\
  (@unlink_fails idle (ops (@tick idle (@tick idle s))) = false ->
   files s1 !! ResponseRuns.shared = None) /\
  (@unlink_fails idle (ops (@tick idle (@tick idle s))) = true ->
   files s1 = files (@tick idle (@tick idle (@tick idle s)))) /\
  _last_attachments s1 = PList [] /\
  (forall q, q <> ResponseRuns.shared ->
             files s1 !! q = files (@tick idle (@tick idle (@tick idle s))) !! q).
Proof.
  apply (@json_response_is_returned rt idle "t1" ResponseRuns.shared
           (render (PDict plain_object)) "yes" plain_object
           (start {[ ResponseRuns.shared := render (PDict plain_object) ]} None)).
  - reflexivity.
  - reflexivity.
  - reflexivity.
  - reflexivity.
  - reflexivity.
  - discriminate.
  - intros v [= <-]. by left.
  - intros v [= <-]. reflexivity.
Defined.

Lemma scoped_response_comes_first_witness :
  let s := start (<[ResponseRuns.scoped := two_lines]>
                    {[ ResponseRuns.shared := "second" ]}) None in
  let '(r, s1) := @poll_responses rt idle "t1" s in
  r = Ok (Some (strip (universal_newlines two_lines))) /\
  (@unlink_fails idle (ops (@tick idle (@tick idle s))) = false ->
   files s1 !! @scoped_response rt "t1" = None) /\
  (@unlink_fails idle (ops (@tick idle (@tick idle s))) = true ->
   files s1 !! @scoped_response rt "t1" = Some two_lines) /\
  (forall q, q <> @scoped_response rt "t1" -> files s1 !! q = files s !! q).
Proof.
  apply (@scoped_response_comes_first rt idle "t1" two_lines
           (start (<[ResponseRuns.scoped := two_lines]>
                     {[ ResponseRuns.shared := "second" ]}) None)).
  - reflexivity.
  - reflexivity.
  - reflexivity.
  - discriminate.
Defined.

Lemma unreadable_acknowledgement_is_left_in_place_witness :
  let s := start {[ AckRuns.ack_path := render odd_ack ]} None in
  @poll_acknowledgement rt idle "review_1000" s
  = (Ok false,
     advance 500
       (@tick idle
          (with_journal (AckError (no_attribute odd_ack "get") :: journal s)
             (@tick idle (@tick idle s))))).
Proof.
  apply (@unreadable_acknowledgement_is_left_in_place rt idle "review_1000"
           (render odd_ack) (no_attribute odd_ack "get")
           (start {[ AckRuns.ack_path := render odd_ack ]} None));
    reflexivity.
Defined.

Example odd_acknowledgement_run :
  let '(r, s1) := @_wait_for_extension_acknowledgement rt idle 11 "review_1000" 1
                    (start {[ AckRuns.ack_path := render odd_ack ]} None) in
  r = Ok (Some false) /\ files s1 !! AckRuns.ack_path = Some "[]".
Proof. vm_compute. done. Qed.

Lemma incomplete_speech_request_writes_nothing_witness :
  let s := start {[ SpeechRuns.audio := "RIFF" ]} (Some BaseModel) in
  @_process_speech_request rt idle no_audio_request s
  = (Ok tt, with_journal (SpeechInvalid :: journal s) s).
Proof.
  apply (@incomplete_speech_request_writes_nothing rt idle no_audio_request
           (PDict [("tool", PStr "speech_to_text"); ("trigger_id", PStr "speech_1")])
           PNone (PStr "speech_1")
           (start {[ SpeechRuns.audio := "RIFF" ]} (Some BaseModel)));
    reflexivity.
Defined.

Lemma speech_success_is_reported_witness :
  let '(r, s1) := @_process_speech_request (SpeechRuns.rt hello) idle
                    SpeechRuns.request
                    (start {[ SpeechRuns.audio := "RIFF" ]} (Some BaseModel)) in
  let s := start {[ SpeechRuns.audio := "RIFF" ]} (Some BaseModel) in
  r = Ok tt /\
  @success_reported (SpeechRuns.rt hello) (PStr "speech_1") (strip " hello world ") s1 /\
  (@unlink_fails idle (ops (@tick idle (@tick idle (@tick idle s)))) = false ->
   files s1 !! SpeechRuns.audio = None) /\
  (@unlink_fails idle (ops (@tick idle (@tick idle (@tick idle s)))) = true ->
   files s1 !! SpeechRuns.audio = files s !! SpeechRuns.audio).
Proof.
  apply (@speech_success_is_reported (SpeechRuns.rt hello) idle SpeechRuns.request
           (PStr "speech_1") SpeechRuns.audio " hello world "
           (start {[ SpeechRuns.audio := "RIFF" ]} (Some BaseModel))).
  - exists [("data", PDict [("tool", PStr "speech_to_text");
                            ("trigger_id", PStr "speech_1");
                            ("audio_file", PStr SpeechRuns.audio)])],
           [("tool", PStr "speech_to_text"); ("trigger_id", PStr "speech_1");
            ("audio_file", PStr SpeechRuns.audio)].
    repeat split; try reflexivity. discriminate.
  - reflexivity.
  - reflexivity.
  - discriminate.
  - by eexists.
  - reflexivity.
  - discriminate.
Defined.

Example speech_success_run :
  let '(_, s1) := @_process_speech_request (SpeechRuns.rt hello) idle
                    SpeechRuns.request
                    (start {[ SpeechRuns.audio := "RIFF" ]} (Some BaseModel)) in
  files s1 !! SpeechRuns.result
  = Some (render (response_data "t+2" (PStr "speech_1") "hello world" None)) /\
  files s1 !! SpeechRuns.audio = None.
Proof. vm_compute. done. Qed.

(** The audio file cannot be deleted: the request is served all the same
    and the file stays. *)
Example kept_audio_run :
  let '(r, s1) := @_process_speech_request (SpeechRuns.rt hello)
                    (failing_unlinks [3%nat]) SpeechRuns.request
                    (start {[ SpeechRuns.audio := "RIFF" ]} (Some BaseModel)) in
  r = Ok tt /\
  files s1 !! SpeechRuns.result
  = Some (render (response_data "t+2" (PStr "speech_1") "hello world" None)) /\
  files s1 !! SpeechRuns.audio = Some "RIFF" /\
  hd_error (journal s1)
  = Some (AudioCleanupFailed (@refused (SpeechRuns.rt hello) SpeechRuns.audio)).
Proof. vm_compute. done. Qed.

Lemma quiet_emission_leaves_four_triggers_witness :
  let s := start {[ ResponseRuns.shared := "ok" ]} None in
  let '(r, s1) := @_trigger_cursor_popup_immediately rt idle
                    OtherRuns.review_request s in
  r = Ok true /\
  (exists timestamp,
      files s1 !! @trigger_file rt
      = Some (@json_dumps rt (@trigger_data rt OtherRuns.review_request timestamp))) /\
  (forall i, i ∈ [0; 1; 2] ->
             exists timestamp,
               files s1 !! @backup_trigger rt i
               = Some (@json_dumps rt (backup_data i OtherRuns.review_request timestamp))) /\
  (forall q, q ∉ @trigger_file rt :: map (@backup_trigger rt) [0; 1; 2] ->
             files s1 !! q = files s !! q).
Proof.
  apply (@quiet_emission_leaves_four_triggers rt idle).
  - reflexivity.
  - reflexivity.
  - intros timestamp. discriminate.
Defined.

Lemma shutdown_cleanup_removes_the_triggers_witness :
  let '(r, s1) := @cleanup_before_shutdown rt idle (start after_emission None) in
  r = Ok true /\
  files s1 !! @trigger_file rt = None /\
  (forall i, i ∈ [0; 1; 2] -> files s1 !! @backup_trigger rt i = None) /\
  (forall q, q ∉ @temp_files rt ->
             files s1 !! q = files (start after_emission None) !! q).
Proof.
  apply (@shutdown_cleanup_removes_the_triggers rt idle (start after_emission None));
    reflexivity.
Defined.

Example shutdown_cleanup_run :
  let '(_, s1) := @cleanup_before_shutdown rt idle (start after_emission None) in
  files s1 !! ResponseRuns.shared = Some "ok" /\
  files s1 !! trigger = None /\
  files s1 !! backup "0" = None /\
  files s1 !! backup "1" = None /\
  files s1 !! backup "2" = None.
Proof. vm_compute. done. Qed.

(** The host takes the primary trigger between the test and the
    deletion: the three backups stay. *)
Lemma vanished_file_ends_the_cleanup_witness :
  let s := start after_emission None in
  let s2 := @tick (consuming trigger 1) (@tick (consuming trigger 1) s) in
  (exists e,
      (e = @not_found rt trigger /\ files s2 !! trigger = None \/
       e = @refused rt trigger /\ is_Some (files s2 !! trigger) /\
         @unlink_fails (consuming trigger 1)
           (ops (@tick (consuming trigger 1) s)) = true) /\
      @remove_files rt (consuming trigger 1)
        (trigger :: map backup ["0"; "1"; "2"]) s
      = (Raise e, s2)) /\
  (trigger :: map backup ["0"; "1"; "2"] = @temp_files rt ->
   @cleanup_before_shutdown rt (consuming trigger 1) s = (Ok true, s2)).
Proof.
  apply (@vanished_file_ends_the_cleanup rt (consuming trigger 1) trigger
           (map backup ["0"; "1"; "2"]) (start after_emission None));
    reflexivity.
Defined.

Example vanished_trigger_run :
  let '(r, s1) := @cleanup_before_shutdown rt (consuming trigger 1)
                    (start after_emission None) in
  r = Ok true /\
  files s1 !! trigger = None /\
  files s1 !! backup "0" = Some "{}" /\
  files s1 !! backup "1" = Some "{}" /\
  files s1 !! backup "2" = Some "{}".
Proof. vm_compute. done. Qed.

(** The deletion of the primary trigger is refused: all four files stay,
    and the clean-up reports [True]. *)
Example refused_trigger_run :
  let '(r, s1) := @cleanup_before_shutdown rt (failing_unlinks [1%nat])
                    (start after_emission None) in
  r = Ok true /\
  files s1 !! trigger = Some "{}" /\
  files s1 !! backup "0" = Some "{}" /\
  files s1 !! backup "1" = Some "{}" /\
  files s1 !! backup "2" = Some "{}".
Proof. vm_compute. done. Qed.

Lemma speech_trigger_is_answered_witness :
  let s := start (<[speech_trigger := render SpeechRuns.request]>
                    {[ SpeechRuns.audio := "RIFF" ]}) None in
  let '(r, s1) := @handle_speech_trigger rt idle speech_trigger s in
  let first := @unlink_fails idle (ops (@tick idle (@tick idle s))) in
  let second := @unlink_fails idle (ops (@tick idle (@tick idle (@tick idle s)))) in
  r = Ok tt /\
  @failure_reported rt (PStr "speech_1") "Whisper model not available" s1 /\
  (first = false -> files s1 !! speech_trigger = None) /\
  (first = true -> second = false -> files s1 !! speech_trigger = None) /\
  (first = true -> second = true ->
   files s1 !! speech_trigger = Some (render SpeechRuns.request)).
Proof.
  apply (@speech_trigger_is_answered rt idle speech_trigger
           (render SpeechRuns.request) SpeechRuns.request
           (PDict [("tool", PStr "speech_to_text"); ("trigger_id", PStr "speech_1");
                   ("audio_file", PStr SpeechRuns.audio)])
           (PStr "speech_1") SpeechRuns.audio
           (start (<[speech_trigger := render SpeechRuns.request]>
                     {[ SpeechRuns.audio := "RIFF" ]}) None)).
  - reflexivity.
  - reflexivity.
  - reflexivity.
  - reflexivity.
  - exists [("data", PDict [("tool", PStr "speech_to_text");
                            ("trigger_id", PStr "speech_1");
                            ("audio_file", PStr SpeechRuns.audio)])],
           [("tool", PStr "speech_to_text"); ("trigger_id", PStr "speech_1");
            ("audio_file", PStr SpeechRuns.audio)].
    repeat split; try reflexivity. discriminate.
  - reflexivity.
  - reflexivity.
  - discriminate.
Defined.

Lemma unanswered_review_times_out_witness :
  let '(r, s1) := @_handle_review_gate_chat rt idle 3001 (PDict []) (start ∅ None) in
  (r = Ok (Some review_timeout) /\ 300000 <= clock s1 - clock (start ∅ None)) \/
  r = Ok (Some review_not_triggered).
Proof.
  apply (@unanswered_review_times_out rt idle 3001 [] (start ∅ None)).
  - intros n. simpl. lia.
  - intros p _. apply lookup_empty.
  - intros n fs Hfs. exact Hfs.
  - unfold turns. lia.
Defined.

Lemma plain_answer_is_handed_back_witness :
  let s := start {[ answer_file := two_lines ]} None in
  let trigger_id := "review_" +:+ pretty (clock s) in
  let emitted := @_trigger_cursor_popup_immediately rt idle
                   (@chat_request_of rt [] s) s in
  let waited := @_wait_for_extension_acknowledgement rt idle 301 trigger_id 30
                  emitted.2 in
  let '(r, s1) := @_handle_review_gate_chat rt idle 301 (PDict []) s in
  emitted.1 = Ok true /\
  (exists ack_received, waited.1 = Ok (Some ack_received)) /\
  s1 = (@handle_candidate rt idle trigger_id (@scoped_response rt trigger_id)
          waited.2).2 /\
  r = Ok (Some [TextContent
                  ("User Response: " +:+ strip (universal_newlines two_lines))]) /\
  (@unlink_fails idle (ops (@tick idle (@tick idle waited.2))) = false ->
   files s1 !! @scoped_response rt trigger_id = None) /\
  (@unlink_fails idle (ops (@tick idle (@tick idle waited.2))) = true ->
   files s1 !! @scoped_response rt trigger_id = Some two_lines).
Proof.
  apply (@plain_answer_is_handed_back rt idle 301 [] two_lines
           (start {[ answer_file := two_lines ]} None)).
  - reflexivity.
  - reflexivity.
  - intros n. simpl. lia.
  - intros timestamp. discriminate.
  - reflexivity.
  - reflexivity.
  - discriminate.
  - unfold turns. lia.
Defined.

(** The same call, run: the request is emitted, no acknowledgement comes
    for 30 seconds, then the answer is found. *)
Example plain_answer_run :
  let '(r, s1) := @_handle_review_gate_chat rt idle 301 (PDict [])
                    (start {[ answer_file := " go on " ]} None) in
  r = Ok (Some [TextContent "User Response: go on"]) /\
  files s1 !! answer_file = None /\
  is_Some (files s1 !! trigger) /\
  30000 <= clock s1.
Proof. vm_compute. repeat split; by eauto. Qed.

Lemma other_servers_are_kept_witness :
  let '(r, s1) := @ConfigureMcp.main rt idle
                    ["configure_mcp.py"; mcp_file; review_gate_dir]
                    (start {[ mcp_file := render (PDict old_config) ]} None) in
  r = Ok 0 /\
  exists written,
    files s1 !! mcp_file
    = Some (@json_dumps rt (PDict [("mcpServers", PDict written)])) /\
    written = (ConfigureMcp.dict_pop
                 [("review-gate-v2", PDict []); ("other", other_server)]
                 "review-gate-v2"
               ++ [("review-gate-v2", ConfigureMcp.server_entry review_gate_dir)])%list /\
    forall name,
      dict_get written name
      = if String.eqb name "review-gate-v2"
        then Some (ConfigureMcp.server_entry review_gate_dir)
        else dict_get [("review-gate-v2", PDict []); ("other", other_server)] name.
Proof.
  apply (@other_servers_are_kept rt idle "configure_mcp.py" mcp_file review_gate_dir
           (render (PDict old_config)) old_config
           [("review-gate-v2", PDict []); ("other", other_server)]
           (start {[ mcp_file := render (PDict old_config) ]} None));
    reflexivity.
Defined.

Example merged_config_run :
  let '(r, s1) := @ConfigureMcp.main rt idle
                    ["configure_mcp.py"; mcp_file; review_gate_dir]
                    (start {[ mcp_file := render (PDict old_config) ]} None) in
  r = Ok 0 /\
  files s1 !! mcp_file
  = Some (render
            (PDict [("mcpServers",
                     PDict [("other", other_server);
                            ("review-gate-v2",
                             ConfigureMcp.server_entry review_gate_dir)])])).
Proof. vm_compute. done. Qed.

Lemma unusable_config_is_replaced_witness :
  let '(r, s1) := @ConfigureMcp.main rt idle
                    ["configure_mcp.py"; mcp_file; review_gate_dir]
                    (start {[ mcp_file := "{" ]} None) in
  r = Ok 0 /\
  files s1 !! mcp_file
  = Some (@json_dumps rt
            (PDict [("mcpServers",
                     PDict [("review-gate-v2",
                             ConfigureMcp.server_entry review_gate_dir)])])).
Proof.
  apply (@unusable_config_is_replaced rt idle "configure_mcp.py" mcp_file
           review_gate_dir (start {[ mcp_file := "{" ]} None)).
  - right. reflexivity.
  - reflexivity.
Defined.

Lemma second_run_changes_nothing_witness :
  let '(r1, s1) := @ConfigureMcp.main rt idle
                     ["configure_mcp.py"; mcp_file; review_gate_dir]
                     (start {[ mcp_file := render (PDict old_config) ]} None) in
  let '(r2, s2) := @ConfigureMcp.main rt idle
                     ["configure_mcp.py"; mcp_file; review_gate_dir] s1 in
  r1 = Ok 0 /\ r2 = Ok 0 /\ files s2 = files s1.
Proof.
  apply (@second_run_changes_nothing rt idle "configure_mcp.py" "configure_mcp.py"
           mcp_file review_gate_dir
           (start {[ mcp_file := render (PDict old_config) ]} None)).
  - reflexivity.
  - reflexivity.
  - intros servers [= <-]. reflexivity.
Defined.

Example wrong_usage_run :
  @ConfigureMcp.main rt idle ["configure_mcp.py"; mcp_file] (start ∅ None)
  = (Ok 1, start ∅ None).
Proof. reflexivity. Qed.

Example failed_config_write_run :
  let '(r, s1) := @ConfigureMcp.main rt (failing_writes [1%nat])
                    ["configure_mcp.py"; mcp_file; review_gate_dir] (start ∅ None) in
  r = Ok 1 /\ files s1 = ∅.
Proof. vm_compute. done. Qed.

(** The flag is found set at the third test: two seconds of sleep, then
    the clean-up. *)
Example monitor_run :
  let '(r, s1) := @_monitor_shutdown rt idle (fun n => (2 <=? n)%nat) 5
                    (start after_emission None) in
  r = Ok (Some true) /\ 2000 <= clock s1 /\
  files s1 !! trigger = None /\ files s1 !! ResponseRuns.shared = Some "ok".
Proof. vm_compute. repeat split; congruence. Qed.

Example unset_flag_run :
  let '(r, s1) := @_monitor_shutdown rt idle (fun _ => false) 5
                    (start after_emission None) in
  r = Ok None /\ files s1 !! trigger = Some "{}".
Proof. vm_compute. done. Qed.

Example other_tool_trigger_run :
  let '(r, s1) := @handle_speech_trigger rt idle speech_trigger
                    (start {[ speech_trigger := render other_tool_request ]} None) in
  r = Ok tt /\ files s1 !! speech_trigger = Some (render other_tool_request).
Proof. vm_compute. done. Qed.

Example broken_trigger_run :
  let '(r, s1) := @handle_speech_trigger rt idle speech_trigger
                    (start {[ speech_trigger := "{" ]} None) in
  r = Ok tt /\ files s1 !! speech_trigger = None.
Proof. vm_compute. done. Qed.

(** An answer with three images: the text names them and the images
    follow it. *)
Example answer_with_images_run :
  (@_handle_review_gate_chat rt idle 301 (PDict [])
     (start {[ answer_file := render ResponseRuns.three_images ]} None)).1
  = Ok (Some [ TextContent
                 ("User Response: see these" +:+ newline +:+ newline
                  +:+ "Attached: Image: a.png, Image: b.png, Image: c.png");
               ImageContent "iVBORw0KGgo=" "image/png";
               ImageContent "iVBORw0KGgo=" "image/png";
               ImageContent "iVBORw0KGgo=" "image/png" ]).
Proof. vm_compute. done. Qed.

End ToolExamples.
